(** * DineSight: check-in lifecycle, follow graph, feed and session logic

    A shallow embedding of [app/models.py], [app/db.py] and [app/main.py].

    - The four tables are lists of records, in insertion order.
    - Text is [string]; a character is a code point below 256.
    - Timestamps are [Z], counted in microseconds; every call of
      [datetime.utcnow] is an explicit argument of the function that makes it.
    - The SHA-256 digest is taken as a parameter of the development.
    - What depends on the engine behind [DATABASE_URL] is a parameter as
      well: whether the declared foreign keys are enforced, how [LIKE]
      compares letters and whether it has an escape character, and which
      integers the engine takes as a key.
    - Requests are handled one after the other.  Templates are represented
      by their name, status and context; cookie attributes are left out. *)

From Stdlib Require Import ZArith List String Ascii Bool Lia Permutation Sorted.
Import ListNotations.
Open Scope Z_scope.

(** ** Python text primitives *)

Module Py.

Definition code (c : ascii) : Z := Z.of_N (N_of_ascii c).

(** [str.isspace] on one character, as used by [str.strip]. *)
Definition is_space (c : ascii) : bool :=
  let n := code c in
  ((9 <=? n) && (n <=? 13)) || ((28 <=? n) && (n <=? 32))
  || (n =? 133) || (n =? 160).

(** The white space [int] skips around a literal. *)
Definition is_int_space (c : ascii) : bool :=
  let n := code c in
  ((9 <=? n) && (n <=? 13)) || (n =? 32) || (n =? 133) || (n =? 160).

Fixpoint lstrip_by (sp : ascii -> bool) (s : string) : string :=
  match s with
  | EmptyString => EmptyString
  | String c r => if sp c then lstrip_by sp r else s
  end.

Fixpoint rstrip_by (sp : ascii -> bool) (s : string) : string :=
  match s with
  | EmptyString => EmptyString
  | String c r =>
      match rstrip_by sp r with
      | EmptyString => if sp c then EmptyString else String c EmptyString
      | r' => String c r'
      end
  end.

Definition strip_by (sp : ascii -> bool) (s : string) : string :=
  lstrip_by sp (rstrip_by sp s).

(** [s.strip()] *)
Definition strip (s : string) : string := strip_by is_space s.

(** [len(s)] *)
Definition len (s : string) : Z := Z.of_nat (String.length s).

(** Truth value of a string: [not s] holds for the empty string only. *)
Definition truthy (s : string) : bool :=
  match s with EmptyString => false | String _ _ => true end.

Definition digit_val (c : ascii) : option Z :=
  let n := code c in
  if (48 <=? n) && (n <=? 57) then Some (n - 48) else None.

Definition digit_chr (d : Z) : ascii :=
  match d with
  | 0 => "0" | 1 => "1" | 2 => "2" | 3 => "3" | 4 => "4"
  | 5 => "5" | 6 => "6" | 7 => "7" | 8 => "8" | _ => "9"
  end%char.

(** Decimal digits with single underscores between them; [prev] tells
    whether the character just read was a digit. *)
Fixpoint parse_digits (acc : Z) (prev : bool) (s : string) : option Z :=
  match s with
  | EmptyString => if prev then Some acc else None
  | String c r =>
      match digit_val c with
      | Some d => parse_digits (acc * 10 + d) true r
      | None =>
          if (code c =? 95) && prev then parse_digits acc false r else None
      end
  end.

(** [int(s)] for a string [s]; [None] stands for [ValueError]. *)
Definition int (s : string) : option Z :=
  match strip_by is_int_space s with
  | EmptyString => None
  | String c r =>
      if code c =? 43 then parse_digits 0 false r
      else if code c =? 45 then option_map Z.opp (parse_digits 0 false r)
      else parse_digits 0 false (String c r)
  end.

Fixpoint str_digits (fuel : nat) (n : Z) (acc : string) : string :=
  match fuel with
  | O => acc
  | S f =>
      let acc' := String (digit_chr (n mod 10)) acc in
      if n <? 10 then acc' else str_digits f (n / 10) acc'
  end.

Fixpoint all_chars (p : ascii -> bool) (s : string) : bool :=
  match s with
  | EmptyString => true
  | String c r => p c && all_chars p r
  end.

Definition no_int_space (c : ascii) : bool := negb (is_int_space c).

Definition str_nat (n : Z) : string :=
  str_digits (S (Z.to_nat (Z.log2 n))) n EmptyString.

(** [str(n)] for an integer [n]. *)
Definition str (n : Z) : string :=
  if n <? 0 then String "-" (str_nat (- n)) else str_nat n.

End Py.

(** ** Data model ([app/models.py]) *)

(** [timedelta(hours=1)] in microseconds. *)
Definition one_hour : Z := 3600 * 1000000.
Definition one_minute : Z := 60 * 1000000.

Module User.
Record t := mk
  { id : Z; username : string; password_hash : string; joined_at : Z }.
End User.

Module DiningHall.
Record t := mk { id : Z; hall_name : string }.
End DiningHall.

Module CheckIn.
Record t := mk
  { id : Z; user_id : Z; hall_id : Z; checked_at : Z; expires_at : Z }.
End CheckIn.

Module Follow.
Record t := mk
  { id : Z; follower_id : Z; following_id : Z; made_at : Z }.
End Follow.

(** The database: one list per table, oldest row first. *)
Record Store := mkStore
  { users : list User.t;
    halls : list DiningHall.t;
    checkins : list CheckIn.t;
    follows : list Follow.t }.

Definition empty_store : Store := mkStore [] [] [] [].

(** ** The [LIKE] operator *)

(** Where [LIKE] ignores case it does so for the letters A-Z and a-z only;
    every other character is compared as it is. *)
Definition ascii_fold (c : ascii) : ascii :=
  let n := Py.code c in
  if (65 <=? n) && (n <=? 90) then ascii_of_N (Z.to_N (n + 32)) else c.

Definition like_char_eq (fold : bool) (a b : ascii) : bool :=
  if fold then Ascii.eqb (ascii_fold a) (ascii_fold b) else Ascii.eqb a b.

(** [s LIKE pat]: a percent sign (37) in the pattern stands for any run of
    characters, an underscore (95) for any one character; with [esc] a
    backslash (92) makes the pattern character after it stand for itself.
    A pattern that ends in a lone escape character is an error of the
    engine; no pattern built by [contains] does, as it ends in the percent
    sign that [contains] appends. *)
Fixpoint like_match (fold esc : bool) (pat s : string) {struct pat} : bool :=
  match pat with
  | EmptyString => negb (Py.truthy s)
  | String p pat' =>
      if esc && (Py.code p =? 92) then
        match pat' with
        | EmptyString => false
        | String q pat'' =>
            match s with
            | EmptyString => false
            | String c s' =>
                like_char_eq fold q c && like_match fold esc pat'' s'
            end
        end
      else if Py.code p =? 37 then
        (fix from (s : string) : bool :=
           like_match fold esc pat' s
           || match s with
              | EmptyString => false
              | String _ s' => from s'
              end) s
      else if Py.code p =? 95 then
        match s with
        | EmptyString => false
        | String _ s' => like_match fold esc pat' s'
        end
      else
        match s with
        | EmptyString => false
        | String c s' => like_char_eq fold p c && like_match fold esc pat' s'
        end
  end.

(** What the application takes from outside the repository:
    [hashlib.sha256(raw.encode("utf-8")).hexdigest()], and of the engine
    selected by [DATABASE_URL]
    - whether [LIKE] ignores the case of ASCII letters (SQLite, the default
      engine, does; PostgreSQL does not),
    - whether [LIKE] takes the backslash as escape character when the
      statement names none (PostgreSQL does; SQLite does not),
    - whether the declared foreign keys are enforced (PostgreSQL does;
      SQLite as opened by [app/db.py] does not),
    - the integers whose binding as a statement parameter raises
      [OverflowError] (on SQLite those outside 64 bits),
    - the integers an integer key column can hold. *)
Class External := mkExternal
  { sha256_hexdigest : string -> string;
    like_ignores_case : bool;
    like_backslash_escapes : bool;
    fk_enforced : bool;
    int_overflows : Z -> bool;
    key_fits : Z -> bool }.

(** [column.contains(q)]: rendered [column LIKE '%' || q || '%'], without
    an [ESCAPE] clause and with [q] as it is. *)
Definition sql_contains `{External} (hay needle : string) : bool :=
  like_match like_ignores_case like_backslash_escapes
    ("%" ++ needle ++ "%") hay.

(** ** Store primitives *)

(** Primary key given to a new row, as SQLite chooses it: one more than the
    largest in the table. *)
Definition next_id (ids : list Z) : Z := 1 + fold_right Z.max 0 ids.

(** [db_sess.get(User, user_id)], for a key the engine binds *)
Definition get_user (st : Store) (uid : Z) : option User.t :=
  find (fun u => User.id u =? uid) (users st).

(** [db_sess.get(DiningHall, hall_id)], for a key the engine binds *)
Definition get_hall (st : Store) (hid : Z) : option DiningHall.t :=
  find (fun h => DiningHall.id h =? hid) (halls st).

(** [select(User).where(User.username == name)] *)
Definition users_named (st : Store) (name : string) : list User.t :=
  filter (fun u => String.eqb (User.username u) name) (users st).

(** [select(CheckIn).where(CheckIn.user_id == uid)] *)
Definition checkins_of (st : Store) (uid : Z) : list CheckIn.t :=
  filter (fun c => CheckIn.user_id c =? uid) (checkins st).

(** [select(Follow).where(Follow.follower_id == a, Follow.following_id == b)] *)
Definition is_edge (a b : Z) (f : Follow.t) : bool :=
  (Follow.follower_id f =? a) && (Follow.following_id f =? b).

Definition edges (st : Store) (a b : Z) : list Follow.t :=
  filter (is_edge a b) (follows st).

(** The relationship [user.following]: the rows whose follower is the user. *)
Definition following (st : Store) (u : User.t) : list Follow.t :=
  filter (fun f => Follow.follower_id f =? User.id u) (follows st).

(** [.first()] *)
Definition first {A} (l : list A) : option A := hd_error l.

(** [.order_by(CheckIn.checked_at.desc())]; rows of equal time keep their
    table order. *)
Fixpoint insert_desc (c : CheckIn.t) (l : list CheckIn.t) : list CheckIn.t :=
  match l with
  | [] => [c]
  | d :: l' =>
      if CheckIn.checked_at c <? CheckIn.checked_at d
      then d :: insert_desc c l'
      else c :: l
  end.

Definition order_by_checked_at_desc (l : list CheckIn.t) : list CheckIn.t :=
  fold_right insert_desc [] l.

(** [db_sess.delete(row)]: the row is found by its primary key. *)
Definition delete_checkin (st : Store) (row : CheckIn.t) : Store :=
  mkStore (users st) (halls st)
    (filter (fun c => negb (CheckIn.id c =? CheckIn.id row)) (checkins st))
    (follows st).

Definition delete_follow (st : Store) (row : Follow.t) : Store :=
  mkStore (users st) (halls st) (checkins st)
    (filter (fun f => negb (Follow.id f =? Follow.id row)) (follows st)).

Definition add_user (st : Store) (u : User.t) : Store :=
  mkStore (users st ++ [u]) (halls st) (checkins st) (follows st).

Definition add_hall (st : Store) (h : DiningHall.t) : Store :=
  mkStore (users st) (halls st ++ [h]) (checkins st) (follows st).

Definition add_checkin (st : Store) (c : CheckIn.t) : Store :=
  mkStore (users st) (halls st) (checkins st ++ [c]) (follows st).

Definition add_follow (st : Store) (f : Follow.t) : Store :=
  mkStore (users st) (halls st) (checkins st) (follows st ++ [f]).

Definition is_some {A} (o : option A) : bool :=
  match o with Some _ => true | None => false end.

(** The foreign keys declared on [CheckIn] and [Follow], checked at commit
    by an engine that enforces them. *)
Definition checkin_fk_ok `{External} (st : Store) (c : CheckIn.t) : bool :=
  negb fk_enforced
  || (is_some (get_user st (CheckIn.user_id c))
      && is_some (get_hall st (CheckIn.hall_id c))).

Definition follow_fk_ok `{External} (st : Store) (f : Follow.t) : bool :=
  negb fk_enforced
  || (is_some (get_user st (Follow.follower_id f))
      && is_some (get_user st (Follow.following_id f))).

(** ** Requests and responses *)

(** The parts of a request the handlers read: the [user_id] cookie and the
    [HX-Request] header. *)
Record Request := mkRequest
  { cookie_user_id : option string; hx_request : option string }.

Inductive Cookie :=
| KeepCookie
| SetCookie (value : string)
| DeleteCookie.

(** The values handed to a template. *)
Inductive TemplateContext :=
| LoginCtx (error : option string)
| SignupCtx (error : option string)
| FeedCtx (user : User.t) (rows : list CheckIn.t) (all_halls : list DiningHall.t)
    (now : Z) (other_users : list User.t) (following_ids : list Z)
| DiningCtx (user : User.t) (hall : DiningHall.t) (rows : list CheckIn.t)
    (now : Z)
| ProfileCtx (user target : User.t) (followers following_users : list User.t)
    (following_ids_me : list Z) (latest_checkin : option CheckIn.t)
| PeopleCtx (matches : list User.t) (following_ids : list Z)
| ActivityCtx (user : User.t) (rows : list CheckIn.t) (now : Z).

Inductive Response :=
| RedirectResponse (url : string) (cookie : Cookie)
| TemplateResponse (name : string) (status : Z) (ctx : TemplateContext)
| IntegrityError.

(** ** Handlers ([app/main.py]) *)

(** The user a cookie stands for.  What [int] and the engine refuse beyond
    [ValueError] is added in [read_user_from_cookie_outcome] below. *)
Definition read_user_from_cookie (req : Request) (st : Store) : option User.t :=
  match cookie_user_id req with
  | None => None
  | Some cookie_val =>
      if negb (Py.truthy cookie_val) then None
      else match Py.int cookie_val with
           | None => None
           | Some user_id => get_user st user_id
           end
  end.

Definition make_hash `{External} (raw : string) : string :=
  sha256_hexdigest raw.

Definition check_password `{External} (raw stored : string) : bool :=
  String.eqb (make_hash raw) stored.

Definition to_feed : Response := RedirectResponse "/feed" KeepCookie.
Definition to_root : Response := RedirectResponse "/" KeepCookie.

Definition login_form (status : Z) (error : option string) : Response :=
  TemplateResponse "login.html" status (LoginCtx error).

Definition signup_form (status : Z) (error : option string) : Response :=
  TemplateResponse "signup.html" status (SignupCtx error).

Definition home (req : Request) (st : Store) : Response * Store :=
  match read_user_from_cookie req st with
  | Some _ => (to_feed, st)
  | None => (login_form 200 None, st)
  end.

Definition login_page := home.

Definition login_submit `{External} (req : Request) (username password : string)
    (st : Store) : Response * Store :=
  let username := Py.strip username in
  if negb (Py.truthy username) || negb (Py.truthy password) then
    (login_form 400 (Some "please fill in both fields"%string), st)
  else
    match first (users_named st username) with
    | None => (login_form 400 (Some "wrong username or password"%string), st)
    | Some user_row =>
        if negb (check_password password (User.password_hash user_row)) then
          (login_form 400 (Some "wrong username or password"%string), st)
        else
          (RedirectResponse "/feed" (SetCookie (Py.str (User.id user_row))), st)
    end.

Definition signup_page (req : Request) (st : Store) : Response * Store :=
  match read_user_from_cookie req st with
  | Some _ => (to_feed, st)
  | None => (signup_form 200 None, st)
  end.

(** [t_joined] is the clock read by the default of [User.joined_at]. *)
Definition signup_submit `{External} (req : Request)
    (username password : string) (t_joined : Z) (st : Store)
    : Response * Store :=
  let username := Py.strip username in
  if negb (Py.truthy username) || (Py.len password <? 4) then
    (signup_form 400 (Some "pick a username and a longer password"%string), st)
  else
    match first (users_named st username) with
    | Some _ => (signup_form 400 (Some "that username is taken"%string), st)
    | None =>
        let new_user :=
          User.mk (next_id (map User.id (users st))) username
            (make_hash password) t_joined in
        (RedirectResponse "/feed" (SetCookie (Py.str (User.id new_user))),
         add_user st new_user)
    end.

Definition logout (st : Store) : Response * Store :=
  (RedirectResponse "/login" DeleteCookie, st).

(** The feed query written out in [feed_page], [checkin_post] and
    [clear_checkin]: the check-ins of [me] and of the users [me] follows
    that have not expired at [now], newest first. *)
Definition id_list (st : Store) (me : User.t) : list Z :=
  [User.id me] ++ map Follow.following_id (following st me).

Definition in_ (x : Z) (l : list Z) : bool := existsb (Z.eqb x) l.

Definition feed_rows (st : Store) (me : User.t) (now : Z) : list CheckIn.t :=
  order_by_checked_at_desc
    (filter (fun c => in_ (CheckIn.user_id c) (id_list st me)
                      && (now <? CheckIn.expires_at c))
       (checkins st)).

Definition following_ids (st : Store) (me : User.t) : list Z :=
  map Follow.following_id (following st me).

Definition feed_page (req : Request) (now : Z) (st : Store)
    : Response * Store :=
  match read_user_from_cookie req st with
  | None => (to_root, st)
  | Some me =>
      let other_users :=
        filter (fun u => negb (User.id u =? User.id me)) (users st) in
      (TemplateResponse "feed.html" 200
         (FeedCtx me (feed_rows st me now) (halls st) now other_users
            (following_ids st me)), st)
  end.

(** The query of [dining_page]: unexpired check-ins at one hall. *)
Definition hall_checkins (st : Store) (hall_id now : Z) : list CheckIn.t :=
  order_by_checked_at_desc
    (filter (fun c => (CheckIn.hall_id c =? hall_id)
                      && (now <? CheckIn.expires_at c))
       (checkins st)).

Definition dining_page (hall_id : Z) (req : Request) (now : Z) (st : Store)
    : Response * Store :=
  match read_user_from_cookie req st with
  | None => (to_root, st)
  | Some me =>
      match get_hall st hall_id with
      | None => (to_feed, st)
      | Some hall_row =>
          (TemplateResponse "dining.html" 200
             (DiningCtx me hall_row (hall_checkins st hall_id now) now), st)
      end
  end.

(** The loop of [user_profile] that keeps the users a link resolves to. *)
Definition resolve_users (st : Store) (ids : list Z) : list User.t :=
  flat_map (fun i => match get_user st i with Some u => [u] | None => [] end)
    ids.

Definition user_profile (user_id : Z) (req : Request) (st : Store)
    : Response * Store :=
  match read_user_from_cookie req st with
  | None => (to_root, st)
  | Some me =>
      match get_user st user_id with
      | None => (to_feed, st)
      | Some target =>
          let follower_links :=
            filter (fun f => Follow.following_id f =? User.id target)
              (follows st) in
          let following_links :=
            filter (fun f => Follow.follower_id f =? User.id target)
              (follows st) in
          let latest_checkin :=
            first (order_by_checked_at_desc (checkins_of st (User.id target)))
          in
          (TemplateResponse "profile.html" 200
             (ProfileCtx me target
                (resolve_users st (map Follow.follower_id follower_links))
                (resolve_users st (map Follow.following_id following_links))
                (following_ids st me) latest_checkin), st)
      end
  end.

Definition people_search `{External} (req : Request) (q : string) (st : Store)
    : Response * Store :=
  match read_user_from_cookie req st with
  | None => (to_root, st)
  | Some me =>
      let q_clean := Py.strip q in
      let matches :=
        if Py.truthy q_clean then
          filter (fun u => negb (User.id u =? User.id me)
                           && sql_contains (User.username u) q_clean)
            (users st)
        else [] in
      (TemplateResponse "fragments/people_results.html" 200
         (PeopleCtx matches (following_ids st me)), st)
  end.

(** What [checkin_post] and [clear_checkin] answer after their commit. *)
Definition after_change (req : Request) (me : User.t) (now : Z) (st : Store)
    : Response :=
  match hx_request req with
  | Some v =>
      if String.eqb v "true" then
        TemplateResponse "fragments/activity.html" 200
          (ActivityCtx me (feed_rows st me now) now)
      else to_feed
  | None => to_feed
  end.

(** [t_checked] and [t_expires] are the clock as read by the defaults of
    [CheckIn.checked_at] and [CheckIn.expires_at], in that order; [t_now] is
    the clock read for the activity fragment.  The new row takes its key
    while the old rows are still in the table. *)
Definition checkin_post `{External} (req : Request) (hall_id : Z)
    (t_checked t_expires t_now : Z) (st : Store) : Response * Store :=
  match read_user_from_cookie req st with
  | None => (to_root, st)
  | Some me =>
      match get_hall st hall_id with
      | None => (to_feed, st)
      | Some hall_row =>
          let old_rows := checkins_of st (User.id me) in
          let st1 := fold_left delete_checkin old_rows st in
          let new_row :=
            CheckIn.mk (next_id (map CheckIn.id (checkins st)))
              (User.id me) hall_id t_checked (t_expires + one_hour) in
          if checkin_fk_ok st1 new_row then
            let st2 := add_checkin st1 new_row in
            (after_change req me t_now st2, st2)
          else (IntegrityError, st)
      end
  end.

Definition clear_checkin (req : Request) (t_now : Z) (st : Store)
    : Response * Store :=
  match read_user_from_cookie req st with
  | None => (to_root, st)
  | Some me =>
      let rows := checkins_of st (User.id me) in
      let st1 := fold_left delete_checkin rows st in
      (after_change req me t_now st1, st1)
  end.

(** [t_made] is the clock read by the default of [Follow.made_at]. *)
Definition follow_user `{External} (req : Request) (user_id : Z) (t_made : Z)
    (st : Store) : Response * Store :=
  match read_user_from_cookie req st with
  | None => (to_root, st)
  | Some me =>
      if user_id =? User.id me then (to_feed, st)
      else
        match first (edges st (User.id me) user_id) with
        | Some _ => (to_feed, st)
        | None =>
            let row :=
              Follow.mk (next_id (map Follow.id (follows st)))
                (User.id me) user_id t_made in
            if follow_fk_ok st row then (to_feed, add_follow st row)
            else (IntegrityError, st)
        end
  end.

Definition unfollow_user (req : Request) (user_id : Z) (st : Store)
    : Response * Store :=
  match read_user_from_cookie req st with
  | None => (to_root, st)
  | Some me =>
      let rows := edges st (User.id me) user_id in
      (to_feed, fold_left delete_follow rows st)
  end.


(** ** Start-up ([app/db.py]) *)

Definition hash_password `{External} (raw : string) : string :=
  sha256_hexdigest raw.

Definition seed_halls : list string :=
  [ "Hampshire Dining Commons"; "Berkshire Dining Commons";
    "Worcester Dining Commons"; "Franklin Dining Commons" ]%string.

Definition seed_users : list (string * string) :=
  [ ("Mahad", "mahad123"); ("Sarah", "sarah123"); ("Varisha", "varisha123");
    ("Robert", "robert123"); ("Kazi", "kazi123"); ("Humza", "humza123");
    ("Wajdan", "wajdan123") ]%string.

(** [session_obj.add_all]: the rows take their keys in the order given. *)
Definition insert_hall (st : Store) (name : string) : Store :=
  add_hall st (DiningHall.mk (next_id (map DiningHall.id (halls st))) name).

Definition insert_user (st : Store) (u : string * string * Z) : Store :=
  let '(name, hash, t_joined) := u in
  add_user st (User.mk (next_id (map User.id (users st))) name hash t_joined).

(** [now k] is the clock read by the default of [joined_at] of the [k]-th
    seeded user. *)
Definition seed_if_empty `{External} (now : nat -> Z) (st : Store) : Store :=
  let st1 :=
    match halls st with
    | [] => fold_left insert_hall seed_halls st
    | _ :: _ => st
    end in
  match users st1 with
  | [] =>
      fold_left insert_user
        (map (fun k_u => (fst (snd k_u), hash_password (snd (snd k_u)),
                          now (fst k_u)))
           (combine (seq 0 (List.length seed_users)) seed_users))
        st1
  | _ :: _ => st1
  end.

Definition setup_db `{External} (now : nat -> Z) (st : Store) : Store :=
  seed_if_empty now st.

(** ** The application as a transition system *)

Inductive Op :=
| Boot (now : nat -> Z)
| Home (req : Request)
| LoginPage (req : Request)
| LoginSubmit (req : Request) (username password : string)
| SignupPage (req : Request)
| SignupSubmit (req : Request) (username password : string) (t_joined : Z)
| Logout
| FeedPage (req : Request) (now : Z)
| DiningPage (hall_id : Z) (req : Request) (now : Z)
| UserProfile (user_id : Z) (req : Request)
| PeopleSearch (req : Request) (q : string)
| CheckinPost (req : Request) (hall_id : Z) (t_checked t_expires t_now : Z)
| ClearCheckin (req : Request) (t_now : Z)
| FollowUser (req : Request) (user_id : Z) (t_made : Z)
| UnfollowUser (req : Request) (user_id : Z).

Definition handle `{External} (op : Op) (st : Store) : Response * Store :=
  match op with
  | Boot now => (to_root, setup_db now st)
  | Home req => home req st
  | LoginPage req => login_page req st
  | LoginSubmit req u p => login_submit req u p st
  | SignupPage req => signup_page req st
  | SignupSubmit req u p t => signup_submit req u p t st
  | Logout => logout st
  | FeedPage req now => feed_page req now st
  | DiningPage h req now => dining_page h req now st
  | UserProfile u req => user_profile u req st
  | PeopleSearch req q => people_search req q st
  | CheckinPost req h t1 t2 t3 => checkin_post req h t1 t2 t3 st
  | ClearCheckin req t => clear_checkin req t st
  | FollowUser req u t => follow_user req u t st
  | UnfollowUser req u => unfollow_user req u st
  end.

(** The store after a sequence of operations, one after the other. *)
Definition run `{External} (ops : list Op) (st : Store) : Store :=
  fold_left (fun s op => snd (handle op s)) ops st.

(** A request that carries the session cookie of user [uid]. *)
Definition request_of (uid : Z) : Request :=
  mkRequest (Some (Py.str uid)) None.

(** ** Wording of the specification used in the statements *)

(** [needle] occurs in [hay] as a run of consecutive characters. *)
Fixpoint is_substring (needle hay : string) : bool :=
  String.prefix needle hay
  || match hay with
     | EmptyString => false
     | String _ r => is_substring needle r
     end.

(** A check-in is active at [now] when it has not expired yet. *)
Definition active (now : Z) (c : CheckIn.t) : bool :=
  now <? CheckIn.expires_at c.

(** The viewer follows the user [uid]. *)
Definition follows_user (st : Store) (me : User.t) (uid : Z) : Prop :=
  exists f, In f (follows st) /\ Follow.follower_id f = User.id me
            /\ Follow.following_id f = uid.

(** A stored check-in that belongs in the feed of [me] at [now]: owned by
    [me] or by somebody [me] follows, and not expired. *)
Definition in_feed_of (st : Store) (me : User.t) (now : Z) (c : CheckIn.t)
    : Prop :=
  In c (checkins st)
  /\ (CheckIn.user_id c = User.id me \/ follows_user st me (CheckIn.user_id c))
  /\ now < CheckIn.expires_at c.

(** [a] may stand before [b] in a listing by creation time, newest first. *)
Definition newest_first (a b : CheckIn.t) : Prop :=
  CheckIn.checked_at b <= CheckIn.checked_at a.

(** At most one check-in row per user. *)
Definition one_checkin_per_user (st : Store) : Prop :=
  forall uid, (List.length (checkins_of st uid) <= 1)%nat.

(** The unique index on [User.username]. *)
Definition usernames_unique (st : Store) : Prop :=
  NoDup (map User.username (users st)).

(** ** Sample environments and stores *)

(** A stand-in digest for running examples. *)
Definition toy_digest (raw : string) : string := ("sha256:" ++ raw)%string.

(** Signed integers of [bits] bits. *)
Definition signed_range (bits : Z) (k : Z) : bool :=
  (- 2 ^ (bits - 1) <=? k) && (k <? 2 ^ (bits - 1)).

(** SQLite: [LIKE] ignores ASCII case and has no escape character, foreign
    keys are not enforced, integers have 64 bits and the driver refuses to
    bind any other. *)
Definition sqlite_like : External :=
  mkExternal toy_digest true false false
    (fun k => negb (signed_range 64 k)) (signed_range 64).

(** PostgreSQL: [LIKE] is case-sensitive with the backslash as escape
    character, foreign keys are enforced, the key columns are 32-bit
    [INTEGER]s and parameters of any size are sent as they are. *)
Definition postgres_like : External :=
  mkExternal toy_digest false true true
    (fun _ => false) (signed_range 32).

Definition seeded (E : External) : Store :=
  @setup_db E (fun k => Z.of_nat k) empty_store.

Definition mahad (E : External) : User.t :=
  User.mk 1 "Mahad" (@hash_password E "mahad123") 0.

(** The seeded store after Mahad (1) checked in at hall 3 and Sarah (2) at
    hall 1, and Mahad started to follow Sarah and Varisha (3). *)
Definition sample_store (E : External) : Store :=
  @run E
    [ CheckinPost (request_of 1) 3 100 101 102;
      CheckinPost (request_of 2) 1 200 201 202;
      FollowUser (request_of 1) 2 300;
      FollowUser (request_of 1) 3 301 ]
    (seeded E).

(** ** Configuration ([app/config.py]) and engine address ([app/db.py]) *)

(** [s.lower()] on code points below 256. *)
Definition lower_char (c : ascii) : ascii :=
  let n := Py.code c in
  if ((65 <=? n) && (n <=? 90))
     || ((192 <=? n) && (n <=? 222) && negb (n =? 215))
  then ascii_of_N (Z.to_N (n + 32)) else c.

Fixpoint py_lower (s : string) : string :=
  match s with
  | EmptyString => EmptyString
  | String c r => String (lower_char c) (py_lower r)
  end.

(** [s[n:]] *)
Fixpoint py_drop (n : nat) (s : string) : string :=
  match n, s with
  | O, _ => s
  | S _, EmptyString => EmptyString
  | S m, String _ r => py_drop m r
  end.

(** The environment variables the application reads; [None] is an unset
    variable. *)
Record Environ := mkEnviron
  { env_DATABASE_URL : option string;
    env_ENVIRONMENT : option string;
    env_COOKIE_DOMAIN : option string }.

(** [os.getenv(name, default)] *)
Definition getenv (v : option string) (default : string) : string :=
  match v with Some s => s | None => default end.

Definition DATABASE_URL (env : Environ) : string :=
  getenv (env_DATABASE_URL env) "sqlite:///./dinesight.db".

Definition ENVIRONMENT (env : Environ) : string :=
  getenv (env_ENVIRONMENT env) "development".

(** [os.getenv("COOKIE_DOMAIN") or None] *)
Definition COOKIE_DOMAIN (env : Environ) : option string :=
  match env_COOKIE_DOMAIN env with
  | Some s => if Py.truthy s then Some s else None
  | None => None
  end.

Definition is_production (env : Environ) : bool :=
  String.eqb (py_lower (Py.strip (ENVIRONMENT env))) "production".

(** The keyword arguments of [set_cookie] and [delete_cookie]; a key that is
    not in the dictionary is [None]. *)
Record CookieKwargs := mkCookieKwargs
  { kw_httponly : bool;
    kw_samesite : string;
    kw_path : string;
    kw_secure : option bool;
    kw_domain : option string }.

Definition _cookie_kwargs (env : Environ) : CookieKwargs :=
  mkCookieKwargs true "lax" "/"
    (if is_production env then Some true else None)
    (match COOKIE_DOMAIN env with
     | Some d => if Py.truthy d then Some d else None
     | None => None
     end).

(** The address the engine is created with: a [postgres://] scheme is
    rewritten to [postgresql://]. *)
Definition engine_url (env : Environ) : string :=
  let _url := DATABASE_URL env in
  if String.prefix "postgres://" _url
  then ("postgresql://" ++ py_drop 11 _url)%string
  else _url.

(** ** Vocabulary of the further properties *)

(** Every table has distinct primary keys. *)
Definition keys_distinct (st : Store) : Prop :=
  NoDup (map User.id (users st)) /\ NoDup (map DiningHall.id (halls st))
  /\ NoDup (map CheckIn.id (checkins st))
  /\ NoDup (map Follow.id (follows st)).

(** User names are distinct, not empty and carry no white space around
    them. *)
Definition names_clean (st : Store) : Prop :=
  NoDup (map User.username (users st))
  /\ forall u, In u (users st) ->
       User.username u <> EmptyString
       /\ Py.strip (User.username u) = User.username u.

(** At most one edge per ordered pair, and nobody follows themselves. *)
Definition follow_graph_clean (st : Store) : Prop :=
  (forall a b, (List.length (edges st a b) <= 1)%nat)
  /\ forall f, In f (follows st) ->
       Follow.follower_id f <> Follow.following_id f.

(** The request of an operation that is only served to a signed-in user. *)
Definition guarded_request (op : Op) : option Request :=
  match op with
  | FeedPage req _ | DiningPage _ req _ | UserProfile _ req
  | PeopleSearch req _ | CheckinPost req _ _ _ _ | ClearCheckin req _
  | FollowUser req _ _ | UnfollowUser req _ => Some req
  | _ => None
  end.

(** The operations whose handler has no [add], [delete] or [commit]. *)
Definition reads_only (op : Op) : bool :=
  match op with
  | Home _ | LoginPage _ | LoginSubmit _ _ _ | SignupPage _ | Logout
  | FeedPage _ _ | DiningPage _ _ _ | UserProfile _ _ | PeopleSearch _ _ =>
      true
  | _ => false
  end.

(** ** Limits of [int] and of the engine's integers *)

(** [sys.get_int_max_str_digits()], as the interpreter starts. *)
Definition int_max_str_digits : Z := 4300.

(** The decimal digits of a text. *)
Fixpoint digit_count (s : string) : Z :=
  match s with
  | EmptyString => 0
  | String c r => (if is_some (Py.digit_val c) then 1 else 0) + digit_count r
  end.

(** [int(s)] with the limit on the length of a literal: more than
    [int_max_str_digits] digits are a [ValueError] as well. *)
Definition py_int (s : string) : option Z :=
  if int_max_str_digits <? digit_count s then None else Py.int s.

Inductive Exception :=
| OverflowError.

(** How a call ends: with a value, or with an exception that nothing in
    the application catches. *)
Inductive Outcome (A : Type) :=
| Returned (a : A)
| Raised (e : Exception).

Arguments Returned {A} a.
Arguments Raised {A} e.

(** [read_user_from_cookie] with the ways its two calls fail.  [int] is
    inside [try ... except (ValueError, TypeError)], so a text it refuses,
    for its length too, makes the request anonymous.  [db_sess.get] is
    outside, so an integer the engine refuses to bind ends the request with
    [OverflowError].  On the requests whose cookie has at most
    [int_max_str_digits] digits and a key the engine binds, this is
    [read_user_from_cookie] above. *)
Definition read_user_from_cookie_outcome `{External} (req : Request)
    (st : Store) : Outcome (option User.t) :=
  match cookie_user_id req with
  | None => Returned None
  | Some cookie_val =>
      if negb (Py.truthy cookie_val) then Returned None
      else match py_int cookie_val with
           | None => Returned None
           | Some user_id =>
               if int_overflows user_id then Raised OverflowError
               else Returned (get_user st user_id)
           end
  end.

(** The cookie, if any, is within the length [int] accepts. *)
Definition cookie_short (req : Request) : bool :=
  match cookie_user_id req with
  | None => true
  | Some cookie_val => digit_count cookie_val <=? int_max_str_digits
  end.

(** The white space that may stand around an integer literal. *)
Definition int_padding (c : ascii) : Prop :=
  In (Py.code c) [9; 10; 11; 12; 13; 32; 133; 160].

(** The characters the argument of [int] may be written with: digits, the
    two signs, the underscore, and the white space above. *)
Definition int_literal_char (c : ascii) : bool :=
  let n := Py.code c in
  ((48 <=? n) && (n <=? 57)) || (n =? 43) || (n =? 45) || (n =? 95)
  || ((9 <=? n) && (n <=? 13)) || (n =? 32) || (n =? 133) || (n =? 160).

(** [c * n] for a character [c]. *)
Fixpoint repeat_char (c : ascii) (n : nat) : string :=
  match n with
  | O => EmptyString
  | S m => String c (repeat_char c m)
  end.

(** ** Vocabulary of the search *)

(** The characters that stand for themselves in a [LIKE] pattern. *)
Definition like_plain (esc : bool) (c : ascii) : bool :=
  negb (Py.code c =? 37) && negb (Py.code c =? 95)
  && negb (esc && (Py.code c =? 92)).

Fixpoint fold_text (s : string) : string :=
  match s with
  | EmptyString => EmptyString
  | String c r => String (ascii_fold c) (fold_text r)
  end.

(** A text as [LIKE] compares it: with its ASCII letters in lower case
    where the engine ignores their case, as it is otherwise. *)
Definition like_text (fold : bool) (s : string) : string :=
  if fold then fold_text s else s.

(** [hay] begins with [needle], as [LIKE] compares characters. *)
Fixpoint starts_with (fold : bool) (needle hay : string) : bool :=
  match needle, hay with
  | EmptyString, _ => true
  | String _ _, EmptyString => false
  | String a n', String b h' => like_char_eq fold a b && starts_with fold n' h'
  end.

(** * Properties *)

(** ** Text primitives *)

Section PyFacts.

Import Py.

Lemma digit_chr_cases (d : Z) :
  0 <= d < 10 -> code (digit_chr d) = 48 + d.
Proof.
  intros Hd.
  assert (d = 0 \/ d = 1 \/ d = 2 \/ d = 3 \/ d = 4 \/ d = 5 \/ d = 6
          \/ d = 7 \/ d = 8 \/ d = 9) as Hc by lia.
  repeat (destruct Hc as [-> | Hc]; [reflexivity|]). subst d. reflexivity.
Qed.

Lemma digit_val_chr (d : Z) :
  0 <= d < 10 -> digit_val (digit_chr d) = Some d.
Proof.
  intros Hd. unfold digit_val. rewrite (digit_chr_cases d Hd).
  replace ((48 <=? 48 + d) && (48 + d <=? 57)) with true.
  - f_equal. lia.
  - symmetry. apply andb_true_iff. split; apply Z.leb_le; lia.
Qed.

Lemma digit_not_space (c : ascii) (d : Z) :
  digit_val c = Some d -> is_int_space c = false.
Proof.
  unfold digit_val, is_int_space. intros H.
  destruct ((48 <=? code c) && (code c <=? 57)) eqn:E; [|discriminate].
  apply andb_true_iff in E. destruct E as [E1 E2].
  apply Z.leb_le in E1. apply Z.leb_le in E2.
  repeat rewrite orb_false_iff. repeat split.
  - apply andb_false_iff. right. apply Z.leb_gt. lia.
  - apply Z.eqb_neq. lia.
  - apply Z.eqb_neq. lia.
  - apply Z.eqb_neq. lia.
Qed.

Lemma rstrip_by_id (sp : ascii -> bool) (s : string) :
  all_chars (fun c => negb (sp c)) s = true -> rstrip_by sp s = s.
Proof.
  induction s as [|c r IH]; simpl; intros H; [reflexivity|].
  apply andb_true_iff in H. destruct H as [Hc Hr].
  rewrite (IH Hr). apply negb_true_iff in Hc. rewrite Hc.
  destruct r; reflexivity.
Qed.

Lemma strip_by_id (sp : ascii -> bool) (s : string) :
  all_chars (fun c => negb (sp c)) s = true -> strip_by sp s = s.
Proof.
  intros H. unfold strip_by. rewrite (rstrip_by_id sp s H).
  destruct s as [|c r]; simpl; [reflexivity|].
  simpl in H. apply andb_true_iff in H. destruct H as [Hc _].
  apply negb_true_iff in Hc. now rewrite Hc.
Qed.

Lemma str_digits_no_space (f : nat) :
  forall n acc, 0 <= n ->
    all_chars no_int_space acc = true ->
    all_chars no_int_space (str_digits f n acc) = true.
Proof.
  induction f as [|f IH]; intros n acc Hn Hacc; simpl; [exact Hacc|].
  assert (all_chars no_int_space (String (digit_chr (n mod 10)) acc) = true)
    as Hacc'.
  { simpl. rewrite Hacc, andb_true_r. unfold no_int_space.
    apply negb_true_iff.
    apply (digit_not_space _ (n mod 10)), digit_val_chr.
    apply Z.mod_pos_bound. lia. }
  destruct (n <? 10); [exact Hacc'|].
  apply IH; [apply Z.div_pos; lia | exact Hacc'].
Qed.

Lemma parse_str_digits (f : nat) :
  forall n rest p, 0 <= n < 2 ^ Z.of_nat (S f) ->
    parse_digits 0 p (str_digits (S f) n rest) = parse_digits n true rest.
Proof.
  induction f as [|f IH]; intros n rest p Hn.
  - cbn [str_digits]. change (2 ^ Z.of_nat 1) with 2 in Hn.
    destruct (n <? 10) eqn:E; [|apply Z.ltb_ge in E; lia].
    cbn [parse_digits]. rewrite digit_val_chr by (apply Z.mod_pos_bound; lia).
    rewrite Z.mod_small by lia. reflexivity.
  - change (str_digits (S (S f)) n rest) with
      (let acc' := String (digit_chr (n mod 10)) rest in
       if n <? 10 then acc' else str_digits (S f) (n / 10) acc').
    cbv zeta. destruct (n <? 10) eqn:E.
    + apply Z.ltb_lt in E. cbn [parse_digits].
      rewrite digit_val_chr by (apply Z.mod_pos_bound; lia).
      rewrite Z.mod_small by lia. reflexivity.
    + apply Z.ltb_ge in E. rewrite IH.
      * cbn [parse_digits].
        rewrite digit_val_chr by (apply Z.mod_pos_bound; lia).
        f_equal. pose proof (Z.div_mod n 10). lia.
      * split; [apply Z.div_pos; lia|].
        apply Z.div_lt_upper_bound; [lia|].
        rewrite (Nat2Z.inj_succ (S f)), Z.pow_succ_r in Hn by lia. lia.
Qed.

Lemma parse_str_nat (n : Z) (p : bool) :
  0 <= n -> parse_digits 0 p (str_nat n) = Some n.
Proof.
  intros Hn. unfold str_nat. rewrite parse_str_digits; [reflexivity|].
  split; [exact Hn|].
  rewrite Nat2Z.inj_succ, Z2Nat.id by apply Z.log2_nonneg.
  destruct (Z.eq_dec n 0) as [->|Hnz]; [reflexivity|].
  apply Z.log2_spec. lia.
Qed.

Lemma str_nat_shape (n : Z) :
  0 <= n ->
  exists c r d, str_nat n = String c r /\ digit_val c = Some d.
Proof.
  intros Hn. pose proof (parse_str_nat n false Hn) as Hp.
  destruct (str_nat n) as [|c r] eqn:E; [discriminate|].
  cbn [parse_digits] in Hp.
  destruct (digit_val c) as [d|] eqn:Ed; [now exists c, r, d|].
  rewrite andb_false_r in Hp. discriminate.
Qed.

(** [int(str(n)) == n] *)
Lemma int_str (n : Z) : Py.int (Py.str n) = Some n.
Proof.
  unfold Py.int, Py.str. destruct (n <? 0) eqn:E.
  - apply Z.ltb_lt in E. rewrite strip_by_id.
    + change (code "-" =? 43) with false. change (code "-" =? 45) with true.
      cbv iota. rewrite parse_str_nat by lia. simpl. f_equal. lia.
    + cbn [all_chars]. apply andb_true_iff. split; [reflexivity|].
      apply (str_digits_no_space _ (- n) EmptyString); [lia|reflexivity].
  - apply Z.ltb_ge in E. rewrite strip_by_id.
    + destruct (str_nat_shape n E) as (c & r & d & Hs & Hd).
      pose proof (parse_str_nat n false E) as Hp. rewrite Hs in Hp |- *.
      unfold digit_val in Hd.
      destruct ((48 <=? code c) && (code c <=? 57)) eqn:Hr; [|discriminate].
      apply andb_true_iff in Hr. destruct Hr as [H1 H2].
      apply Z.leb_le in H1.
      replace (code c =? 43) with false by (symmetry; apply Z.eqb_neq; lia).
      replace (code c =? 45) with false by (symmetry; apply Z.eqb_neq; lia).
      exact Hp.
    + apply (str_digits_no_space _ n EmptyString); [lia|reflexivity].
Qed.

Lemma str_truthy (n : Z) : Py.truthy (Py.str n) = true.
Proof.
  pose proof (int_str n) as H. destruct (Py.str n); [discriminate|reflexivity].
Qed.

End PyFacts.

(** ** Stripping twice *)

Section StripFacts.

Variable sp : ascii -> bool.

Lemma rstrip_by_fixed (s : string) :
  Py.rstrip_by sp (Py.rstrip_by sp s) = Py.rstrip_by sp s.
Proof.
  induction s as [|c r IH]; [reflexivity|]. cbn [Py.rstrip_by].
  destruct (Py.rstrip_by sp r) as [|d r'] eqn:Er.
  - destruct (sp c) eqn:Ec; [reflexivity|]. simpl. now rewrite Ec.
  - cbn [Py.rstrip_by]. cbn [Py.rstrip_by] in IH.
    destruct (Py.rstrip_by sp r') as [|e r''] eqn:Er'.
    + destruct (sp d); [discriminate|]. injection IH as <-. reflexivity.
    + now rewrite IH.
Qed.

Lemma rstrip_by_tail (c : ascii) (r : string) :
  Py.rstrip_by sp (String c r) = String c r -> Py.rstrip_by sp r = r.
Proof.
  cbn [Py.rstrip_by]. destruct (Py.rstrip_by sp r) as [|d r'] eqn:Er.
  - destruct (sp c); [discriminate|]. now intros [= <-].
  - now intros [= <-].
Qed.

Lemma rstrip_lstrip (s : string) :
  Py.rstrip_by sp s = s ->
  Py.rstrip_by sp (Py.lstrip_by sp s) = Py.lstrip_by sp s.
Proof.
  induction s as [|c r IH]; intros Hs; [reflexivity|].
  cbn [Py.lstrip_by]. destruct (sp c); [|exact Hs].
  apply IH. now apply (rstrip_by_tail c).
Qed.

Lemma lstrip_by_fixed (s : string) :
  Py.lstrip_by sp (Py.lstrip_by sp s) = Py.lstrip_by sp s.
Proof.
  induction s as [|c r IH]; [reflexivity|]. cbn [Py.lstrip_by].
  destruct (sp c) eqn:Ec; [exact IH|]. cbn [Py.lstrip_by]. now rewrite Ec.
Qed.

Lemma strip_by_fixed (s : string) :
  Py.strip_by sp (Py.strip_by sp s) = Py.strip_by sp s.
Proof.
  unfold Py.strip_by at 1 2.
  rewrite (rstrip_lstrip (Py.rstrip_by sp s)) by apply rstrip_by_fixed.
  apply lstrip_by_fixed.
Qed.

End StripFacts.

Lemma strip_fixed (s : string) : Py.strip (Py.strip s) = Py.strip s.
Proof. apply strip_by_fixed. Qed.

(** ** What [int] accepts *)

Section IntFacts.

Lemma int_of_strip (s : string) :
  Py.int s = Py.int (Py.strip_by Py.is_int_space s).
Proof. unfold Py.int. now rewrite strip_by_fixed. Qed.

Lemma py_int_short (s : string) :
  digit_count s <= int_max_str_digits -> py_int s = Py.int s.
Proof.
  intros H. unfold py_int.
  destruct (int_max_str_digits <? digit_count s) eqn:E; [|reflexivity].
  apply Z.ltb_lt in E. lia.
Qed.

Lemma py_int_long (s : string) :
  int_max_str_digits < digit_count s -> py_int s = None.
Proof. intros H. unfold py_int. apply Z.ltb_lt in H. now rewrite H. Qed.

Lemma py_int_some (s : string) (n : Z) :
  py_int s = Some n -> Py.int s = Some n /\ Py.truthy s = true.
Proof.
  unfold py_int. destruct (int_max_str_digits <? digit_count s);
    [discriminate|].
  intros H. split; [exact H|]. now destruct s.
Qed.

Lemma digit_count_app (s t : string) :
  digit_count (s ++ t) = digit_count s + digit_count t.
Proof.
  induction s as [|c s IH]; cbn [append digit_count]; [reflexivity|].
  rewrite IH. lia.
Qed.

Lemma padding_is_space (c : ascii) :
  int_padding c -> Py.is_int_space c = true /\ Py.digit_val c = None.
Proof.
  unfold int_padding, Py.is_int_space, Py.digit_val. cbn [In].
  intros H.
  repeat (destruct H as [<- | H]; [split; reflexivity|]). contradiction.
Qed.

Lemma literal_char_cases (c : ascii) :
  int_literal_char c = false ->
  Py.digit_val c = None /\ Py.is_int_space c = false
  /\ (Py.code c =? 43) = false /\ (Py.code c =? 45) = false
  /\ (Py.code c =? 95) = false.
Proof.
  unfold int_literal_char, Py.digit_val, Py.is_int_space.
  cbv zeta. generalize (Py.code c). intros n H.
  rewrite !orb_false_iff, !andb_false_iff, !Z.leb_gt, !Z.eqb_neq in H.
  replace ((48 <=? n) && (n <=? 57)) with false
    by (symmetry; rewrite andb_false_iff, !Z.leb_gt; lia).
  rewrite !orb_false_iff, !andb_false_iff, !Z.leb_gt, !Z.eqb_neq.
  repeat split; lia.
Qed.

Lemma in_lstrip (sp : ascii -> bool) (ch : ascii) (s : string) :
  sp ch = false -> In ch (list_ascii_of_string s) ->
  In ch (list_ascii_of_string (Py.lstrip_by sp s)).
Proof.
  intros Hch. induction s as [|c r IH]; [tauto|].
  cbn [Py.lstrip_by]. destruct (sp c) eqn:Ec; [|tauto].
  cbn [list_ascii_of_string In]. intros [-> | Hin]; [congruence|].
  now apply IH.
Qed.

Lemma in_rstrip (sp : ascii -> bool) (ch : ascii) (s : string) :
  sp ch = false -> In ch (list_ascii_of_string s) ->
  In ch (list_ascii_of_string (Py.rstrip_by sp s)).
Proof.
  intros Hch. induction s as [|c r IH]; [tauto|].
  cbn [Py.rstrip_by list_ascii_of_string In]. intros [-> | Hin].
  - destruct (Py.rstrip_by sp r); [rewrite Hch|]; now left.
  - specialize (IH Hin). destruct (Py.rstrip_by sp r) as [|d r'];
      [contradiction|]. now right.
Qed.

Lemma parse_digits_bad (ch : ascii) (s : string) :
  Py.digit_val ch = None -> (Py.code ch =? 95) = false ->
  In ch (list_ascii_of_string s) ->
  forall acc prev, Py.parse_digits acc prev s = None.
Proof.
  intros Hd Hu. induction s as [|c r IH]; [contradiction|].
  cbn [list_ascii_of_string In Py.parse_digits]. intros [-> | Hin] acc prev.
  - now rewrite Hd, Hu.
  - destruct (Py.digit_val c); [now apply IH|].
    destruct ((Py.code c =? 95) && prev); [now apply IH | reflexivity].
Qed.

(** A character no integer literal is written with makes [int] fail. *)
Lemma int_bad_char (ch : ascii) (s : string) :
  int_literal_char ch = false -> In ch (list_ascii_of_string s) ->
  Py.int s = None.
Proof.
  intros Hch Hin.
  destruct (literal_char_cases ch Hch) as (Hd & Hsp & Hplus & Hminus & Hu).
  assert (In ch (list_ascii_of_string (Py.strip_by Py.is_int_space s)))
    as Hin'.
  { unfold Py.strip_by. now apply in_lstrip, in_rstrip. }
  unfold Py.int. destruct (Py.strip_by Py.is_int_space s) as [|c r];
    [contradiction|].
  destruct (Py.code c =? 43) eqn:E43; [|destruct (Py.code c =? 45) eqn:E45].
  - destruct Hin' as [-> | Hin']; [congruence|].
    now apply parse_digits_bad with (ch := ch).
  - destruct Hin' as [-> | Hin']; [congruence|].
    now rewrite (parse_digits_bad ch r Hd Hu Hin').
  - now apply parse_digits_bad with (ch := ch).
Qed.

Lemma rstrip_by_snoc (sp : ascii -> bool) (b : ascii) (s : string) :
  sp b = true -> Py.all_chars (fun c => negb (sp c)) s = true ->
  Py.rstrip_by sp (s ++ String b EmptyString) = s.
Proof.
  intros Hb. induction s as [|c r IH]; cbn [append Py.rstrip_by Py.all_chars].
  - now rewrite Hb.
  - intros H. apply andb_true_iff in H as [Hc Hr]. rewrite (IH Hr).
    apply negb_true_iff in Hc. rewrite Hc. now destruct r.
Qed.

Lemma strip_by_padded (sp : ascii -> bool) (a b : ascii) (s : string) :
  sp a = true -> sp b = true ->
  Py.all_chars (fun c => negb (sp c)) s = true -> s <> EmptyString ->
  Py.strip_by sp (String a (s ++ String b EmptyString)) = s.
Proof.
  intros Ha Hb Hs Hne. unfold Py.strip_by. cbn [Py.rstrip_by].
  rewrite (rstrip_by_snoc sp b s Hb Hs).
  destruct s as [|c r]; [contradiction|].
  cbn [Py.lstrip_by]. rewrite Ha.
  cbn [Py.all_chars] in Hs. apply andb_true_iff in Hs as [Hc _].
  apply negb_true_iff in Hc. now rewrite Hc.
Qed.

Lemma str_no_space (n : Z) :
  Py.all_chars (fun c => negb (Py.is_int_space c)) (Py.str n) = true.
Proof.
  unfold Py.str. destruct (n <? 0) eqn:E.
  - apply Z.ltb_lt in E. cbn [Py.all_chars]. apply andb_true_iff.
    split; [reflexivity|].
    apply (str_digits_no_space _ (- n) EmptyString); [lia|reflexivity].
  - apply Z.ltb_ge in E.
    apply (str_digits_no_space _ n EmptyString); [lia|reflexivity].
Qed.

(** White space around the text of an integer is skipped. *)
Lemma int_str_padded (a b : ascii) (n : Z) :
  int_padding a -> int_padding b ->
  Py.int (String a (Py.str n ++ String b EmptyString)) = Some n.
Proof.
  intros Ha Hb. rewrite int_of_strip, strip_by_padded.
  - apply int_str.
  - apply (padding_is_space a Ha).
  - apply (padding_is_space b Hb).
  - apply str_no_space.
  - pose proof (str_truthy n) as H. intros Hs. now rewrite Hs in H.
Qed.

Lemma digit_count_padded (a b : ascii) (s : string) :
  int_padding a -> int_padding b ->
  digit_count (String a (s ++ String b EmptyString)) = digit_count s.
Proof.
  intros Ha Hb. cbn [digit_count]. rewrite digit_count_app. cbn [digit_count].
  destruct (padding_is_space a Ha) as [_ ->].
  destruct (padding_is_space b Hb) as [_ ->]. cbn [is_some]. lia.
Qed.

End IntFacts.

(** ** Tables *)

Section TableFacts.

Context {A : Type}.

Lemma next_id_above (ids : list Z) (x : Z) : In x ids -> x < next_id ids.
Proof.
  unfold next_id. induction ids as [|y ids IH]; cbn [fold_right In]; [tauto|].
  intros [-> | Hin]; [lia|]. specialize (IH Hin). lia.
Qed.

Lemma next_id_fresh (ids : list Z) : ~ In (next_id ids) ids.
Proof. intros Hin. apply next_id_above in Hin. lia. Qed.

Lemma key_injective {K} (key : A -> K) (l : list A) (x y : A) :
  NoDup (map key l) -> In x l -> In y l -> key x = key y -> x = y.
Proof.
  induction l as [|a l IH]; simpl; [tauto|].
  intros Hnd Hx Hy Hk. inversion Hnd as [|k ks Hnotin Hnd']; subst.
  destruct Hx as [-> | Hx], Hy as [-> | Hy]; auto.
  - exfalso. apply Hnotin. rewrite Hk. now apply in_map.
  - exfalso. apply Hnotin. rewrite <- Hk. now apply in_map.
Qed.

Lemma filter_filter (p q : A -> bool) (l : list A) :
  filter p (filter q l) = filter (fun x => q x && p x) l.
Proof.
  induction l as [|a l IH]; simpl; [reflexivity|].
  destruct (q a); simpl; [destruct (p a)|]; now rewrite IH.
Qed.

Lemma filter_none (p : A -> bool) (l : list A) :
  (forall x, In x l -> p x = false) -> filter p l = [].
Proof.
  induction l as [|a l IH]; simpl; intros H; [reflexivity|].
  rewrite (H a) by now left. apply IH. intros x Hx. apply H. now right.
Qed.

Lemma filter_all (p : A -> bool) (l : list A) :
  (forall x, In x l -> p x = true) -> filter p l = l.
Proof.
  induction l as [|a l IH]; simpl; intros H; [reflexivity|].
  rewrite (H a) by now left. f_equal. apply IH. intros x Hx. apply H.
  now right.
Qed.

Lemma NoDup_map_filter {K} (key : A -> K) (p : A -> bool) (l : list A) :
  NoDup (map key l) -> NoDup (map key (filter p l)).
Proof.
  induction l as [|a l IH]; simpl; intros Hnd; [constructor|].
  inversion Hnd as [|k ks Hnotin Hnd']; subst.
  destruct (p a); simpl; [|now apply IH].
  constructor; [|now apply IH].
  intros Hin. apply Hnotin. apply in_map_iff in Hin.
  destruct Hin as (x & Hk & Hx). apply filter_In in Hx.
  rewrite <- Hk. apply in_map. tauto.
Qed.

Lemma NoDup_map_snoc {K} (key : A -> K) (l : list A) (a : A) :
  NoDup (map key l) -> ~ In (key a) (map key l) ->
  NoDup (map key (l ++ [a])).
Proof.
  intros Hnd Hnotin. rewrite map_app. simpl.
  apply NoDup_app; [exact Hnd | repeat constructor; simpl; tauto |].
  intros x Hx [<- | []]. contradiction.
Qed.

Lemma find_some_key (key : A -> Z) (l : list A) (k : Z) (x : A) :
  find (fun y => key y =? k) l = Some x -> In x l /\ key x = k.
Proof.
  intros Hf. apply find_some in Hf. destruct Hf as [Hin Hk].
  apply Z.eqb_eq in Hk. tauto.
Qed.

Lemma find_key_unique (key : A -> Z) (l : list A) (x : A) :
  NoDup (map key l) -> In x l ->
  find (fun y => key y =? key x) l = Some x.
Proof.
  intros Hnd Hin.
  destruct (find (fun y => key y =? key x) l) as [y|] eqn:Hf.
  - apply find_some_key in Hf. destruct Hf as [Hy Hk].
    f_equal. now apply (key_injective key l).
  - apply (find_none _ _ Hf) in Hin. apply Z.eqb_neq in Hin. congruence.
Qed.

Lemma find_app_split (p : A -> bool) (l1 l2 : list A) :
  find p (l1 ++ l2) =
  match find p l1 with Some x => Some x | None => find p l2 end.
Proof.
  induction l1 as [|a l1 IH]; simpl; [reflexivity|].
  now destruct (p a).
Qed.

End TableFacts.

(** ** Session *)

Lemma get_user_some (st : Store) (uid : Z) (u : User.t) :
  get_user st uid = Some u -> In u (users st) /\ User.id u = uid.
Proof. apply (find_some_key User.id). Qed.

Lemma resolved_user (req : Request) (st : Store) (me : User.t) :
  read_user_from_cookie req st = Some me ->
  In me (users st) /\ get_user st (User.id me) = Some me.
Proof.
  unfold read_user_from_cookie. intros H.
  destruct (cookie_user_id req) as [c|]; [|discriminate].
  destruct (negb (Py.truthy c)); [discriminate|].
  destruct (Py.int c) as [n|]; [|discriminate].
  destruct (get_user_some st n me H) as [Hin Hid]. split; [exact Hin|].
  now rewrite Hid.
Qed.

Lemma read_request_of (st : Store) (uid : Z) :
  read_user_from_cookie (request_of uid) st = get_user st uid.
Proof.
  unfold read_user_from_cookie, request_of. simpl.
  now rewrite str_truthy, int_str.
Qed.

(** Reading the session looks at the user table only. *)
Lemma read_user_same_users (req : Request) (st st' : Store) :
  users st' = users st ->
  read_user_from_cookie req st' = read_user_from_cookie req st.
Proof.
  intros Hu. unfold read_user_from_cookie, get_user. now rewrite Hu.
Qed.

(** ** Check-in lifecycle *)

Section CheckinFacts.

Context `{External}.

Lemma delete_checkins_spec (rows : list CheckIn.t) :
  forall st,
    let st' := fold_left delete_checkin rows st in
    users st' = users st /\ halls st' = halls st /\ follows st' = follows st
    /\ checkins st' =
       filter (fun c => negb (existsb (fun r => CheckIn.id c =? CheckIn.id r)
                                rows))
         (checkins st).
Proof.
  induction rows as [|r rows IH]; intros st; simpl.
  - repeat split. symmetry. now apply filter_all.
  - destruct (IH (delete_checkin st r)) as (Hu & Hh & Hf & Hc).
    simpl in *. rewrite Hu, Hh, Hf, Hc. repeat split.
    rewrite filter_filter. apply filter_ext. intros c.
    now rewrite negb_orb.
Qed.

(** Deleting every row a user owns, one primary key at a time, removes
    exactly the rows of that user. *)
Lemma delete_own_checkins (st : Store) (uid : Z) :
  NoDup (map CheckIn.id (checkins st)) ->
  checkins (fold_left delete_checkin (checkins_of st uid) st) =
  filter (fun c => negb (CheckIn.user_id c =? uid)) (checkins st).
Proof.
  intros Hnd.
  destruct (delete_checkins_spec (checkins_of st uid) st)
    as (_ & _ & _ & ->).
  apply filter_ext_in. intros c Hc. f_equal.
  destruct (CheckIn.user_id c =? uid) eqn:E.
  - apply existsb_exists. exists c. split; [|apply Z.eqb_refl].
    apply filter_In. tauto.
  - destruct (existsb _ _) eqn:Ex; [|reflexivity].
    apply existsb_exists in Ex. destruct Ex as (r & Hr & Hk).
    apply filter_In in Hr. destruct Hr as [Hr Hu].
    apply Z.eqb_eq in Hk.
    assert (c = r) by now apply (key_injective CheckIn.id (checkins st)).
    subst r. congruence.
Qed.

(** What [checkin_post] does to the store of a signed-in user who names an
    existing hall. *)
Lemma checkin_post_store (req : Request) (hall_id t1 t2 t3 : Z) (st : Store)
    (me : User.t) (h : DiningHall.t) :
  NoDup (map CheckIn.id (checkins st)) ->
  read_user_from_cookie req st = Some me ->
  get_hall st hall_id = Some h ->
  let new_row :=
    CheckIn.mk (next_id (map CheckIn.id (checkins st))) (User.id me) hall_id
      t1 (t2 + one_hour) in
  let st' := snd (checkin_post req hall_id t1 t2 t3 st) in
  users st' = users st /\ halls st' = halls st /\ follows st' = follows st
  /\ checkins st' =
     filter (fun c => negb (CheckIn.user_id c =? User.id me)) (checkins st)
     ++ [new_row]
  /\ fst (checkin_post req hall_id t1 t2 t3 st) <> IntegrityError.
Proof.
  intros Hnd Hme Hh. unfold checkin_post. rewrite Hme, Hh.
  destruct (delete_checkins_spec (checkins_of st (User.id me)) st)
    as (Hu & Hhl & Hf & _).
  pose proof (delete_own_checkins st (User.id me) Hnd) as Hc.
  destruct (resolved_user req st me Hme) as [_ Hget].
  set (st1 := fold_left delete_checkin (checkins_of st (User.id me)) st) in *.
  assert (checkin_fk_ok st1
            (CheckIn.mk (next_id (map CheckIn.id (checkins st))) (User.id me)
               hall_id t1 (t2 + one_hour)) = true) as Hfk.
  { unfold checkin_fk_ok, get_user, get_hall. simpl. rewrite Hu, Hhl.
    fold (get_user st (User.id me)). fold (get_hall st hall_id).
    rewrite Hget, Hh. apply orb_true_r. }
  rewrite Hfk. simpl. rewrite Hu, Hhl, Hf, Hc. repeat split.
  unfold after_change. destruct (hx_request req) as [v|]; [|discriminate].
  destruct (String.eqb v "true"); discriminate.
Qed.

Lemma checkin_post_keeps_keys (req : Request) (hall_id t1 t2 t3 : Z)
    (st : Store) :
  NoDup (map CheckIn.id (checkins st)) ->
  NoDup (map CheckIn.id
           (checkins (snd (checkin_post req hall_id t1 t2 t3 st)))).
Proof.
  intros Hnd. unfold checkin_post.
  destruct (read_user_from_cookie req st) as [me|] eqn:Hme; [|exact Hnd].
  destruct (get_hall st hall_id) as [h|] eqn:Hh; [|exact Hnd].
  destruct (checkin_fk_ok _ _); [|exact Hnd].
  simpl. rewrite (delete_own_checkins st (User.id me) Hnd).
  apply NoDup_map_snoc; [now apply NoDup_map_filter|].
  simpl. intros Hin. apply in_map_iff in Hin.
  destruct Hin as (c & Hk & Hc). apply filter_In in Hc.
  apply (next_id_fresh (map CheckIn.id (checkins st))).
  rewrite <- Hk. apply in_map. tauto.
Qed.

Lemma own_rows_after_replace (l : list CheckIn.t) (new_row : CheckIn.t) :
  filter (fun c => CheckIn.user_id c =? CheckIn.user_id new_row)
    (filter (fun c => negb (CheckIn.user_id c =? CheckIn.user_id new_row)) l
     ++ [new_row]) = [new_row].
Proof.
  rewrite filter_app, filter_filter. simpl. rewrite Z.eqb_refl.
  rewrite filter_none; [reflexivity|].
  intros c _. now destruct (CheckIn.user_id c =? CheckIn.user_id new_row).
Qed.

End CheckinFacts.

(** C1. For a signed-in user and an existing hall, [checkin_post] removes
    every check-in row the user owns, whatever its expiry, leaves the rows of
    other users alone and appends one new row for the hall, so that the user
    owns exactly one row afterwards; a second check-in in succession leaves
    exactly one row again, the one of the second hall. *)
Theorem checkin_replaces {E : External} (req : Request)
    (hall1 hall2 t1 t2 t3 t4 t5 t6 : Z) (st : Store) (me : User.t)
    (h1 h2 : DiningHall.t) :
  NoDup (map CheckIn.id (checkins st)) ->
  read_user_from_cookie req st = Some me ->
  get_hall st hall1 = Some h1 ->
  get_hall st hall2 = Some h2 ->
  let st1 := snd (checkin_post req hall1 t1 t2 t3 st) in
  let st2 := snd (checkin_post req hall2 t4 t5 t6 st1) in
  (exists new_row,
      checkins st1 =
      filter (fun c => negb (CheckIn.user_id c =? User.id me)) (checkins st)
      ++ [new_row]
      /\ CheckIn.user_id new_row = User.id me
      /\ CheckIn.hall_id new_row = hall1
      /\ checkins_of st1 (User.id me) = [new_row])
  /\ (exists row2,
         checkins_of st2 (User.id me) = [row2]
         /\ CheckIn.hall_id row2 = hall2).
Proof.
  intros Hnd Hme Hh1 Hh2 st1 st2.
  destruct (checkin_post_store req hall1 t1 t2 t3 st me h1 Hnd Hme Hh1)
    as (Hu & Hh & _ & Hc & _).
  fold st1 in Hu, Hh, Hc.
  assert (read_user_from_cookie req st1 = Some me) as Hme1
    by now rewrite (read_user_same_users req st st1 Hu).
  assert (get_hall st1 hall2 = Some h2) as Hh2'
    by (unfold get_hall; now rewrite Hh).
  assert (NoDup (map CheckIn.id (checkins st1))) as Hnd1
    by now apply checkin_post_keeps_keys.
  destruct (checkin_post_store req hall2 t4 t5 t6 st1 me h2 Hnd1 Hme1 Hh2')
    as (_ & _ & _ & Hc2 & _).
  fold st2 in Hc2. split.
  - eexists. split; [exact Hc|]. repeat split.
    unfold checkins_of. rewrite Hc.
    apply (own_rows_after_replace (checkins st)
             (CheckIn.mk _ (User.id me) hall1 t1 (t2 + one_hour))).
  - exists (CheckIn.mk (next_id (map CheckIn.id (checkins st1))) (User.id me)
              hall2 t4 (t5 + one_hour)).
    split; [|reflexivity].
    unfold checkins_of. rewrite Hc2.
    apply (own_rows_after_replace (checkins st1)
             (CheckIn.mk _ (User.id me) hall2 t4 (t5 + one_hour))).
Qed.

(** ** At most one check-in per user *)

Section OneCheckin.

Context `{External}.

Lemma filter_length_le {A} (p q : A -> bool) (l : list A) :
  (List.length (filter p (filter q l)) <= List.length (filter p l))%nat.
Proof.
  induction l as [|a l IH]; simpl; [lia|].
  destruct (q a); simpl; destruct (p a); simpl; lia.
Qed.

Lemma checkins_after_delete_own (st : Store) (uid v : Z) :
  let st1 := fold_left delete_checkin (checkins_of st uid) st in
  checkins_of st1 uid = []
  /\ (List.length (checkins_of st1 v) <= List.length (checkins_of st v))%nat.
Proof.
  intros st1.
  destruct (delete_checkins_spec (checkins_of st uid) st) as (_ & _ & _ & Hc).
  fold st1 in Hc. split; unfold checkins_of; rewrite Hc.
  - rewrite filter_filter. apply filter_none. intros c Hc'.
    destruct (CheckIn.user_id c =? uid) eqn:E; [|apply andb_false_r].
    rewrite andb_true_r. apply negb_false_iff, existsb_exists.
    exists c. split; [|apply Z.eqb_refl]. apply filter_In. tauto.
  - apply filter_length_le.
Qed.

Lemma checkins_of_add (st : Store) (c : CheckIn.t) (v : Z) :
  checkins_of (add_checkin st c) v =
  checkins_of st v ++ (if CheckIn.user_id c =? v then [c] else []).
Proof. unfold checkins_of. simpl. now rewrite filter_app. Qed.

Lemma checkin_post_one (req : Request) (hall_id t1 t2 t3 : Z) (st : Store) :
  one_checkin_per_user st ->
  one_checkin_per_user (snd (checkin_post req hall_id t1 t2 t3 st)).
Proof.
  intros Hinv. unfold checkin_post.
  destruct (read_user_from_cookie req st) as [me|]; [|exact Hinv].
  destruct (get_hall st hall_id) as [h|]; [|exact Hinv].
  destruct (checkin_fk_ok _ _); [|exact Hinv].
  intros v. cbn [snd]. rewrite checkins_of_add, length_app.
  destruct (checkins_after_delete_own st (User.id me) v) as [Hown Hle].
  cbn [CheckIn.user_id]. destruct (User.id me =? v) eqn:E.
  - apply Z.eqb_eq in E. subst v. rewrite Hown. simpl. lia.
  - specialize (Hinv v). simpl. lia.
Qed.

Lemma clear_checkin_one (req : Request) (t_now : Z) (st : Store) :
  one_checkin_per_user st ->
  one_checkin_per_user (snd (clear_checkin req t_now st)).
Proof.
  intros Hinv. unfold clear_checkin.
  destruct (read_user_from_cookie req st) as [me|]; [|exact Hinv].
  intros v. cbn [snd].
  destruct (checkins_after_delete_own st (User.id me) v) as [_ Hle].
  specialize (Hinv v). lia.
Qed.

Lemma delete_follows_checkins (rows : list Follow.t) :
  forall st, checkins (fold_left delete_follow rows st) = checkins st.
Proof.
  induction rows as [|r rows IH]; intros st; simpl; [reflexivity|].
  now rewrite IH.
Qed.

Lemma insert_halls_checkins (names : list string) :
  forall st, checkins (fold_left insert_hall names st) = checkins st
             /\ users (fold_left insert_hall names st) = users st.
Proof.
  induction names as [|n names IH]; intros st; simpl; [tauto|].
  destruct (IH (insert_hall st n)) as [-> ->]. tauto.
Qed.

Lemma insert_users_checkins (us : list (string * string * Z)) :
  forall st, checkins (fold_left insert_user us st) = checkins st.
Proof.
  induction us as [|[[n h] t] us IH]; intros st; simpl; [reflexivity|].
  now rewrite IH.
Qed.

Lemma setup_db_checkins (now : nat -> Z) (st : Store) :
  checkins (setup_db now st) = checkins st.
Proof.
  unfold setup_db, seed_if_empty.
  assert (checkins (match halls st with
                    | [] => fold_left insert_hall seed_halls st
                    | _ :: _ => st
                    end) = checkins st) as Hh.
  { destruct (halls st); [|reflexivity].
    apply (insert_halls_checkins seed_halls st). }
  destruct (users _); [|exact Hh].
  now rewrite insert_users_checkins.
Qed.

(** Only [checkin_post] and [clear_checkin] touch the check-in table. *)
Lemma other_ops_keep_checkins (op : Op) (st : Store) :
  match op with
  | CheckinPost _ _ _ _ _ | ClearCheckin _ _ => True
  | _ => checkins (snd (handle op st)) = checkins st
  end.
Proof.
  destruct op; cbn [handle snd]; try exact I.
  - apply setup_db_checkins.
  - unfold home. now destruct (read_user_from_cookie _ _).
  - unfold login_page, home. now destruct (read_user_from_cookie _ _).
  - unfold login_submit. destruct (_ || _); [reflexivity|].
    destruct (first _); [|reflexivity]. now destruct (negb _).
  - unfold signup_page. now destruct (read_user_from_cookie _ _).
  - unfold signup_submit. destruct (_ || _); [reflexivity|].
    now destruct (first _).
  - reflexivity.
  - unfold feed_page. now destruct (read_user_from_cookie _ _).
  - unfold dining_page. destruct (read_user_from_cookie _ _); [|reflexivity].
    now destruct (get_hall _ _).
  - unfold user_profile. destruct (read_user_from_cookie _ _); [|reflexivity].
    now destruct (get_user _ _).
  - unfold people_search. now destruct (read_user_from_cookie _ _).
  - unfold follow_user. destruct (read_user_from_cookie _ _); [|reflexivity].
    destruct (_ =? _); [reflexivity|].
    destruct (first _); [reflexivity|]. now destruct (follow_fk_ok _ _).
  - unfold unfollow_user. destruct (read_user_from_cookie _ _); [|reflexivity].
    apply delete_follows_checkins.
Qed.

Lemma handle_one (op : Op) (st : Store) :
  one_checkin_per_user st -> one_checkin_per_user (snd (handle op st)).
Proof.
  intros Hinv. pose proof (other_ops_keep_checkins op st) as Hk.
  destruct op;
    try (intros v; unfold checkins_of; rewrite Hk; exact (Hinv v)).
  - now apply checkin_post_one.
  - now apply clear_checkin_one.
Qed.

Lemma run_one (ops : list Op) :
  forall st, one_checkin_per_user st -> one_checkin_per_user (run ops st).
Proof.
  induction ops as [|op ops IH]; intros st Hinv; [exact Hinv|].
  apply (IH (snd (handle op st))). now apply handle_one.
Qed.

End OneCheckin.

(** C2. Starting from the empty database, whatever operations have been
    handled so far, every user owns at most one check-in row; each single
    operation keeps it so from any store in which it holds; and no operation
    other than check-in and clear changes the check-in table at all. *)
Theorem at_most_one_checkin {E : External} :
  (forall ops, one_checkin_per_user (run ops empty_store))
  /\ (forall op st,
        one_checkin_per_user st -> one_checkin_per_user (snd (handle op st)))
  /\ (forall op st,
        match op with
        | CheckinPost _ _ _ _ _ | ClearCheckin _ _ => True
        | _ => checkins (snd (handle op st)) = checkins st
        end).
Proof.
  split; [|split].
  - intros ops. apply run_one. intros uid. simpl. lia.
  - intros op st. apply handle_one.
  - apply other_ops_keep_checkins.
Qed.

(** ** Feed composition *)

Section FeedFacts.

Lemma insert_desc_perm (c : CheckIn.t) (l : list CheckIn.t) :
  Permutation (insert_desc c l) (c :: l).
Proof.
  induction l as [|d l IH]; simpl; [reflexivity|].
  destruct (CheckIn.checked_at c <? CheckIn.checked_at d); [|reflexivity].
  rewrite IH. apply perm_swap.
Qed.

Lemma order_by_perm (l : list CheckIn.t) :
  Permutation (order_by_checked_at_desc l) l.
Proof.
  induction l as [|c l IH]; simpl; [reflexivity|].
  rewrite insert_desc_perm. now constructor.
Qed.

Lemma insert_desc_sorted (c : CheckIn.t) (l : list CheckIn.t) :
  StronglySorted newest_first l ->
  StronglySorted newest_first (insert_desc c l).
Proof.
  induction 1 as [|d l Hs IH Hall]; simpl; [repeat constructor|].
  destruct (CheckIn.checked_at c <? CheckIn.checked_at d) eqn:E.
  - apply Z.ltb_lt in E. constructor; [exact IH|].
    apply (Permutation_Forall (x := c :: l)).
    + symmetry. apply insert_desc_perm.
    + constructor; [unfold newest_first; lia | exact Hall].
  - apply Z.ltb_ge in E. constructor; [now constructor|].
    constructor; [exact E|].
    apply (Forall_impl (newest_first c) (P := newest_first d)); [|exact Hall].
    unfold newest_first. intros b Hb. lia.
Qed.

Lemma order_by_sorted (l : list CheckIn.t) :
  StronglySorted newest_first (order_by_checked_at_desc l).
Proof.
  induction l as [|c l IH]; simpl; [constructor|].
  now apply insert_desc_sorted.
Qed.

Lemma in__spec (x : Z) (l : list Z) : in_ x l = true <-> In x l.
Proof.
  unfold in_. rewrite existsb_exists. split.
  - intros (y & Hy & Hxy). apply Z.eqb_eq in Hxy. now subst.
  - intros Hin. exists x. split; [exact Hin | apply Z.eqb_refl].
Qed.

Lemma id_list_spec (st : Store) (me : User.t) (uid : Z) :
  In uid (id_list st me) <-> uid = User.id me \/ follows_user st me uid.
Proof.
  unfold id_list, follows_user, following. simpl. rewrite in_map_iff. split.
  - intros [Hme | (f & Hf & Hin)]; [now left|]. right.
    apply filter_In in Hin. destruct Hin as [Hin Hfl].
    apply Z.eqb_eq in Hfl. now exists f.
  - intros [Hme | (f & Hin & Hfl & Hf)]; [now left|]. right.
    exists f. split; [exact Hf|]. apply filter_In. split; [exact Hin|].
    now apply Z.eqb_eq.
Qed.

Lemma feed_rows_spec (st : Store) (me : User.t) (now : Z) (c : CheckIn.t) :
  In c (feed_rows st me now) <-> in_feed_of st me now c.
Proof.
  unfold feed_rows, in_feed_of. split.
  - intros Hin. apply (Permutation_in _ (order_by_perm _)) in Hin.
    apply filter_In in Hin. destruct Hin as [Hin Hp].
    apply andb_true_iff in Hp. destruct Hp as [Hid Hexp].
    apply in__spec, id_list_spec in Hid. apply Z.ltb_lt in Hexp. tauto.
  - intros (Hin & Hid & Hexp).
    apply (Permutation_in _ (Permutation_sym (order_by_perm _))).
    apply filter_In. split; [exact Hin|]. apply andb_true_iff. split.
    + now apply in__spec, id_list_spec.
    + now apply Z.ltb_lt.
Qed.

End FeedFacts.

(** C3. For a signed-in viewer, [feed_page] hands the template the rows
    [feed_rows]; these are exactly the stored check-ins owned by the viewer
    or by a user the viewer follows whose expiry lies strictly after [now],
    each as often as it is stored, listed by creation time, newest first; the
    viewer's own unexpired check-in is among them whatever the follow table
    holds. *)
Theorem feed_for_viewer (req : Request) (now : Z) (st : Store) (me : User.t) :
  read_user_from_cookie req st = Some me ->
  let rows := feed_rows st me now in
  (exists all_halls others ids,
      feed_page req now st =
      (TemplateResponse "feed.html" 200
         (FeedCtx me rows all_halls now others ids), st))
  /\ (forall c, In c rows <-> in_feed_of st me now c)
  /\ Permutation rows
       (filter (fun c => in_ (CheckIn.user_id c) (id_list st me)
                         && (now <? CheckIn.expires_at c)) (checkins st))
  /\ StronglySorted newest_first rows
  /\ (forall c follows',
        In c (checkins st) -> CheckIn.user_id c = User.id me ->
        now < CheckIn.expires_at c ->
        In c (feed_rows (mkStore (users st) (halls st) (checkins st) follows')
                me now)).
Proof.
  intros Hme rows. split; [|split; [|split; [|split]]].
  - unfold feed_page. rewrite Hme. now eexists _, _, _.
  - intros c. apply feed_rows_spec.
  - apply order_by_perm.
  - apply order_by_sorted.
  - intros c follows' Hin Hown Hexp. apply feed_rows_spec.
    unfold in_feed_of. simpl. tauto.
Qed.

(** ** Expiry *)

Lemma hall_checkins_spec (st : Store) (hall_id now : Z) (c : CheckIn.t) :
  In c (hall_checkins st hall_id now) <->
  In c (checkins st) /\ CheckIn.hall_id c = hall_id
  /\ now < CheckIn.expires_at c.
Proof.
  unfold hall_checkins. split.
  - intros Hin. apply (Permutation_in _ (order_by_perm _)) in Hin.
    apply filter_In in Hin. destruct Hin as [Hin Hp].
    apply andb_true_iff in Hp. destruct Hp as [Hh Hexp].
    apply Z.eqb_eq in Hh. apply Z.ltb_lt in Hexp. tauto.
  - intros (Hin & Hh & Hexp).
    apply (Permutation_in _ (Permutation_sym (order_by_perm _))).
    apply filter_In. split; [exact Hin|]. apply andb_true_iff. split.
    + now apply Z.eqb_eq.
    + now apply Z.ltb_lt.
Qed.

(** C4, as the code has it.  The row [checkin_post] creates is stamped from
    two readings of the clock: its creation time is the first, its expiry is
    the second plus exactly one hour.  Expiry is creation plus one hour when
    the two readings agree.  When the second reading is no earlier than the
    first and at most a minute later, the row is listed for its hall 59
    minutes after creation and no longer 61 minutes after it, while it stays
    in the table. *)
Theorem checkin_expiry {E : External} (req : Request)
    (hall_id t_checked t_expires t_now : Z) (st : Store) (me : User.t)
    (h : DiningHall.t) :
  read_user_from_cookie req st = Some me ->
  get_hall st hall_id = Some h ->
  let st' := snd (checkin_post req hall_id t_checked t_expires t_now st) in
  exists kept row,
    checkins st' = kept ++ [row]
    /\ (forall c, In c kept -> In c (checkins st))
    /\ CheckIn.user_id row = User.id me
    /\ CheckIn.hall_id row = hall_id
    /\ CheckIn.checked_at row = t_checked
    /\ CheckIn.expires_at row = t_expires + one_hour
    /\ (t_expires = t_checked ->
        CheckIn.expires_at row = CheckIn.checked_at row + one_hour)
    /\ (t_checked <= t_expires <= t_checked + one_minute ->
        In row (hall_checkins st' hall_id (t_checked + 59 * one_minute))
        /\ ~ In row (hall_checkins st' hall_id (t_checked + 61 * one_minute))
        /\ In row (checkins st')).
Proof.
  intros Hme Hh st'.
  destruct (delete_checkins_spec (checkins_of st (User.id me)) st)
    as (Hu & Hhl & _ & Hc).
  destruct (resolved_user req st me Hme) as [_ Hget].
  set (st1 := fold_left delete_checkin (checkins_of st (User.id me)) st) in *.
  set (row := CheckIn.mk (next_id (map CheckIn.id (checkins st))) (User.id me)
                hall_id t_checked (t_expires + one_hour)).
  assert (checkin_fk_ok st1 row = true) as Hfk.
  { unfold checkin_fk_ok, get_user, get_hall. simpl. rewrite Hu, Hhl.
    fold (get_user st (User.id me)). fold (get_hall st hall_id).
    rewrite Hget, Hh. apply orb_true_r. }
  assert (checkins st' = checkins st1 ++ [row]) as Hst'.
  { unfold st', checkin_post. rewrite Hme, Hh. fold st1. fold row.
    now rewrite Hfk. }
  exists (checkins st1), row. split; [exact Hst'|].
  assert (In row (checkins st')) as Hin
    by (rewrite Hst'; apply in_or_app; right; now left).
  split; [|repeat split; try reflexivity].
  - intros c Hc'. rewrite Hc in Hc'. apply filter_In in Hc'. tauto.
  - intros ->. reflexivity.
  - apply hall_checkins_spec. repeat split; [exact Hin|].
    simpl. unfold one_hour, one_minute in *. lia.
  - intros Hlisted. apply hall_checkins_spec in Hlisted.
    destruct Hlisted as (_ & _ & Hexp). simpl in Hexp.
    unfold one_hour, one_minute in *. lia.
  - exact Hin.
Qed.

(** ** The session, with what its calls refuse *)

Section SessionFacts.

Context {E : External}.

(** Where the cookie is short and its key is bound, the call returns what
    [read_user_from_cookie] gives. *)
Lemma outcome_returned (req : Request) (st : Store) (o : option User.t) :
  cookie_short req = true ->
  read_user_from_cookie_outcome req st = Returned o ->
  read_user_from_cookie req st = o.
Proof.
  unfold cookie_short, read_user_from_cookie_outcome, read_user_from_cookie.
  destruct (cookie_user_id req) as [c|]; [|now intros _ [= <-]].
  intros Hs. apply Z.leb_le in Hs. rewrite (py_int_short c Hs).
  destruct (negb (Py.truthy c)); [now intros [= <-]|].
  destruct (Py.int c) as [n|]; [|now intros [= <-]].
  destruct (int_overflows n); [discriminate|]. now intros [= <-].
Qed.

(** A call that returns a user has read a cookie that [read_user_from_cookie]
    resolves to the same user. *)
Lemma outcome_signed_in (req : Request) (st : Store) (me : User.t) :
  read_user_from_cookie_outcome req st = Returned (Some me) ->
  read_user_from_cookie req st = Some me.
Proof.
  unfold read_user_from_cookie_outcome, read_user_from_cookie, py_int.
  destruct (cookie_user_id req) as [c|]; [|discriminate].
  destruct (negb (Py.truthy c)); [discriminate|].
  destruct (int_max_str_digits <? digit_count c); [discriminate|].
  destruct (Py.int c) as [n|]; [|discriminate].
  destruct (int_overflows n); [discriminate|]. now intros [= <-].
Qed.

Lemma get_user_stored (st : Store) (u : User.t) :
  NoDup (map User.id (users st)) -> In u (users st) ->
  get_user st (User.id u) = Some u.
Proof. apply (find_key_unique User.id). Qed.

Lemma get_user_absent (st : Store) (n : Z) :
  (forall u, In u (users st) -> User.id u <> n) -> get_user st n = None.
Proof.
  intros H. unfold get_user.
  destruct (find (fun u => User.id u =? n) (users st)) as [u|] eqn:Hf;
    [|reflexivity].
  apply (find_some_key User.id) in Hf. destruct Hf as [Hin Hid].
  now destruct (H u Hin).
Qed.

Lemma get_hall_absent (st : Store) (n : Z) :
  (forall h, In h (halls st) -> DiningHall.id h <> n) -> get_hall st n = None.
Proof.
  intros H. unfold get_hall.
  destruct (find (fun h => DiningHall.id h =? n) (halls st)) as [h|] eqn:Hf;
    [|reflexivity].
  apply (find_some_key DiningHall.id) in Hf. destruct Hf as [Hin Hid].
  now destruct (H h Hin).
Qed.

Lemma outcome_parsed (req : Request) (st : Store) (c : string) (n : Z) :
  cookie_user_id req = Some c -> py_int c = Some n ->
  read_user_from_cookie_outcome req st =
  if int_overflows n then Raised OverflowError
  else Returned (get_user st n).
Proof.
  intros Hc Hn. unfold read_user_from_cookie_outcome. rewrite Hc, Hn.
  destruct (py_int_some c n Hn) as [_ ->]. reflexivity.
Qed.

End SessionFacts.

(** C5. [read_user_from_cookie] on a database with distinct user keys.  The
    request is anonymous when the cookie is missing, when [int] refuses its
    value, and when [int] accepts it, the engine binds the key and no stored
    user has it; it is the stored user with that key when there is one.  A key
    the engine does not bind ends the call with [OverflowError] instead.
    [int] accepts the decimal text of an integer of at most 4300 digits, also
    with white space around it; it refuses a text of more digits, a text with
    a character no literal is written with, and the empty text. *)
Theorem session_outcome {E : External} (st : Store) :
  NoDup (map User.id (users st)) ->
  (forall req, cookie_user_id req = None ->
     read_user_from_cookie_outcome req st = Returned None)
  /\ (forall req c, cookie_user_id req = Some c -> py_int c = None ->
        read_user_from_cookie_outcome req st = Returned None)
  /\ (forall req c n, cookie_user_id req = Some c -> py_int c = Some n ->
        int_overflows n = false ->
        (forall u, In u (users st) -> User.id u <> n) ->
        read_user_from_cookie_outcome req st = Returned None)
  /\ (forall req c u, cookie_user_id req = Some c ->
        py_int c = Some (User.id u) -> int_overflows (User.id u) = false ->
        In u (users st) ->
        read_user_from_cookie_outcome req st = Returned (Some u))
  /\ (forall req c n, cookie_user_id req = Some c -> py_int c = Some n ->
        int_overflows n = true ->
        read_user_from_cookie_outcome req st = Raised OverflowError)
  /\ (forall n, digit_count (Py.str n) <= int_max_str_digits ->
        py_int (Py.str n) = Some n
        /\ forall a b, int_padding a -> int_padding b ->
             py_int (String a (Py.str n ++ String b EmptyString)) = Some n)
  /\ (forall c, int_max_str_digits < digit_count c -> py_int c = None)
  /\ (forall c ch, In ch (list_ascii_of_string c) ->
        int_literal_char ch = false -> py_int c = None)
  /\ py_int EmptyString = None.
Proof.
  intros Hnd.
  split; [|split; [|split; [|split; [|split; [|split; [|split; [|split]]]]]]].
  - intros req Hc. unfold read_user_from_cookie_outcome. now rewrite Hc.
  - intros req c Hc Hn. unfold read_user_from_cookie_outcome.
    rewrite Hc, Hn. now destruct (negb (Py.truthy c)).
  - intros req c n Hc Hn Hov Hno.
    rewrite (outcome_parsed req st c n Hc Hn), Hov.
    now rewrite (get_user_absent st n Hno).
  - intros req c u Hc Hn Hov Hin.
    rewrite (outcome_parsed req st c _ Hc Hn), Hov.
    now rewrite (get_user_stored st u Hnd Hin).
  - intros req c n Hc Hn Hov.
    now rewrite (outcome_parsed req st c n Hc Hn), Hov.
  - intros n Hd. split.
    + rewrite py_int_short by exact Hd. apply int_str.
    + intros a b Ha Hb. rewrite py_int_short.
      * now apply int_str_padded.
      * now rewrite digit_count_padded.
  - apply py_int_long.
  - intros c ch Hin Hch. unfold py_int.
    destruct (int_max_str_digits <? digit_count c); [reflexivity|].
    now apply int_bad_char with (ch := ch).
  - reflexivity.
Qed.

(** ** Follow graph *)

Section FollowFacts.

Context `{External}.

Lemma edges_add (st : Store) (row : Follow.t) (a b : Z) :
  edges (add_follow st row) a b =
  edges st a b ++ (if is_edge a b row then [row] else []).
Proof. unfold edges. simpl. now rewrite filter_app. Qed.

(** [follow_user] for a signed-in user, case by case. *)
Lemma follow_user_cases (req : Request) (b t : Z) (st : Store) (me : User.t) :
  read_user_from_cookie req st = Some me ->
  follow_user req b t st =
  if b =? User.id me then (to_feed, st)
  else match edges st (User.id me) b with
       | _ :: _ => (to_feed, st)
       | [] =>
           let row :=
             Follow.mk (next_id (map Follow.id (follows st))) (User.id me) b t
           in
           if negb fk_enforced || is_some (get_user st b)
           then (to_feed, add_follow st row)
           else (IntegrityError, st)
       end.
Proof.
  intros Hme. unfold follow_user. rewrite Hme.
  destruct (b =? User.id me); [reflexivity|].
  destruct (edges st (User.id me) b); [|reflexivity].
  unfold first, follow_fk_ok. simpl.
  destruct (resolved_user req st me Hme) as [_ ->]. simpl.
  reflexivity.
Qed.

End FollowFacts.

(** C6. For a signed-in user A and a stored user B, [follow_user] answers
    with the same redirect in every case.  It leaves the store as it is when
    B is A or when an edge from A to B is there already; otherwise it appends
    one edge from A to B and nothing else.  Following twice therefore leaves
    exactly one edge, and following oneself leaves none. *)
Theorem follow_once {E : External} (req : Request) (b t1 t2 : Z) (st : Store)
    (me ub : User.t) :
  read_user_from_cookie req st = Some me ->
  get_user st b = Some ub ->
  let r1 := follow_user req b t1 st in
  let r2 := follow_user req b t2 (snd r1) in
  fst r1 = to_feed /\ fst r2 = to_feed
  /\ (b = User.id me \/ edges st (User.id me) b <> [] ->
      snd r1 = st /\ snd r2 = st)
  /\ (b <> User.id me -> edges st (User.id me) b = [] ->
      exists row,
        snd r1 = add_follow st row
        /\ Follow.follower_id row = User.id me
        /\ Follow.following_id row = b
        /\ edges (snd r1) (User.id me) b = [row]
        /\ snd r2 = snd r1
        /\ edges (snd r2) (User.id me) b = [row])
  /\ (b = User.id me -> edges st (User.id me) (User.id me) = [] ->
      edges (snd r2) (User.id me) (User.id me) = []).
Proof.
  intros Hme Hb r1 r2.
  assert (forall st', users st' = users st ->
            follow_user req b t2 st' =
            if b =? User.id me then (to_feed, st')
            else match edges st' (User.id me) b with
                 | _ :: _ => (to_feed, st')
                 | [] =>
                     (to_feed,
                      add_follow st'
                        (Follow.mk (next_id (map Follow.id (follows st')))
                           (User.id me) b t2))
                 end) as Hsecond.
  { intros st' Hu. rewrite (follow_user_cases req b t2 st' me)
      by now rewrite (read_user_same_users req st st' Hu).
    unfold get_user. rewrite Hu. fold (get_user st b). rewrite Hb.
    now rewrite orb_true_r. }
  assert (r1 =
          if b =? User.id me then (to_feed, st)
          else match edges st (User.id me) b with
               | _ :: _ => (to_feed, st)
               | [] =>
                   (to_feed,
                    add_follow st
                      (Follow.mk (next_id (map Follow.id (follows st)))
                         (User.id me) b t1))
               end) as Hr1.
  { unfold r1. rewrite (follow_user_cases req b t1 st me Hme), Hb.
    now rewrite orb_true_r. }
  assert (users (snd r1) = users st) as Hu1.
  { rewrite Hr1. destruct (b =? User.id me); [reflexivity|].
    now destruct (edges st (User.id me) b). }
  pose proof (Hsecond (snd r1) Hu1) as Hr2. fold r2 in Hr2.
  destruct (b =? User.id me) eqn:Eb.
  - apply Z.eqb_eq in Eb. rewrite Hr1 in Hr2 |- *. simpl in Hr2.
    rewrite Hr2. simpl. split; [reflexivity|]. split; [reflexivity|].
    split; [tauto|]. split; [intros Hne; contradiction|].
    intros _ Hnone. exact Hnone.
  - apply Z.eqb_neq in Eb.
    destruct (edges st (User.id me) b) as [|f fs] eqn:Ee.
    + set (row := Follow.mk (next_id (map Follow.id (follows st)))
                    (User.id me) b t1) in *.
      assert (edges (add_follow st row) (User.id me) b = [row]) as He1.
      { rewrite edges_add, Ee. unfold is_edge. simpl.
        now rewrite !Z.eqb_refl. }
      rewrite Hr1 in Hr2 |- *. simpl in Hr2. rewrite He1 in Hr2.
      rewrite Hr2. simpl. split; [reflexivity|]. split; [reflexivity|].
      split; [intros [Heq | Hne]; [contradiction | now contradiction Hne]|].
      split; [|intros Heq; contradiction].
      intros _ _. exists row. repeat split; exact He1.
    + rewrite Hr1 in Hr2 |- *. simpl in Hr2. rewrite Ee in Hr2.
      rewrite Hr2. simpl. split; [reflexivity|]. split; [reflexivity|].
      split; [tauto|]. split; [intros _ Hnone; discriminate|].
      intros Heq. contradiction.
Qed.

(** C10, as the code has it.  For a signed-in user A and a key X other than
    A's that the engine binds and that fits a key column, with no edge from A
    to X and no user stored under X, [follow_user] never looks X up.  On a
    database that does not enforce foreign keys it
    appends the edge and redirects as usual; on one that does, the commit is
    refused and the store is left as it was. *)
Theorem follow_unknown_target {E : External} (req : Request) (x t : Z)
    (st : Store) (me : User.t) :
  read_user_from_cookie_outcome req st = Returned (Some me) ->
  int_overflows x = false ->
  key_fits x = true ->
  x <> User.id me ->
  edges st (User.id me) x = [] ->
  get_user st x = None ->
  follow_user req x t st =
  if fk_enforced then (IntegrityError, st)
  else (to_feed,
        add_follow st
          (Follow.mk (next_id (map Follow.id (follows st))) (User.id me) x t)).
Proof.
  intros Hme _ _ Hx He Hnone. apply outcome_signed_in in Hme.
  rewrite (follow_user_cases req x t st me Hme).
  apply Z.eqb_neq in Hx. rewrite Hx, He, Hnone. simpl.
  now destruct fk_enforced.
Qed.

(** ** Login and signup *)

Section AuthFacts.

Context `{External}.

Lemma truthy_spec (s : string) : Py.truthy s = true <-> s <> EmptyString.
Proof. destruct s; simpl; split; congruence. Qed.

Lemma first_filter_some {A} (p : A -> bool) (l : list A) (x : A) :
  first (filter p l) = Some x -> In x l /\ p x = true.
Proof.
  unfold first. intros Hf. apply filter_In.
  destruct (filter p l) as [|y l']; [discriminate|].
  injection Hf as ->. now left.
Qed.

Lemma first_filter_none {A} (p : A -> bool) (l : list A) :
  first (filter p l) = None -> forall x, In x l -> p x = false.
Proof.
  unfold first. intros Hf x Hin. destruct (p x) eqn:E; [|reflexivity].
  assert (In x (filter p l)) as Hx by (apply filter_In; tauto).
  destruct (filter p l); [contradiction | discriminate].
Qed.

Lemma str_injective (a b : Z) : Py.str a = Py.str b -> a = b.
Proof.
  intros Heq. apply (f_equal Py.int) in Heq. rewrite !int_str in Heq.
  congruence.
Qed.

(** The user a name selects, when names are unique. *)
Lemma first_named (st : Store) (u : User.t) :
  NoDup (map User.username (users st)) -> In u (users st) ->
  first (users_named st (User.username u)) = Some u.
Proof.
  intros Hnd Hin. unfold users_named.
  destruct (first (filter _ (users st))) as [v|] eqn:Hf.
  - apply first_filter_some in Hf. destruct Hf as [Hv Hname].
    apply String.eqb_eq in Hname. f_equal.
    now apply (key_injective User.username (users st)).
  - apply (first_filter_none _ _ Hf) in Hin.
    now rewrite String.eqb_refl in Hin.
Qed.

(** [signup_submit] appends the new user under a key no stored user has,
    so the new session resolves to that user. *)
Lemma read_new_user (st : Store) (name hash : string) (t : Z) :
  let new_user := User.mk (next_id (map User.id (users st))) name hash t in
  read_user_from_cookie (request_of (User.id new_user)) (add_user st new_user)
  = Some new_user.
Proof.
  intros new_user. rewrite read_request_of. unfold get_user. simpl.
  rewrite find_app_split.
  destruct (find _ (users st)) as [u|] eqn:Hf.
  - apply find_some in Hf. destruct Hf as [Hin Hid].
    apply Z.eqb_eq in Hid. exfalso.
    apply (next_id_fresh (map User.id (users st))).
    rewrite <- Hid. now apply in_map.
  - simpl. now rewrite Z.eqb_refl.
Qed.

End AuthFacts.

(** C7, as the code has it.  On a user table with unique keys and unique
    names, [login_submit] signs the caller in as the stored user [u] exactly
    when the supplied password is not empty, the supplied name with the
    white space around it removed is not empty and is the name of [u], and
    the digest of the supplied password is the digest stored for [u].  The
    cookie it then sets resolves to [u] again; in every other case the login
    form comes back with status 400.  The store is never changed. *)
Theorem login_result {E : External} (req : Request)
    (username password : string) (st : Store) (u : User.t) :
  NoDup (map User.id (users st)) ->
  NoDup (map User.username (users st)) ->
  In u (users st) ->
  let res := login_submit req username password st in
  let signed_in :=
    fst res = RedirectResponse "/feed" (SetCookie (Py.str (User.id u))) in
  (signed_in <->
     User.username u = Py.strip username
     /\ Py.strip username <> EmptyString
     /\ password <> EmptyString
     /\ make_hash password = User.password_hash u)
  /\ (signed_in ->
      read_user_from_cookie (request_of (User.id u)) (snd res) = Some u)
  /\ snd res = st
  /\ ((exists v, In v (users st)
                 /\ fst res =
                    RedirectResponse "/feed" (SetCookie (Py.str (User.id v))))
      \/ exists msg, fst res = login_form 400 (Some msg)).
Proof.
  intros Hids Hnames Hin res signed_in.
  assert (snd res = st) as Hst.
  { unfold res, login_submit. destruct (_ || _); [reflexivity|].
    destruct (first _); [|reflexivity]. now destruct (negb _). }
  assert (read_user_from_cookie (request_of (User.id u)) st = Some u) as Hread.
  { rewrite read_request_of. now apply (find_key_unique User.id). }
  split; [|split; [|split]].
  - unfold signed_in, res, login_submit. split.
    + destruct (Py.truthy (Py.strip username)) eqn:Hn; [|discriminate].
      destruct (Py.truthy password) eqn:Hp; [|discriminate]. simpl.
      destruct (first (users_named st (Py.strip username))) as [row|] eqn:Hf;
        [|discriminate].
      apply first_filter_some in Hf. destruct Hf as [Hrow Hname].
      apply String.eqb_eq in Hname.
      destruct (check_password password (User.password_hash row)) eqn:Hc;
        [|discriminate].
      simpl. intros Heq. injection Heq as Heq. apply str_injective in Heq.
      assert (row = u) by now apply (key_injective User.id (users st)).
      subst row. apply truthy_spec in Hn. apply truthy_spec in Hp.
      apply String.eqb_eq in Hc. tauto.
    + intros (Hname & Hn & Hp & Hhash).
      apply truthy_spec in Hn. apply truthy_spec in Hp. rewrite Hn, Hp.
      simpl. rewrite <- Hname, (first_named st u Hnames Hin).
      unfold check_password. rewrite Hhash, String.eqb_refl. reflexivity.
  - intros _. now rewrite Hst.
  - exact Hst.
  - unfold res, login_submit.
    destruct (_ || _); [right; now eexists|].
    destruct (first _) as [row|] eqn:Hf; [|right; now eexists].
    apply first_filter_some in Hf.
    destruct (negb _); [right; now eexists|].
    left. exists row. tauto.
Qed.

(** C8, as the code has it.  [signup_submit] works on the supplied name with
    the white space around it removed.  It answers with the signup form and
    status 400, changing nothing, when that name is empty, when the password
    has fewer than 4 characters, or when a stored user has that name.
    Otherwise it appends a user with that name, the digest of the password
    and a key no stored user has, and sets a cookie that resolves to the new
    user.  For an unused name [ab], password [xyz] is refused and password
    [xyzz] is accepted. *)
Theorem signup_result {E : External} (req : Request)
    (username password : string) (t_joined : Z) (st : Store) :
  let name := Py.strip username in
  let res := signup_submit req username password t_joined st in
  ((name = EmptyString \/ Py.len password < 4
    \/ (exists u, In u (users st) /\ User.username u = name)) ->
   exists msg, res = (signup_form 400 (Some msg), st))
  /\ (name <> EmptyString -> 4 <= Py.len password ->
      (forall u, In u (users st) -> User.username u <> name) ->
      exists new_user,
        res = (RedirectResponse "/feed"
                 (SetCookie (Py.str (User.id new_user))),
               add_user st new_user)
        /\ User.username new_user = name
        /\ User.password_hash new_user = make_hash password
        /\ ~ In (User.id new_user) (map User.id (users st))
        /\ read_user_from_cookie (request_of (User.id new_user)) (snd res)
           = Some new_user)
  /\ ((forall u, In u (users st) -> User.username u <> "ab"%string) ->
      (exists msg,
          signup_submit req "ab" "xyz" t_joined st =
          (signup_form 400 (Some msg), st))
      /\ (exists new_user,
             signup_submit req "ab" "xyzz" t_joined st =
             (RedirectResponse "/feed"
                (SetCookie (Py.str (User.id new_user))),
              add_user st new_user)
             /\ User.username new_user = "ab"%string
             /\ User.password_hash new_user = make_hash "xyzz")).
Proof.
  assert (forall name pw,
            (forall u, In u (users st) -> User.username u <> Py.strip name) ->
            Py.strip name <> EmptyString -> 4 <= Py.len pw ->
            signup_submit req name pw t_joined st =
            (RedirectResponse "/feed"
               (SetCookie (Py.str (next_id (map User.id (users st))))),
             add_user st
               (User.mk (next_id (map User.id (users st))) (Py.strip name)
                  (make_hash pw) t_joined))) as Hok.
  { intros name pw Hfree Hn Hlen. unfold signup_submit.
    apply truthy_spec in Hn. rewrite Hn.
    replace (Py.len pw <? 4) with false by (symmetry; apply Z.ltb_ge; lia).
    simpl.
    destruct (first (users_named st (Py.strip name))) as [row|] eqn:Hf;
      [|reflexivity].
    apply first_filter_some in Hf. destruct Hf as [Hrow Hname].
    apply String.eqb_eq in Hname. now apply Hfree in Hrow. }
  intros name res. split; [|split].
  - unfold res, signup_submit. fold name. intros Hbad.
    destruct (Py.truthy name) eqn:Hn; [|now eexists].
    destruct (Py.len password <? 4) eqn:Hl; [now eexists|]. simpl.
    destruct (first (users_named st name)) as [row|] eqn:Hf; [now eexists|].
    exfalso. apply truthy_spec in Hn. apply Z.ltb_ge in Hl.
    destruct Hbad as [Hbad | [Hbad | (u & Hu & Hname)]];
      [contradiction | lia |].
    apply (first_filter_none _ _ Hf) in Hu.
    rewrite Hname, String.eqb_refl in Hu. discriminate.
  - intros Hn Hlen Hfree. unfold res.
    rewrite (Hok username password Hfree Hn Hlen).
    exists (User.mk (next_id (map User.id (users st))) name
              (make_hash password) t_joined).
    split; [reflexivity|]. simpl. repeat split.
    + apply next_id_fresh.
    + apply read_new_user.
  - intros Hfree. split.
    + now eexists.
    + rewrite (Hok "ab"%string "xyzz"%string Hfree);
        [|discriminate | unfold Py.len; simpl; lia].
      exists (User.mk (next_id (map User.id (users st))) "ab"
                (make_hash "xyzz") t_joined).
      split; [reflexivity|]. split; reflexivity.
Qed.

(** ** Search *)

Section LikeFacts.

Variables fold esc : bool.

Lemma like_percent_step (pat s : string) :
  like_match fold esc (String "%" pat) s =
  like_match fold esc pat s
  || match s with
     | EmptyString => false
     | String _ s' => like_match fold esc (String "%" pat) s'
     end.
Proof.
  cbn [like_match].
  replace (esc && (Py.code "%" =? 92)) with false
    by (destruct esc; reflexivity).
  replace (Py.code "%" =? 37) with true by reflexivity.
  destruct s; reflexivity.
Qed.

Lemma like_percent_all (s : string) : like_match fold esc "%" s = true.
Proof.
  induction s as [|c s IH]; rewrite like_percent_step.
  - reflexivity.
  - rewrite IH. apply orb_true_r.
Qed.

Lemma like_plain_prefix (needle : string) :
  Py.all_chars (like_plain esc) needle = true ->
  forall hay,
    like_match fold esc (needle ++ "%") hay = starts_with fold needle hay.
Proof.
  induction needle as [|a n IH]; intros Hp hay.
  - cbn [append]. rewrite like_percent_all. destruct hay; reflexivity.
  - cbn [Py.all_chars] in Hp. apply andb_true_iff in Hp as [Ha Hn].
    unfold like_plain in Ha.
    apply andb_true_iff in Ha as [Ha H3].
    apply andb_true_iff in Ha as [H1 H2].
    apply negb_true_iff in H1, H2, H3.
    cbn [append like_match]. rewrite H3, H1, H2.
    destruct hay as [|b h]; [reflexivity|].
    cbn [starts_with]. now rewrite IH.
Qed.

Lemma starts_with_prefix (needle hay : string) :
  starts_with fold needle hay
  = String.prefix (like_text fold needle) (like_text fold hay).
Proof.
  revert hay. induction needle as [|a n IH]; intros hay.
  - destruct fold, hay; reflexivity.
  - destruct hay as [|b h].
    + destruct fold; reflexivity.
    + specialize (IH h). cbn [starts_with]. rewrite IH.
      unfold like_char_eq, like_text.
      destruct fold; cbn [fold_text String.prefix].
      * destruct (ascii_dec (ascii_fold a) (ascii_fold b)) as [e|e].
        -- rewrite e, Ascii.eqb_refl. reflexivity.
        -- apply Ascii.eqb_neq in e. rewrite e. reflexivity.
      * destruct (ascii_dec a b) as [e|e].
        -- rewrite e, Ascii.eqb_refl. reflexivity.
        -- apply Ascii.eqb_neq in e. rewrite e. reflexivity.
Qed.

(** A pattern of plain characters between two percent signs looks for a
    substring. *)
Lemma like_contains_plain (needle hay : string) :
  Py.all_chars (like_plain esc) needle = true ->
  like_match fold esc ("%" ++ needle ++ "%") hay
  = is_substring (like_text fold needle) (like_text fold hay).
Proof.
  intros Hp.
  change ("%" ++ needle ++ "%")%string with (String "%" (needle ++ "%")).
  induction hay as [|b h IH];
    rewrite like_percent_step, (like_plain_prefix needle Hp);
    [|rewrite IH]; rewrite starts_with_prefix;
    destruct fold; cbn [like_text fold_text is_substring]; reflexivity.
Qed.

End LikeFacts.

Section SearchFacts.

Context {E : External}.

Lemma people_search_cases (req : Request) (q : string) (st : Store)
    (me : User.t) :
  read_user_from_cookie req st = Some me ->
  people_search req q st =
  (TemplateResponse "fragments/people_results.html" 200
     (PeopleCtx
        (if Py.truthy (Py.strip q) then
           filter (fun u => negb (User.id u =? User.id me)
                            && sql_contains (User.username u) (Py.strip q))
             (users st)
         else [])
        (following_ids st me)), st).
Proof. intros Hme. unfold people_search. now rewrite Hme. Qed.

End SearchFacts.

(** C9, as the code has it.  For a signed-in viewer, [people_search] works on
    the query with the white space around it removed.  When that is empty it
    lists nobody.  Otherwise it lists, in table order and without any limit,
    every stored user other than the viewer whose name is [LIKE] the query
    between two percent signs.  When the query has no percent sign, no
    underscore and, where the backslash escapes, no backslash, these are the
    users other than the viewer whose name contains the query as a substring,
    without regard to the case of ASCII letters where [LIKE] ignores it. *)
Theorem people_search_result {E : External} (req : Request) (q : string)
    (st : Store) (me : User.t) :
  read_user_from_cookie_outcome req st = Returned (Some me) ->
  exists matches ids,
    people_search req q st =
    (TemplateResponse "fragments/people_results.html" 200
       (PeopleCtx matches ids), st)
    /\ (Py.strip q = EmptyString -> matches = [])
    /\ (Py.strip q <> EmptyString ->
        matches =
        filter (fun u => negb (User.id u =? User.id me)
                         && like_match like_ignores_case like_backslash_escapes
                              ("%" ++ Py.strip q ++ "%") (User.username u))
          (users st))
    /\ (Py.strip q <> EmptyString ->
        Py.all_chars (like_plain like_backslash_escapes) (Py.strip q) = true ->
        forall u, In u matches <->
          In u (users st) /\ User.id u <> User.id me
          /\ is_substring (like_text like_ignores_case (Py.strip q))
               (like_text like_ignores_case (User.username u)) = true).
Proof.
  intros Hme. apply outcome_signed_in in Hme.
  rewrite (people_search_cases req q st me Hme).
  eexists; eexists. split; [reflexivity|].
  destruct (Py.strip q) as [|c r] eqn:Eq.
  - split; [reflexivity|]. split; intros Hq; now contradiction Hq.
  - cbn [Py.truthy]. split; [discriminate|]. split; [reflexivity|].
    intros _ Hp u. rewrite filter_In, andb_true_iff, negb_true_iff, Z.eqb_neq.
    unfold sql_contains.
    rewrite (like_contains_plain _ _ _ _ Hp). tauto.
Qed.

(** * The statements at work on sample data *)

Example strip_examples :
  Py.strip "  Mahad "%string = "Mahad"%string
  /\ Py.strip "   "%string = EmptyString
  /\ Py.strip "a b"%string = "a b"%string.
Proof. repeat split. Qed.

Example int_examples :
  Py.int " 1_000 "%string = Some 1000 /\ Py.int "-7"%string = Some (-7)
  /\ Py.int "+42"%string = Some 42 /\ Py.int "007"%string = Some 7
  /\ Py.int "1__0"%string = None /\ Py.int "_1"%string = None
  /\ Py.int "1_"%string = None /\ Py.int ""%string = None
  /\ Py.int "12a"%string = None /\ Py.int "+ 5"%string = None.
Proof. repeat split. Qed.

Example str_examples :
  Py.str 0 = "0"%string /\ Py.str 1203 = "1203"%string
  /\ Py.str (-45) = "-45"%string.
Proof. repeat split. Qed.

Example seeded_tables :
  map User.username (users (seeded sqlite_like))
  = [ "Mahad"; "Sarah"; "Varisha"; "Robert"; "Kazi"; "Humza";
      "Wajdan" ]%string
  /\ map User.id (users (seeded sqlite_like)) = [1; 2; 3; 4; 5; 6; 7]
  /\ map DiningHall.id (halls (seeded sqlite_like)) = [1; 2; 3; 4]
  /\ @setup_db sqlite_like (fun _ => 0) (seeded sqlite_like)
     = seeded sqlite_like.
Proof. repeat split. Qed.

Example sample_tables :
  map (fun c => (CheckIn.id c, CheckIn.user_id c, CheckIn.hall_id c))
    (checkins (sample_store sqlite_like)) = [(1, 1, 3); (2, 2, 1)]
  /\ map (fun f => (Follow.follower_id f, Follow.following_id f))
       (follows (sample_store sqlite_like)) = [(1, 2); (1, 3)].
Proof. repeat split. Qed.

Ltac distinct_keys :=
  vm_compute; repeat constructor; simpl; intuition discriminate.

Lemma checkin_replaces_witness :
  let st := sample_store sqlite_like in
  let st1 := snd (@checkin_post sqlite_like (request_of 1) 2 500 501 502 st) in
  let st2 := snd (@checkin_post sqlite_like (request_of 1) 4 600 601 602 st1) in
  NoDup (map CheckIn.id (checkins st))
  /\ (exists new_row, checkins_of st1 1 = [new_row]
                      /\ CheckIn.hall_id new_row = 2)
  /\ (exists row2, checkins_of st2 1 = [row2] /\ CheckIn.hall_id row2 = 4).
Proof.
  intros st st1 st2.
  assert (NoDup (map CheckIn.id (checkins st))) as Hnd by distinct_keys.
  destruct (@checkin_replaces sqlite_like (request_of 1) 2 4 500 501 502
              600 601 602 st (mahad sqlite_like)
              (DiningHall.mk 2 "Berkshire Dining Commons")
              (DiningHall.mk 4 "Franklin Dining Commons")
              Hnd eq_refl eq_refl eq_refl)
    as [(new_row & _ & _ & Hhall & Hown) Hsecond].
  split; [exact Hnd|]. split; [|exact Hsecond].
  exists new_row. split; [exact Hown | exact Hhall].
Defined.

Lemma at_most_one_checkin_witness :
  one_checkin_per_user (sample_store sqlite_like)
  /\ one_checkin_per_user
       (snd (@handle sqlite_like (CheckinPost (request_of 1) 2 500 501 502)
               (sample_store sqlite_like))).
Proof.
  assert (one_checkin_per_user (sample_store sqlite_like)) as Hinv.
  { exact (proj1 (@at_most_one_checkin sqlite_like)
             [ Boot (fun k => Z.of_nat k);
               CheckinPost (request_of 1) 3 100 101 102;
               CheckinPost (request_of 2) 1 200 201 202;
               FollowUser (request_of 1) 2 300;
               FollowUser (request_of 1) 3 301 ]). }
  split; [exact Hinv|].
  exact (proj1 (proj2 (@at_most_one_checkin sqlite_like)) _ _ Hinv).
Defined.

Lemma feed_for_viewer_witness :
  read_user_from_cookie (request_of 1) (sample_store sqlite_like)
  = Some (mahad sqlite_like)
  /\ map CheckIn.user_id
       (feed_rows (sample_store sqlite_like) (mahad sqlite_like) 1000)
     = [2; 1]
  /\ StronglySorted newest_first
       (feed_rows (sample_store sqlite_like) (mahad sqlite_like) 1000).
Proof.
  split; [reflexivity|]. split; [reflexivity|].
  exact (proj1 (proj2 (proj2 (proj2
           (feed_for_viewer (request_of 1) 1000 (sample_store sqlite_like)
              (mahad sqlite_like) eq_refl))))).
Defined.

Lemma checkin_expiry_witness :
  let st' :=
    snd (@checkin_post sqlite_like (request_of 1) 1 100 101 102
           (seeded sqlite_like)) in
  exists kept row,
    checkins st' = kept ++ [row]
    /\ CheckIn.expires_at row = 101 + one_hour
    /\ In row (hall_checkins st' 1 (100 + 59 * one_minute))
    /\ ~ In row (hall_checkins st' 1 (100 + 61 * one_minute))
    /\ In row (checkins st').
Proof.
  destruct (@checkin_expiry sqlite_like (request_of 1) 1 100 101 102
              (seeded sqlite_like) (mahad sqlite_like)
              (DiningHall.mk 1 "Hampshire Dining Commons") eq_refl eq_refl)
    as (kept & row & Hst & _ & _ & _ & _ & Hexp & _ & Hscenario).
  exists kept, row. split; [exact Hst|]. split; [exact Hexp|].
  apply Hscenario. unfold one_minute. lia.
Defined.

Lemma session_outcome_witness :
  NoDup (map User.id (users (seeded sqlite_like)))
  /\ @read_user_from_cookie_outcome sqlite_like
       (mkRequest (Some "9223372036854775808"%string) None)
       (seeded sqlite_like) = Raised OverflowError
  /\ @read_user_from_cookie_outcome sqlite_like
       (mkRequest (Some " 1 "%string) None) (seeded sqlite_like)
     = Returned (Some (mahad sqlite_like))
  /\ @read_user_from_cookie_outcome sqlite_like
       (mkRequest (Some "99"%string) None) (seeded sqlite_like)
     = Returned None
  /\ @read_user_from_cookie_outcome sqlite_like
       (mkRequest (Some "abc"%string) None) (seeded sqlite_like)
     = Returned None
  /\ py_int (repeat_char "0" 4300 ++ "1") = None.
Proof.
  assert (NoDup (map User.id (users (seeded sqlite_like)))) as Hnd
    by (vm_compute; distinct_keys).
  destruct (@session_outcome sqlite_like (seeded sqlite_like) Hnd)
    as (_ & Hrefused & Habsent & Hstored & Hraised & _ & Hlong & _).
  split; [exact Hnd|]. split; [|split; [|split; [|split]]].
  - apply (Hraised _ "9223372036854775808"%string 9223372036854775808);
      vm_compute; reflexivity.
  - apply (Hstored _ " 1 "%string (mahad sqlite_like));
      [reflexivity | vm_compute; reflexivity | vm_compute; reflexivity
      | vm_compute; tauto].
  - apply (Habsent _ "99"%string 99);
      [reflexivity | vm_compute; reflexivity | vm_compute; reflexivity|].
    intros u Hin. vm_compute in Hin.
    repeat (destruct Hin as [<- | Hin]; [discriminate|]). contradiction.
  - apply (Hrefused _ "abc"%string); [reflexivity | vm_compute; reflexivity].
  - apply Hlong. vm_compute. reflexivity.
Defined.

Lemma follow_once_witness :
  let st := sample_store sqlite_like in
  let r1 := @follow_user sqlite_like (request_of 1) 4 400 st in
  let r2 := @follow_user sqlite_like (request_of 1) 4 401 (snd r1) in
  edges st 1 4 = []
  /\ fst r1 = to_feed /\ fst r2 = to_feed
  /\ exists row, edges (snd r2) 1 4 = [row].
Proof.
  intros st r1 r2.
  destruct (@follow_once sqlite_like (request_of 1) 4 400 401 st
              (mahad sqlite_like)
              (User.mk 4 "Robert" (@hash_password sqlite_like "robert123") 3)
              eq_refl eq_refl)
    as (H1 & H2 & _ & Hnew & _).
  split; [reflexivity|]. split; [exact H1|]. split; [exact H2|].
  destruct Hnew as (row & _ & _ & _ & _ & _ & Hrow);
    [discriminate | reflexivity|].
  now exists row.
Defined.

Lemma login_result_witness :
  let st := seeded sqlite_like in
  let res :=
    @login_submit sqlite_like (mkRequest None None) "Mahad" "mahad123" st in
  In (mahad sqlite_like) (users st)
  /\ fst res = RedirectResponse "/feed" (SetCookie "1")
  /\ read_user_from_cookie (request_of 1) (snd res) = Some (mahad sqlite_like).
Proof.
  intros st res.
  assert (NoDup (map User.id (users st))) as Hids by distinct_keys.
  assert (NoDup (map User.username (users st))) as Hnames by distinct_keys.
  assert (In (mahad sqlite_like) (users st)) as Hin by (now left).
  destruct (@login_result sqlite_like (mkRequest None None) "Mahad" "mahad123"
              st (mahad sqlite_like) Hids Hnames Hin)
    as (Hiff & Hround & _).
  assert (fst res = RedirectResponse "/feed" (SetCookie "1")) as Hres.
  { apply Hiff. repeat split; discriminate. }
  split; [exact Hin|]. split; [exact Hres|]. exact (Hround Hres).
Defined.

Lemma signup_result_witness :
  (exists msg,
      @signup_submit sqlite_like (mkRequest None None) "ab" "xyz" 900
        (seeded sqlite_like) =
      (signup_form 400 (Some msg), seeded sqlite_like))
  /\ (exists new_user,
         @signup_submit sqlite_like (mkRequest None None) "ab" "xyzz" 900
           (seeded sqlite_like) =
         (RedirectResponse "/feed" (SetCookie (Py.str (User.id new_user))),
          add_user (seeded sqlite_like) new_user)
         /\ User.username new_user = "ab"%string
         /\ User.password_hash new_user = "sha256:xyzz"%string).
Proof.
  apply (proj2 (proj2
           (@signup_result sqlite_like (mkRequest None None) "ab" "xyzz" 900
              (seeded sqlite_like)))).
  intros u Hin. vm_compute in Hin.
  repeat (destruct Hin as [<- | Hin]; [discriminate|]). contradiction.
Defined.

Lemma people_search_result_witness :
  exists ids,
    @people_search sqlite_like (request_of 1) " ar " (seeded sqlite_like) =
    (TemplateResponse "fragments/people_results.html" 200
       (PeopleCtx
          [ User.mk 2 "Sarah" "sha256:sarah123" 1;
            User.mk 3 "Varisha" "sha256:varisha123" 2 ] ids),
     seeded sqlite_like).
Proof.
  assert (@read_user_from_cookie_outcome sqlite_like (request_of 1)
            (seeded sqlite_like) = Returned (Some (mahad sqlite_like)))
    as Hme by (vm_compute; reflexivity).
  destruct (@people_search_result sqlite_like (request_of 1) " ar "
              (seeded sqlite_like) (mahad sqlite_like) Hme)
    as (matches & ids & Hres & _ & Hlike & _).
  assert (Py.strip " ar " <> EmptyString) as Hq by (vm_compute; discriminate).
  exists ids. rewrite Hres, (Hlike Hq). vm_compute. reflexivity.
Defined.

Lemma follow_unknown_target_witness :
  get_user (seeded sqlite_like) 99 = None
  /\ @follow_user sqlite_like (request_of 1) 99 700 (seeded sqlite_like) =
     (to_feed, add_follow (seeded sqlite_like) (Follow.mk 1 1 99 700))
  /\ @follow_user postgres_like (request_of 1) 99 700 (seeded postgres_like) =
     (IntegrityError, seeded postgres_like).
Proof.
  split; [reflexivity|]. split.
  - apply (@follow_unknown_target sqlite_like (request_of 1) 99 700
             (seeded sqlite_like) (mahad sqlite_like));
      [vm_compute; reflexivity | vm_compute; reflexivity
      | vm_compute; reflexivity | discriminate | reflexivity | reflexivity].
  - apply (@follow_unknown_target postgres_like (request_of 1) 99 700
             (seeded postgres_like) (mahad postgres_like));
      [vm_compute; reflexivity | vm_compute; reflexivity
      | vm_compute; reflexivity | discriminate | reflexivity | reflexivity].
Defined.

(** * Where the wording of the specification and the code part *)

(** C4: with the clock read at 100 and then at 101, the new row expires one
    hour after the second reading, not one hour after its creation. *)
Lemma checkin_expiry_counterexample :
  let st' :=
    snd (@checkin_post sqlite_like (request_of 1) 1 100 101 102
           (seeded sqlite_like)) in
  exists row,
    checkins st' = [row]
    /\ CheckIn.checked_at row = 100
    /\ CheckIn.expires_at row <> CheckIn.checked_at row + one_hour.
Proof.
  exists (CheckIn.mk 1 1 1 100 (101 + one_hour)).
  split; [reflexivity|]. split; [reflexivity|]. simpl. lia.
Qed.

(** C7: the name [" Mahad"] belongs to no stored user, yet logging in under
    it with Mahad's password signs the caller in as user 1. *)
Lemma login_counterexample :
  users_named (seeded sqlite_like) " Mahad" = []
  /\ @login_submit sqlite_like (mkRequest None None) " Mahad" "mahad123"
       (seeded sqlite_like) =
     (RedirectResponse "/feed" (SetCookie "1"), seeded sqlite_like).
Proof. split; vm_compute; reflexivity. Qed.

(** C8: the name [" Mahad "] is not blank and belongs to no stored user, and
    the password has four characters, yet the signup is refused and no user
    is created. *)
Lemma signup_counterexample :
  users_named (seeded sqlite_like) " Mahad " = []
  /\ Py.strip " Mahad " <> EmptyString
  /\ Py.len "abcd" = 4
  /\ @signup_submit sqlite_like (mkRequest None None) " Mahad " "abcd" 900
       (seeded sqlite_like) =
     (signup_form 400 (Some "that username is taken"%string),
      seeded sqlite_like).
Proof.
  split; [vm_compute; reflexivity|]. split; [vm_compute; discriminate|].
  split; vm_compute; reflexivity.
Qed.

(** C9: every name contains the empty query, yet searching for it lists
    nobody; no name contains an underscore, yet searching for one lists
    everybody else; and on SQLite the query [sarah] lists Sarah, whose name
    does not contain it. *)
Lemma people_search_counterexample :
  ((exists u, In u (users (seeded sqlite_like)) /\ User.id u <> 1
              /\ is_substring "" (User.username u) = true)
   /\ exists ids,
        @people_search sqlite_like (request_of 1) "" (seeded sqlite_like) =
        (TemplateResponse "fragments/people_results.html" 200
           (PeopleCtx [] ids), seeded sqlite_like))
  /\ ((forall u, In u (users (seeded sqlite_like)) ->
         is_substring "_" (User.username u) = false)
      /\ exists ids,
           @people_search sqlite_like (request_of 1) "_" (seeded sqlite_like)
           = (TemplateResponse "fragments/people_results.html" 200
                (PeopleCtx
                   (filter (fun u => negb (User.id u =? 1))
                      (users (seeded sqlite_like))) ids),
              seeded sqlite_like))
  /\ (is_substring "sarah" "Sarah" = false
      /\ exists ids,
           @people_search sqlite_like (request_of 1) "sarah"
             (seeded sqlite_like)
           = (TemplateResponse "fragments/people_results.html" 200
                (PeopleCtx [User.mk 2 "Sarah" "sha256:sarah123" 1] ids),
              seeded sqlite_like)).
Proof.
  split; [|split].
  - split.
    + exists (User.mk 2 "Sarah" "sha256:sarah123" 1).
      split; [vm_compute; tauto|]. split; [discriminate | reflexivity].
    + exists []. vm_compute. reflexivity.
  - split.
    + intros u Hin. vm_compute in Hin.
      repeat (destruct Hin as [<- | Hin]; [vm_compute; reflexivity|]).
      contradiction.
    + exists []. vm_compute. reflexivity.
  - split; [vm_compute; reflexivity|]. exists []. vm_compute. reflexivity.
Qed.

(** C10: on a database that enforces foreign keys, following the unused key
    99 ends in an integrity error and inserts nothing. *)
Lemma follow_unknown_target_counterexample :
  get_user (seeded postgres_like) 99 = None
  /\ edges (seeded postgres_like) 1 99 = []
  /\ @follow_user postgres_like (request_of 1) 99 700 (seeded postgres_like) =
     (IntegrityError, seeded postgres_like).
Proof. repeat split. Qed.

(** * Further properties of the handlers *)

(** ** What each operation leaves alone *)

Section Frames.

Context `{External}.

Lemma delete_follows_spec (rows : list Follow.t) :
  forall st,
    let st' := fold_left delete_follow rows st in
    users st' = users st /\ halls st' = halls st
    /\ checkins st' = checkins st
    /\ follows st' =
       filter (fun f => negb (existsb (fun r => Follow.id f =? Follow.id r)
                                rows))
         (follows st).
Proof.
  induction rows as [|r rows IH]; intros st; simpl.
  - repeat split. symmetry. now apply filter_all.
  - destruct (IH (delete_follow st r)) as (Hu & Hh & Hc & Hf).
    simpl in *. rewrite Hu, Hh, Hc, Hf. repeat split.
    rewrite filter_filter. apply filter_ext. intros f.
    now rewrite negb_orb.
Qed.

Lemma insert_halls_frame (names : list string) :
  forall st,
    let st' := fold_left insert_hall names st in
    users st' = users st /\ checkins st' = checkins st
    /\ follows st' = follows st.
Proof.
  induction names as [|n names IH]; intros st; simpl; [tauto|].
  destruct (IH (insert_hall st n)) as (-> & -> & ->). tauto.
Qed.

Lemma insert_users_frame (us : list (string * string * Z)) :
  forall st,
    let st' := fold_left insert_user us st in
    halls st' = halls st /\ checkins st' = checkins st
    /\ follows st' = follows st.
Proof.
  induction us as [|[[n h] t] us IH]; intros st; [simpl; tauto|].
  destruct (IH (insert_user st (n, h, t))) as (Hh & Hc & Hf).
  cbn [fold_left]. cbv zeta in *. rewrite Hh, Hc, Hf. simpl. tauto.
Qed.

Lemma setup_db_follows (now : nat -> Z) (st : Store) :
  follows (setup_db now st) = follows st.
Proof.
  unfold setup_db, seed_if_empty.
  assert (follows (match halls st with
                   | [] => fold_left insert_hall seed_halls st
                   | _ :: _ => st
                   end) = follows st) as Hh.
  { destruct (halls st); [|reflexivity].
    apply (insert_halls_frame seed_halls st). }
  destruct (users _); [|exact Hh].
  destruct (insert_users_frame
              (map (fun k_u => (fst (snd k_u), hash_password (snd (snd k_u)),
                                now (fst k_u)))
                 (combine (seq 0 (List.length seed_users)) seed_users))
              (match halls st with
               | [] => fold_left insert_hall seed_halls st
               | _ :: _ => st
               end)) as (_ & _ & ->).
  exact Hh.
Qed.

(** Only start-up and signup touch the user table, only start-up the hall
    table, only follow and unfollow the follow table. *)
Lemma handle_frame (op : Op) (st : Store) :
  let st' := snd (handle op st) in
  match op with
  | Boot _ | SignupSubmit _ _ _ _ => True
  | _ => users st' = users st
  end
  /\ match op with
     | Boot _ => True
     | _ => halls st' = halls st
     end
  /\ match op with
     | FollowUser _ _ _ | UnfollowUser _ _ => True
     | _ => follows st' = follows st
     end.
Proof.
  destruct op; cbn [handle snd].
  - split; [exact I|]. split; [exact I|]. apply setup_db_follows.
  - unfold home. now destruct (read_user_from_cookie _ _).
  - unfold login_page, home. now destruct (read_user_from_cookie _ _).
  - unfold login_submit. destruct (_ || _); [easy|].
    destruct (first _); [|easy]. now destruct (negb _).
  - unfold signup_page. now destruct (read_user_from_cookie _ _).
  - unfold signup_submit. destruct (_ || _); [easy|].
    now destruct (first _).
  - easy.
  - unfold feed_page. now destruct (read_user_from_cookie _ _).
  - unfold dining_page. destruct (read_user_from_cookie _ _); [|easy].
    now destruct (get_hall _ _).
  - unfold user_profile. destruct (read_user_from_cookie _ _); [|easy].
    now destruct (get_user _ _).
  - unfold people_search. now destruct (read_user_from_cookie _ _).
  - unfold checkin_post. destruct (read_user_from_cookie _ _) as [me|]; [|easy].
    destruct (get_hall _ _); [|easy].
    destruct (checkin_fk_ok _ _); [|easy].
    destruct (delete_checkins_spec (checkins_of st (User.id me)) st)
      as (Hu & Hh & Hf & _).
    simpl. now rewrite Hu, Hh, Hf.
  - unfold clear_checkin.
    destruct (read_user_from_cookie _ _) as [me|]; [|easy].
    destruct (delete_checkins_spec (checkins_of st (User.id me)) st)
      as (Hu & Hh & Hf & _).
    simpl. now rewrite Hu, Hh, Hf.
  - unfold follow_user. destruct (read_user_from_cookie _ _); [|easy].
    destruct (_ =? _); [easy|].
    destruct (first _); [easy|]. now destruct (follow_fk_ok _ _).
  - unfold unfollow_user.
    destruct (read_user_from_cookie _ _) as [me|]; [|easy].
    destruct (delete_follows_spec (edges st (User.id me) user_id) st)
      as (Hu & Hh & _ & _).
    simpl. now rewrite Hu, Hh.
Qed.

End Frames.

(** ** Primary keys *)

Section KeyFacts.

Context `{External}.

Lemma insert_halls_keys (names : list string) :
  forall st,
    NoDup (map DiningHall.id (halls st)) ->
    NoDup (map DiningHall.id (halls (fold_left insert_hall names st))).
Proof.
  induction names as [|n names IH]; intros st Hnd; [exact Hnd|].
  apply (IH (insert_hall st n)). simpl.
  apply NoDup_map_snoc; [exact Hnd | apply next_id_fresh].
Qed.

Lemma insert_users_keys (us : list (string * string * Z)) :
  forall st,
    NoDup (map User.id (users st)) ->
    NoDup (map User.id (users (fold_left insert_user us st))).
Proof.
  induction us as [|[[n h] t] us IH]; intros st Hnd; [exact Hnd|].
  apply (IH (insert_user st (n, h, t))). simpl.
  apply NoDup_map_snoc; [exact Hnd | apply next_id_fresh].
Qed.

Lemma setup_db_keys (now : nat -> Z) (st : Store) :
  NoDup (map User.id (users st)) ->
  NoDup (map DiningHall.id (halls st)) ->
  NoDup (map User.id (users (setup_db now st)))
  /\ NoDup (map DiningHall.id (halls (setup_db now st))).
Proof.
  intros Hu Hh. unfold setup_db, seed_if_empty.
  set (st1 := match halls st with
              | [] => fold_left insert_hall seed_halls st
              | _ :: _ => st
              end).
  assert (users st1 = users st) as Hu1.
  { unfold st1. destruct (halls st); [|reflexivity].
    apply (insert_halls_frame seed_halls st). }
  assert (NoDup (map DiningHall.id (halls st1))) as Hh1.
  { unfold st1. destruct (halls st) eqn:E; [|now rewrite E].
    apply insert_halls_keys. now rewrite E. }
  destruct (users st1) eqn:E.
  - split.
    + apply insert_users_keys. rewrite E. constructor.
    + now destruct (insert_users_frame
                      (map (fun k_u => (fst (snd k_u),
                                        hash_password (snd (snd k_u)),
                                        now (fst k_u)))
                         (combine (seq 0 (List.length seed_users))
                            seed_users)) st1) as (-> & _ & _).
  - split; [|exact Hh1]. rewrite E, Hu1. exact Hu.
Qed.

Lemma signup_keys (req : Request) (u p : string) (t : Z) (st : Store) :
  NoDup (map User.id (users st)) ->
  NoDup (map User.id (users (snd (signup_submit req u p t st)))).
Proof.
  intros Hnd. unfold signup_submit. destruct (_ || _); [exact Hnd|].
  destruct (first _); [exact Hnd|]. simpl.
  apply NoDup_map_snoc; [exact Hnd | apply next_id_fresh].
Qed.

Lemma clear_keys (req : Request) (t : Z) (st : Store) :
  NoDup (map CheckIn.id (checkins st)) ->
  NoDup (map CheckIn.id (checkins (snd (clear_checkin req t st)))).
Proof.
  intros Hnd. unfold clear_checkin.
  destruct (read_user_from_cookie _ _) as [me|]; [|exact Hnd].
  destruct (delete_checkins_spec (checkins_of st (User.id me)) st)
    as (_ & _ & _ & Hc).
  simpl. rewrite Hc. now apply NoDup_map_filter.
Qed.

Lemma follow_keys (req : Request) (b t : Z) (st : Store) :
  NoDup (map Follow.id (follows st)) ->
  NoDup (map Follow.id (follows (snd (follow_user req b t st)))).
Proof.
  intros Hnd. unfold follow_user.
  destruct (read_user_from_cookie _ _) as [me|]; [|exact Hnd].
  destruct (_ =? _); [exact Hnd|].
  destruct (first _); [exact Hnd|].
  destruct (follow_fk_ok _ _); [|exact Hnd]. simpl.
  apply NoDup_map_snoc; [exact Hnd | apply next_id_fresh].
Qed.

Lemma unfollow_keys (req : Request) (b : Z) (st : Store) :
  NoDup (map Follow.id (follows st)) ->
  NoDup (map Follow.id (follows (snd (unfollow_user req b st)))).
Proof.
  intros Hnd. unfold unfollow_user.
  destruct (read_user_from_cookie _ _) as [me|]; [|exact Hnd].
  destruct (delete_follows_spec (edges st (User.id me) b) st)
    as (_ & _ & _ & Hf).
  simpl. rewrite Hf. now apply NoDup_map_filter.
Qed.

Lemma handle_keys (op : Op) (st : Store) :
  keys_distinct st -> keys_distinct (snd (handle op st)).
Proof.
  intros (Hu & Hh & Hc & Hf).
  pose proof (handle_frame op st) as (Fu & Fh & Ff).
  pose proof (other_ops_keep_checkins op st) as Fc.
  unfold keys_distinct.
  destruct op; cbv zeta in *;
    try rewrite Fu; try rewrite Fh; try rewrite Fc; try rewrite Ff;
    try (repeat split; assumption).
  - destruct (setup_db_keys now st Hu Hh) as [Hu' Hh'].
    cbn [handle snd]. repeat split; assumption.
  - repeat split; try assumption. now apply signup_keys.
  - repeat split; try assumption. now apply checkin_post_keeps_keys.
  - repeat split; try assumption. now apply clear_keys.
  - repeat split; try assumption. now apply follow_keys.
  - repeat split; try assumption. now apply unfollow_keys.
Qed.

Lemma run_keys (ops : list Op) :
  forall st, keys_distinct st -> keys_distinct (run ops st).
Proof.
  induction ops as [|op ops IH]; intros st Hinv; [exact Hinv|].
  apply (IH (snd (handle op st))). now apply handle_keys.
Qed.

End KeyFacts.

(** X1. The inserts and deletes of the handlers keep primary keys apart: after
    any operations on a store in which no table holds two rows with the same
    key, that is so again. *)
Theorem primary_keys_distinct {E : External} (ops : list Op) (st : Store) :
  keys_distinct st -> keys_distinct (run ops st).
Proof. apply run_keys. Qed.

(** ** User names *)

Section NameFacts.

Context `{External}.

Lemma insert_users_names (us : list (string * string * Z)) :
  forall st,
    map User.username (users (fold_left insert_user us st)) =
    map User.username (users st) ++ map (fun u => fst (fst u)) us.
Proof.
  induction us as [|[[n h] t] us IH]; intros st.
  - simpl. now rewrite app_nil_r.
  - cbn [fold_left]. rewrite (IH (insert_user st (n, h, t))). simpl.
    now rewrite map_app, <- app_assoc.
Qed.

Lemma names_clean_of_list (st : Store) :
  NoDup (map User.username (users st)) ->
  (forall n, In n (map User.username (users st)) ->
             n <> EmptyString /\ Py.strip n = n) ->
  names_clean st.
Proof.
  intros Hnd Hall. split; [exact Hnd|].
  intros u Hin. apply Hall. now apply in_map.
Qed.

Lemma setup_db_names (now : nat -> Z) (st : Store) :
  names_clean st -> names_clean (setup_db now st).
Proof.
  intros Hinv. unfold setup_db, seed_if_empty.
  set (st1 := match halls st with
              | [] => fold_left insert_hall seed_halls st
              | _ :: _ => st
              end).
  assert (users st1 = users st) as Hu1.
  { unfold st1. destruct (halls st); [|reflexivity].
    apply (insert_halls_frame seed_halls st). }
  destruct (users st1) eqn:E.
  - apply names_clean_of_list; rewrite insert_users_names, E.
    + simpl. repeat constructor; simpl; intuition discriminate.
    + simpl. intros n Hn.
      repeat (destruct Hn as [<- | Hn]; [split; [discriminate|reflexivity]|]).
      contradiction.
  - destruct Hinv as [Hnd Hall]. split.
    + now rewrite E, Hu1.
    + intros u Hin. apply Hall. now rewrite <- Hu1, <- E.
Qed.

Lemma signup_names (req : Request) (u p : string) (t : Z) (st : Store) :
  names_clean st -> names_clean (snd (signup_submit req u p t st)).
Proof.
  intros Hinv. unfold signup_submit.
  destruct (Py.truthy (Py.strip u)) eqn:Hn; [|exact Hinv].
  destruct (Py.len p <? 4); [exact Hinv|]. cbn [negb orb].
  destruct (first (users_named st (Py.strip u))) eqn:Hf; [exact Hinv|].
  destruct Hinv as [Hnd Hall]. cbn [snd]. split.
  - apply NoDup_map_snoc; [exact Hnd|]. simpl. intros Hin.
    apply in_map_iff in Hin. destruct Hin as (v & Hname & Hv).
    apply (first_filter_none _ _ Hf) in Hv.
    now rewrite Hname, String.eqb_refl in Hv.
  - intros v Hv. simpl in Hv. apply in_app_or in Hv.
    destruct Hv as [Hv | [<- | []]]; [now apply Hall|]. simpl.
    split; [now apply truthy_spec | apply strip_fixed].
Qed.

Lemma handle_names (op : Op) (st : Store) :
  names_clean st -> names_clean (snd (handle op st)).
Proof.
  intros Hinv. pose proof (handle_frame op st) as (Fu & _ & _).
  destruct op; cbv zeta in Fu;
    try (unfold names_clean; rewrite Fu; exact Hinv).
  - now apply setup_db_names.
  - now apply signup_names.
Qed.

Lemma run_names (ops : list Op) :
  forall st, names_clean st -> names_clean (run ops st).
Proof.
  induction ops as [|op ops IH]; intros st Hinv; [exact Hinv|].
  apply (IH (snd (handle op st))). now apply handle_names.
Qed.

End NameFacts.

(** X2. The unique index on user names is never put to the test: after any
    operations on a store whose names are distinct, not empty and free of
    surrounding white space, the names are so again. *)
Theorem usernames_stay_clean {E : External} (ops : list Op) (st : Store) :
  names_clean st -> names_clean (run ops st).
Proof. apply run_names. Qed.

(** ** Shape of the follow graph *)

Section GraphFacts.

Context `{External}.

Lemma follow_graph (req : Request) (b t : Z) (st : Store) :
  follow_graph_clean st -> follow_graph_clean (snd (follow_user req b t st)).
Proof.
  intros Hinv. unfold follow_user.
  destruct (read_user_from_cookie _ _) as [me|]; [|exact Hinv].
  destruct (b =? User.id me) eqn:Eb; [exact Hinv|].
  destruct (edges st (User.id me) b) eqn:Ee; [|exact Hinv]. cbn [first hd_error].
  destruct (follow_fk_ok _ _); [|exact Hinv].
  destruct Hinv as [Hone Hself]. cbn [snd]. split.
  - intros a c. rewrite edges_add, length_app.
    destruct (is_edge a c _) eqn:Eac; [|specialize (Hone a c); simpl; lia].
    unfold is_edge in Eac. simpl in Eac. apply andb_true_iff in Eac.
    destruct Eac as [Ea Ec]. apply Z.eqb_eq in Ea. apply Z.eqb_eq in Ec.
    subst a c. rewrite Ee. simpl. lia.
  - intros f Hf. simpl in Hf. apply in_app_or in Hf.
    destruct Hf as [Hf | [<- | []]]; [now apply Hself|]. simpl.
    apply Z.eqb_neq in Eb. congruence.
Qed.

Lemma unfollow_graph (req : Request) (b : Z) (st : Store) :
  follow_graph_clean st -> follow_graph_clean (snd (unfollow_user req b st)).
Proof.
  intros Hinv. unfold unfollow_user.
  destruct (read_user_from_cookie _ _) as [me|]; [|exact Hinv].
  destruct (delete_follows_spec (edges st (User.id me) b) st)
    as (_ & _ & _ & Hf).
  destruct Hinv as [Hone Hself]. cbn [snd]. split.
  - intros a c. unfold edges at 1. rewrite Hf.
    pose proof (filter_length_le (is_edge a c)
                  (fun f => negb (existsb (fun r => Follow.id f =? Follow.id r)
                                    (edges st (User.id me) b)))
                  (follows st)) as Hle.
    specialize (Hone a c). unfold edges in Hone at 1. lia.
  - intros f Hin. rewrite Hf in Hin. apply filter_In in Hin.
    apply Hself. tauto.
Qed.

Lemma handle_graph (op : Op) (st : Store) :
  follow_graph_clean st -> follow_graph_clean (snd (handle op st)).
Proof.
  intros Hinv. pose proof (handle_frame op st) as (_ & _ & Ff).
  destruct op; cbv zeta in Ff;
    try (unfold follow_graph_clean, edges; rewrite Ff; exact Hinv).
  - now apply follow_graph.
  - now apply unfollow_graph.
Qed.

Lemma run_graph (ops : list Op) :
  forall st, follow_graph_clean st -> follow_graph_clean (run ops st).
Proof.
  induction ops as [|op ops IH]; intros st Hinv; [exact Hinv|].
  apply (IH (snd (handle op st))). now apply handle_graph.
Qed.

End GraphFacts.

(** X3. The check before the insert in [follow_user] does the work of a unique
    constraint: after any operations on a store with at most one edge per
    ordered pair and no edge from a user to themselves, the follow table is
    so again. *)
Theorem follow_graph_stays_clean {E : External} (ops : list Op) (st : Store) :
  follow_graph_clean st -> follow_graph_clean (run ops st).
Proof. apply run_graph. Qed.

(** ** Clearing, unfollowing and their fringe cases *)

Section Removal.

Context `{External}.

Lemma store_eta (st : Store) :
  mkStore (users st) (halls st) (checkins st) (follows st) = st.
Proof. now destruct st. Qed.

Lemma delete_own_edges (st : Store) (a b : Z) :
  NoDup (map Follow.id (follows st)) ->
  follows (fold_left delete_follow (edges st a b) st) =
  filter (fun f => negb (is_edge a b f)) (follows st).
Proof.
  intros Hnd.
  destruct (delete_follows_spec (edges st a b) st) as (_ & _ & _ & ->).
  apply filter_ext_in. intros f Hf. f_equal.
  destruct (is_edge a b f) eqn:E.
  - apply existsb_exists. exists f. split; [|apply Z.eqb_refl].
    apply filter_In. tauto.
  - destruct (existsb _ _) eqn:Ex; [|reflexivity].
    apply existsb_exists in Ex. destruct Ex as (r & Hr & Hk).
    apply filter_In in Hr. destruct Hr as [Hr He].
    apply Z.eqb_eq in Hk.
    assert (f = r) by now apply (key_injective Follow.id (follows st)).
    subst r. congruence.
Qed.

Lemma edges_after_delete (st : Store) (a b : Z) :
  edges (fold_left delete_follow (edges st a b) st) a b = [].
Proof.
  destruct (delete_follows_spec (edges st a b) st) as (_ & _ & _ & Hf).
  unfold edges at 1. rewrite Hf, filter_filter. apply filter_none.
  intros f Hin. destruct (is_edge a b f) eqn:E; [|apply andb_false_r].
  rewrite andb_true_r. apply negb_false_iff, existsb_exists.
  exists f. split; [|apply Z.eqb_refl]. apply filter_In. tauto.
Qed.

End Removal.

(** X4. [clear_checkin] for a signed-in user removes exactly the rows that user
    owns and touches nothing else; clearing again, or clearing when there is
    nothing to clear, changes nothing. *)
Theorem clear_checkin_clears (req : Request) (t t' : Z) (st : Store)
    (me : User.t) :
  read_user_from_cookie req st = Some me ->
  NoDup (map CheckIn.id (checkins st)) ->
  let st' := snd (clear_checkin req t st) in
  checkins st' =
  filter (fun c => negb (CheckIn.user_id c =? User.id me)) (checkins st)
  /\ users st' = users st /\ halls st' = halls st /\ follows st' = follows st
  /\ checkins_of st' (User.id me) = []
  /\ snd (clear_checkin req t' st') = st'
  /\ (checkins_of st (User.id me) = [] -> st' = st).
Proof.
  intros Hme Hnd st'.
  assert (st' = fold_left delete_checkin (checkins_of st (User.id me)) st)
    as Hst' by (unfold st', clear_checkin; now rewrite Hme).
  destruct (delete_checkins_spec (checkins_of st (User.id me)) st)
    as (Hu & Hh & Hf & _).
  destruct (checkins_after_delete_own st (User.id me) 0) as [Hown _].
  rewrite <- Hst' in Hu, Hh, Hf, Hown.
  split; [rewrite Hst'; now apply delete_own_checkins|].
  repeat split; try assumption.
  - unfold clear_checkin.
    rewrite (read_user_same_users req st st' Hu), Hme, Hown. reflexivity.
  - intros Hnone. now rewrite Hst', Hnone.
Qed.

(** X5. [unfollow_user] for a signed-in user and a target key the engine
    binds removes every edge from that user to the target and touches nothing
    else; when there is no such edge the store is left exactly as it was. *)
Theorem unfollow_removes {E : External} (req : Request) (b : Z) (st : Store)
    (me : User.t) :
  read_user_from_cookie_outcome req st = Returned (Some me) ->
  int_overflows b = false ->
  NoDup (map Follow.id (follows st)) ->
  let st' := snd (unfollow_user req b st) in
  fst (unfollow_user req b st) = to_feed
  /\ follows st' =
     filter (fun f => negb (is_edge (User.id me) b f)) (follows st)
  /\ users st' = users st /\ halls st' = halls st
  /\ checkins st' = checkins st
  /\ edges st' (User.id me) b = []
  /\ (edges st (User.id me) b = [] -> st' = st).
Proof.
  intros Hme _ Hnd st'. apply outcome_signed_in in Hme.
  assert (st' = fold_left delete_follow (edges st (User.id me) b) st)
    as Hst' by (unfold st', unfollow_user; now rewrite Hme).
  destruct (delete_follows_spec (edges st (User.id me) b) st)
    as (Hu & Hh & Hc & _).
  rewrite <- Hst' in Hu, Hh, Hc.
  split; [unfold unfollow_user; now rewrite Hme|].
  split; [rewrite Hst'; now apply delete_own_edges|].
  repeat split; try assumption.
  - rewrite Hst'. apply edges_after_delete.
  - intros Hnone. now rewrite Hst', Hnone.
Qed.

(** X6. Following a user one did not follow and unfollowing them again gives
    back the store one started from. *)
Theorem follow_then_unfollow {E : External} (req : Request) (b t : Z)
    (st : Store) (me : User.t) :
  read_user_from_cookie req st = Some me ->
  b <> User.id me ->
  edges st (User.id me) b = [] ->
  fk_enforced = false \/ (exists ub, get_user st b = Some ub) ->
  snd (unfollow_user req b (snd (follow_user req b t st))) = st.
Proof.
  intros Hme Hb He Hfk.
  rewrite (follow_user_cases req b t st me Hme).
  apply Z.eqb_neq in Hb. rewrite Hb, He.
  assert (negb fk_enforced || is_some (get_user st b) = true) as Hok.
  { destruct Hfk as [-> | (ub & ->)]; [reflexivity | apply orb_true_r]. }
  rewrite Hok. cbn [snd]. unfold unfollow_user.
  set (row := Follow.mk (next_id (map Follow.id (follows st))) (User.id me)
                b t).
  rewrite (read_user_same_users req st (add_follow st row)) by reflexivity.
  rewrite Hme, edges_add, He.
  assert (is_edge (User.id me) b row = true) as ->
    by (unfold is_edge; simpl; now rewrite !Z.eqb_refl).
  cbn [app fold_left snd]. unfold delete_follow. simpl.
  rewrite filter_app. simpl. rewrite Z.eqb_refl. simpl.
  rewrite app_nil_r, filter_all; [apply store_eta|].
  intros f Hf. apply negb_true_iff, Z.eqb_neq. intros Heq.
  apply (next_id_fresh (map Follow.id (follows st))).
  rewrite <- Heq. now apply in_map.
Qed.

(** ** Requests that are turned away *)

(** X7. A request whose cookie, of at most 4300 digits, resolves to nobody
    without an error is sent to [/] by every handler behind the login, and
    the store is left as it was. *)
Theorem anonymous_is_redirected {E : External} (op : Op) (req : Request)
    (st : Store) :
  guarded_request op = Some req ->
  cookie_short req = true ->
  read_user_from_cookie_outcome req st = Returned None ->
  handle op st = (to_root, st).
Proof.
  intros Hg Hshort Hout.
  pose proof (outcome_returned req st None Hshort Hout) as Hnone.
  destruct op; simpl in Hg; try discriminate; injection Hg as ->;
    cbn [handle].
  - unfold feed_page. now rewrite Hnone.
  - unfold dining_page. now rewrite Hnone.
  - unfold user_profile. now rewrite Hnone.
  - unfold people_search. now rewrite Hnone.
  - unfold checkin_post. now rewrite Hnone.
  - unfold clear_checkin. now rewrite Hnone.
  - unfold follow_user. now rewrite Hnone.
  - unfold unfollow_user. now rewrite Hnone.
Qed.

(** X8. A signed-in request that names, by a key the engine binds, a hall or
    a profile that is not stored is sent to [/feed]; in particular a check-in
    at an unknown hall leaves the user's current check-in in place. *)
Theorem unknown_target_is_redirected {E : External} (req : Request)
    (target t1 t2 t3 : Z) (st : Store) (me : User.t) :
  read_user_from_cookie_outcome req st = Returned (Some me) ->
  int_overflows target = false ->
  ((forall h, In h (halls st) -> DiningHall.id h <> target) ->
   checkin_post req target t1 t2 t3 st = (to_feed, st)
   /\ dining_page target req t1 st = (to_feed, st))
  /\ ((forall u, In u (users st) -> User.id u <> target) ->
      user_profile target req st = (to_feed, st)).
Proof.
  intros Hme _. apply outcome_signed_in in Hme. split.
  - intros Hnone. apply get_hall_absent in Hnone.
    unfold checkin_post, dining_page. now rewrite Hme, Hnone.
  - intros Hnone. apply get_user_absent in Hnone.
    unfold user_profile. now rewrite Hme, Hnone.
Qed.

(** X9. The handlers that only read hand back the store they were given. *)
Theorem reading_changes_nothing {E : External} (op : Op) (st : Store) :
  reads_only op = true -> snd (handle op st) = st.
Proof.
  intros Hr. destruct op; simpl in Hr; try discriminate; cbn [handle].
  - unfold home. now destruct (read_user_from_cookie _ _).
  - unfold login_page, home. now destruct (read_user_from_cookie _ _).
  - unfold login_submit. destruct (_ || _); [reflexivity|].
    destruct (first _); [|reflexivity]. now destruct (negb _).
  - unfold signup_page. now destruct (read_user_from_cookie _ _).
  - reflexivity.
  - unfold feed_page. now destruct (read_user_from_cookie _ _).
  - unfold dining_page. destruct (read_user_from_cookie _ _); [|reflexivity].
    now destruct (get_hall _ _).
  - unfold user_profile. destruct (read_user_from_cookie _ _); [|reflexivity].
    now destruct (get_user _ _).
  - unfold people_search. now destruct (read_user_from_cookie _ _).
Qed.

(** ** Start-up *)

Section SeedFacts.

Context `{External}.

Lemma insert_halls_grow (names : list string) :
  forall st, exists extra,
    halls (fold_left insert_hall names st) = halls st ++ extra
    /\ List.length extra = List.length names.
Proof.
  induction names as [|n names IH]; intros st.
  - exists []. now rewrite app_nil_r.
  - destruct (IH (insert_hall st n)) as (extra & Hx & Hlen).
    cbn [fold_left]. rewrite Hx. simpl. rewrite <- app_assoc.
    eexists. split; [reflexivity|]. simpl. now rewrite Hlen.
Qed.

Lemma insert_users_grow (us : list (string * string * Z)) :
  forall st, exists extra,
    users (fold_left insert_user us st) = users st ++ extra
    /\ List.length extra = List.length us.
Proof.
  induction us as [|[[n h] t] us IH]; intros st.
  - exists []. now rewrite app_nil_r.
  - destruct (IH (insert_user st (n, h, t))) as (extra & Hx & Hlen).
    cbn [fold_left]. rewrite Hx. simpl. rewrite <- app_assoc.
    eexists. split; [reflexivity|]. simpl. now rewrite Hlen.
Qed.

(** Seeding fills an empty table and leaves a table with rows alone. *)
Lemma setup_db_tables (now : nat -> Z) (st : Store) :
  (exists extra,
      halls (setup_db now st) = halls st ++ extra
      /\ (halls st <> [] -> extra = [])
      /\ (halls st = [] -> List.length extra = 4%nat))
  /\ (exists extra,
         users (setup_db now st) = users st ++ extra
         /\ (users st <> [] -> extra = [])
         /\ (users st = [] -> List.length extra = 7%nat)).
Proof.
  unfold setup_db, seed_if_empty.
  set (st1 := match halls st with
              | [] => fold_left insert_hall seed_halls st
              | _ :: _ => st
              end).
  set (rows := map (fun k_u => (fst (snd k_u), hash_password (snd (snd k_u)),
                                now (fst k_u)))
                 (combine (seq 0 (List.length seed_users)) seed_users)).
  assert (users st1 = users st) as Hu1.
  { unfold st1. destruct (halls st); [|reflexivity].
    apply (insert_halls_frame seed_halls st). }
  assert (exists extra,
             halls st1 = halls st ++ extra
             /\ (halls st <> [] -> extra = [])
             /\ (halls st = [] -> List.length extra = 4%nat)) as Hh1.
  { unfold st1. destruct (halls st) as [|h hs] eqn:E.
    - destruct (insert_halls_grow seed_halls st) as (extra & Hx & Hlen).
      exists extra. rewrite Hx, E.
      split; [reflexivity|]. split; [congruence | intros _; exact Hlen].
    - exists []. rewrite E, app_nil_r.
      split; [reflexivity|]. split; [reflexivity | discriminate]. }
  destruct (insert_users_frame rows st1) as (Hh2 & _ & _).
  destruct (insert_users_grow rows st1) as (extra & Hx & Hlen).
  rewrite Hu1 in Hx.
  destruct (users st1) as [|u us] eqn:E.
  - split; [now rewrite Hh2|].
    exists extra. split; [exact Hx|]. split.
    + intros Hne. now rewrite <- Hu1 in Hne.
    + intros _. rewrite Hlen. unfold rows. now rewrite length_map.
  - split; [exact Hh1|].
    exists []. rewrite E, <- Hu1, app_nil_r.
    split; [reflexivity|]. split; [reflexivity | discriminate].
Qed.

Lemma setup_db_filled (now : nat -> Z) (st : Store) :
  halls (setup_db now st) <> [] /\ users (setup_db now st) <> [].
Proof.
  destruct (setup_db_tables now st)
    as ((eh & Hh & _ & Hh4) & (eu & Hu & _ & Hu7)).
  rewrite Hh, Hu. split.
  - destruct (halls st) eqn:E; [|discriminate].
    specialize (Hh4 eq_refl). destruct eh; [discriminate Hh4 | discriminate].
  - destruct (users st) eqn:E; [|discriminate].
    specialize (Hu7 eq_refl). destruct eu; [discriminate Hu7 | discriminate].
Qed.

Lemma setup_db_noop (now : nat -> Z) (st : Store) :
  halls st <> [] -> users st <> [] -> setup_db now st = st.
Proof.
  intros Hh Hu. unfold setup_db, seed_if_empty.
  destruct (halls st); [contradiction|].
  now destruct (users st); [contradiction|].
Qed.

End SeedFacts.

(** X10. Start-up seeds once: a table that is empty gets its fixed rows (four
    halls, seven users), a table that has rows is left alone, and running
    start-up again changes nothing, whatever the clock says. *)
Theorem setup_db_idempotent {E : External} (now now' : nat -> Z) (st : Store) :
  setup_db now' (setup_db now st) = setup_db now st
  /\ (halls st <> [] -> halls (setup_db now st) = halls st)
  /\ (users st <> [] -> users (setup_db now st) = users st)
  /\ (halls st = [] -> List.length (halls (setup_db now st)) = 4%nat)
  /\ (users st = [] -> List.length (users (setup_db now st)) = 7%nat)
  /\ checkins (setup_db now st) = checkins st
  /\ follows (setup_db now st) = follows st.
Proof.
  destruct (setup_db_tables now st)
    as ((eh & Hh & Hh0 & Hh4) & (eu & Hu & Hu0 & Hu7)).
  destruct (setup_db_filled now st) as [Hfh Hfu].
  split; [now apply setup_db_noop|].
  split; [intros Hne; now rewrite Hh, (Hh0 Hne), app_nil_r|].
  split; [intros Hne; now rewrite Hu, (Hu0 Hne), app_nil_r|].
  split; [intros He; rewrite Hh, He; exact (Hh4 He)|].
  split; [intros He; rewrite Hu, He; exact (Hu7 He)|].
  split; [apply setup_db_checkins | apply setup_db_follows].
Qed.

(** ** Users stay, halls stay *)

Section Growth.

Context `{External}.

Lemma handle_users_grow (op : Op) (st : Store) :
  exists extra, users (snd (handle op st)) = users st ++ extra.
Proof.
  pose proof (handle_frame op st) as (Fu & _ & _).
  destruct op; cbv zeta in Fu;
    try (exists []; now rewrite Fu, app_nil_r).
  - destruct (setup_db_tables now st) as (_ & extra & Hu & _).
    now exists extra.
  - cbn [handle]. unfold signup_submit.
    destruct (_ || _); [exists []; simpl; now rewrite app_nil_r|].
    destruct (first _); [exists []; simpl; now rewrite app_nil_r|].
    now eexists.
Qed.

Lemma handle_halls_fixed (op : Op) (st : Store) :
  halls st <> [] -> halls (snd (handle op st)) = halls st.
Proof.
  intros Hne. pose proof (handle_frame op st) as (_ & Fh & _).
  destruct op; cbv zeta in Fh; try exact Fh.
  cbn [handle snd].
  destruct (setup_db_tables now st) as ((eh & Hh & Hh0 & _) & _).
  now rewrite Hh, (Hh0 Hne), app_nil_r.
Qed.

End Growth.

(** X11. No operation ever removes or rewrites a user: the user table after any
    operations is the table before them with rows added at the end.  Once
    there are halls, the hall table never changes. *)
Theorem users_and_halls_stay {E : External} (ops : list Op) (st : Store) :
  (exists extra, users (run ops st) = users st ++ extra)
  /\ (halls st <> [] -> halls (run ops st) = halls st).
Proof.
  revert st. induction ops as [|op ops IH]; intros st.
  - split; [exists []; simpl; now rewrite app_nil_r | reflexivity].
  - destruct (IH (snd (handle op st))) as ((e2 & Hu2) & Hh2).
    destruct (handle_users_grow op st) as (e1 & Hu1).
    change (run (op :: ops) st) with (run ops (snd (handle op st))).
    split.
    + exists (e1 ++ e2). now rewrite Hu2, Hu1, app_assoc.
    + intros Hne. rewrite Hh2; rewrite (handle_halls_fixed op st Hne);
        [reflexivity | exact Hne].
Qed.

(** ** Credentials *)

Section Credentials.

Context `{External}.

Lemma first_none_nil {A} (l : list A) : first l = None -> l = [].
Proof. destruct l; [reflexivity | discriminate]. Qed.

Lemma len_truthy (p : string) :
  (Py.len p <? 4) = false -> Py.truthy p = true.
Proof.
  destruct p; [|reflexivity]. unfold Py.len. simpl. intros Hl.
  apply Z.ltb_ge in Hl. lia.
Qed.

Lemma login_succeeds (req : Request) (name pw : string) (st : Store)
    (u : User.t) :
  Py.truthy (Py.strip name) = true ->
  Py.truthy pw = true ->
  first (users_named st (Py.strip name)) = Some u ->
  User.password_hash u = make_hash pw ->
  login_submit req name pw st =
  (RedirectResponse "/feed" (SetCookie (Py.str (User.id u))), st).
Proof.
  intros Hn Hp Hf Hh. unfold login_submit, check_password.
  now rewrite Hn, Hp, Hf, Hh, String.eqb_refl.
Qed.

Lemma seeded_user_rows (now : nat -> Z) :
  users (setup_db now empty_store) =
  map (fun k_u =>
         User.mk (Z.of_nat (S (fst k_u))) (fst (snd k_u))
           (hash_password (snd (snd k_u))) (now (fst k_u)))
    (combine (seq 0 7) seed_users).
Proof. reflexivity. Qed.

End Credentials.

Ltac seeded_case k :=
  match goal with
  | |- exists u, In u (users (setup_db ?clock _)) /\ User.username u = ?n
                 /\ login_submit _ _ ?p _ = _ /\ _ =>
      exists (User.mk (Z.of_nat (S k)) n (hash_password p) (clock k));
      split; [rewrite seeded_user_rows; simpl; tauto|];
      split; [reflexivity|];
      split;
      [ apply login_succeeds;
        [ reflexivity | reflexivity
        | unfold users_named; rewrite seeded_user_rows | ];
        reflexivity
      | rewrite read_request_of; unfold get_user;
        rewrite seeded_user_rows; reflexivity ]
  end.

(** X12. Every seeded pair of name and password signs in on the freshly seeded
    database, as the seeded user of that name and whatever the digest
    function is: start-up and login hash alike. *)
Theorem seeded_users_sign_in {E : External} (now : nat -> Z) (req : Request)
    (name password : string) :
  In (name, password) seed_users ->
  let st := setup_db now empty_store in
  exists u,
    In u (users st) /\ User.username u = name
    /\ login_submit req name password st =
       (RedirectResponse "/feed" (SetCookie (Py.str (User.id u))), st)
    /\ read_user_from_cookie (request_of (User.id u)) st = Some u.
Proof.
  intros Hin st. unfold st. simpl in Hin.
  destruct Hin as [Hin | Hin]; [injection Hin as <- <-; seeded_case 0%nat|].
  destruct Hin as [Hin | Hin]; [injection Hin as <- <-; seeded_case 1%nat|].
  destruct Hin as [Hin | Hin]; [injection Hin as <- <-; seeded_case 2%nat|].
  destruct Hin as [Hin | Hin]; [injection Hin as <- <-; seeded_case 3%nat|].
  destruct Hin as [Hin | Hin]; [injection Hin as <- <-; seeded_case 4%nat|].
  destruct Hin as [Hin | Hin]; [injection Hin as <- <-; seeded_case 5%nat|].
  destruct Hin as [Hin | Hin]; [injection Hin as <- <-; seeded_case 6%nat|].
  contradiction.
Qed.

(** X13. Whoever signed up can sign in: after a signup that was accepted, a login
    with the same name and password, typed the same way, is accepted too and
    sets the very cookie the signup set. *)
Theorem signup_then_login {E : External} (req req' : Request)
    (username password cookie : string) (t : Z) (st : Store) :
  fst (signup_submit req username password t st) =
  RedirectResponse "/feed" (SetCookie cookie) ->
  let st' := snd (signup_submit req username password t st) in
  login_submit req' username password st' =
  (RedirectResponse "/feed" (SetCookie cookie), st').
Proof.
  unfold signup_submit.
  destruct (Py.truthy (Py.strip username)) eqn:Hn; [|discriminate].
  destruct (Py.len password <? 4) eqn:Hl; [discriminate|]. cbn [negb orb].
  destruct (first (users_named st (Py.strip username))) eqn:Hf;
    [discriminate|].
  cbn [fst snd]. intros [= <-].
  apply (login_succeeds req' username password _
           (User.mk (next_id (map User.id (users st))) (Py.strip username)
              (make_hash password) t)).
  - exact Hn.
  - now apply len_truthy.
  - apply first_none_nil in Hf. unfold users_named in *. simpl.
    rewrite filter_app, Hf. simpl. now rewrite String.eqb_refl.
  - reflexivity.
Qed.

(** X14. The cookie written at login and signup is the decimal text of the user's
    key, and reading it back asks the user table for exactly that key:
    whatever the key and the store, a request carrying [str(uid)] resolves
    as [get(User, uid)] does, and to the stored user of that key when keys
    are distinct. *)
Theorem cookie_round_trip (uid : Z) (hx : option string) (st : Store) :
  read_user_from_cookie (mkRequest (Some (Py.str uid)) hx) st
  = get_user st uid
  /\ forall u, NoDup (map User.id (users st)) -> In u (users st) ->
       read_user_from_cookie (mkRequest (Some (Py.str (User.id u))) hx) st
       = Some u.
Proof.
  assert (forall k,
             read_user_from_cookie (mkRequest (Some (Py.str k)) hx) st
             = get_user st k) as Hread.
  { intros k. unfold read_user_from_cookie. simpl.
    now rewrite str_truthy, int_str. }
  split; [apply Hread|].
  intros u Hnd Hin. rewrite Hread. now apply (find_key_unique User.id).
Qed.

(** ** Listings *)

Section Listings.

Lemma first_sorted (l : list CheckIn.t) :
  (first (order_by_checked_at_desc l) = None <-> l = [])
  /\ forall c, first (order_by_checked_at_desc l) = Some c ->
       In c l
       /\ forall d, In d l -> CheckIn.checked_at d <= CheckIn.checked_at c.
Proof.
  pose proof (order_by_perm l) as Hp.
  pose proof (order_by_sorted l) as Hs.
  destruct (order_by_checked_at_desc l) as [|x xs] eqn:E; simpl.
  - apply Permutation_nil in Hp. subst l. split; [tauto|]. discriminate.
  - split.
    + split; [discriminate|]. intros ->.
      apply Permutation_sym, Permutation_nil in Hp. discriminate.
    + intros c [= <-]. split.
      * apply (Permutation_in _ Hp). now left.
      * intros d Hd. apply (Permutation_in _ (Permutation_sym Hp)) in Hd.
        inversion Hs as [|? ? _ Hall]; subst.
        destruct Hd as [<- | Hd]; [lia|].
        rewrite Forall_forall in Hall. exact (Hall d Hd).
Qed.

Lemma resolve_users_spec (st : Store) (ids : list Z) (u : User.t) :
  In u (resolve_users st ids) <->
  exists i, In i ids /\ get_user st i = Some u.
Proof.
  unfold resolve_users. rewrite in_flat_map. split.
  - intros (i & Hi & Hu). exists i. split; [exact Hi|].
    destruct (get_user st i); [|contradiction].
    destruct Hu as [<- | []]. reflexivity.
  - intros (i & Hi & Hu). exists i. split; [exact Hi|].
    rewrite Hu. now left.
Qed.

End Listings.

(** X15. [dining_page] lists, for a signed-in viewer and a stored hall, exactly
    the stored check-ins at that hall that have not expired, whoever made
    them and whether or not the viewer follows them, newest first. *)
Theorem dining_page_lists (hall_id : Z) (req : Request) (now : Z) (st : Store)
    (me : User.t) (h : DiningHall.t) :
  read_user_from_cookie req st = Some me ->
  get_hall st hall_id = Some h ->
  let rows := hall_checkins st hall_id now in
  dining_page hall_id req now st =
  (TemplateResponse "dining.html" 200 (DiningCtx me h rows now), st)
  /\ (forall c, In c rows <->
                In c (checkins st) /\ CheckIn.hall_id c = hall_id
                /\ now < CheckIn.expires_at c)
  /\ Permutation rows
       (filter (fun c => (CheckIn.hall_id c =? hall_id)
                         && (now <? CheckIn.expires_at c)) (checkins st))
  /\ StronglySorted newest_first rows.
Proof.
  intros Hme Hh rows. split; [|split; [|split]].
  - unfold dining_page. now rewrite Hme, Hh.
  - intros c. apply hall_checkins_spec.
  - apply order_by_perm.
  - apply order_by_sorted.
Qed.

(** X16. [user_profile] shows the newest stored check-in of the profile's user,
    expired or not, and none only when that user has no row at all; the two
    user lists hold the stored users at the other end of the profile's
    edges, edges to missing users being passed over. *)
Theorem user_profile_shows (uid : Z) (req : Request) (st : Store)
    (me target : User.t) :
  read_user_from_cookie req st = Some me ->
  get_user st uid = Some target ->
  exists followers followees ids latest,
    user_profile uid req st =
    (TemplateResponse "profile.html" 200
       (ProfileCtx me target followers followees ids latest), st)
    /\ (latest = None <-> checkins_of st uid = [])
    /\ (forall c, latest = Some c ->
          In c (checkins st) /\ CheckIn.user_id c = uid
          /\ forall d, In d (checkins st) -> CheckIn.user_id d = uid ->
               CheckIn.checked_at d <= CheckIn.checked_at c)
    /\ (forall u, In u followers <->
          exists f, In f (follows st) /\ Follow.following_id f = uid
                    /\ get_user st (Follow.follower_id f) = Some u)
    /\ (forall u, In u followees <->
          exists f, In f (follows st) /\ Follow.follower_id f = uid
                    /\ get_user st (Follow.following_id f) = Some u).
Proof.
  intros Hme Ht.
  destruct (get_user_some st uid target Ht) as [_ Hid].
  unfold user_profile. rewrite Hme, Ht, Hid.
  eexists _, _, _, _. split; [reflexivity|].
  destruct (first_sorted (checkins_of st uid)) as [Hnone Hsome].
  split; [exact Hnone|]. split; [|split].
  - intros c Hc. destruct (Hsome c Hc) as [Hin Hmax].
    apply filter_In in Hin. destruct Hin as [Hin Hu].
    apply Z.eqb_eq in Hu. repeat split; try assumption.
    intros d Hd Hdu. apply Hmax. apply filter_In. split; [exact Hd|].
    now apply Z.eqb_eq.
  - intros u. rewrite resolve_users_spec. split.
    + intros (i & Hi & Hu). apply in_map_iff in Hi.
      destruct Hi as (f & <- & Hf). apply filter_In in Hf.
      destruct Hf as [Hf Hb]. apply Z.eqb_eq in Hb. now exists f.
    + intros (f & Hf & Hb & Hu). exists (Follow.follower_id f).
      split; [|exact Hu]. apply in_map. apply filter_In.
      split; [exact Hf|]. now apply Z.eqb_eq.
  - intros u. rewrite resolve_users_spec. split.
    + intros (i & Hi & Hu). apply in_map_iff in Hi.
      destruct Hi as (f & <- & Hf). apply filter_In in Hf.
      destruct Hf as [Hf Hb]. apply Z.eqb_eq in Hb. now exists f.
    + intros (f & Hf & Hb & Hu). exists (Follow.following_id f).
      split; [|exact Hu]. apply in_map. apply filter_In.
      split; [exact Hf|]. now apply Z.eqb_eq.
Qed.

(** X17. After a check-in or a clear, a request marked [HX-Request: true] gets
    the activity fragment, computed on the store as it is after the commit:
    after a check-in it holds the new row as long as that has not expired,
    after a clear it holds no row of the user.  Any other request, also one
    marked [True], is redirected to [/feed]. *)
Theorem incremental_update {E : External} (req : Request)
    (hall_id t1 t2 t3 : Z) (st : Store) (me : User.t) (h : DiningHall.t) :
  read_user_from_cookie req st = Some me ->
  get_hall st hall_id = Some h ->
  let posted := checkin_post req hall_id t1 t2 t3 st in
  let cleared := clear_checkin req t3 st in
  (hx_request req = Some "true"%string ->
   fst posted =
   TemplateResponse "fragments/activity.html" 200
     (ActivityCtx me (feed_rows (snd posted) me t3) t3)
   /\ (t3 < t2 + one_hour ->
       exists row, In row (feed_rows (snd posted) me t3)
                   /\ CheckIn.user_id row = User.id me
                   /\ CheckIn.hall_id row = hall_id
                   /\ CheckIn.checked_at row = t1)
   /\ fst cleared =
      TemplateResponse "fragments/activity.html" 200
        (ActivityCtx me (feed_rows (snd cleared) me t3) t3)
   /\ forall c, In c (feed_rows (snd cleared) me t3) ->
                CheckIn.user_id c <> User.id me)
  /\ (hx_request req <> Some "true"%string ->
      fst posted = to_feed /\ fst cleared = to_feed).
Proof.
  intros Hme Hh posted cleared.
  destruct (delete_checkins_spec (checkins_of st (User.id me)) st)
    as (Hu & Hhl & _ & _).
  destruct (resolved_user req st me Hme) as [_ Hget].
  set (st1 := fold_left delete_checkin (checkins_of st (User.id me)) st) in *.
  set (row := CheckIn.mk (next_id (map CheckIn.id (checkins st))) (User.id me)
                hall_id t1 (t2 + one_hour)).
  assert (checkin_fk_ok st1 row = true) as Hfk.
  { unfold checkin_fk_ok, get_user, get_hall. simpl. rewrite Hu, Hhl.
    fold (get_user st (User.id me)). fold (get_hall st hall_id).
    rewrite Hget, Hh. apply orb_true_r. }
  assert (posted = (after_change req me t3 (add_checkin st1 row),
                    add_checkin st1 row)) as Hposted.
  { unfold posted, checkin_post. rewrite Hme, Hh. fold st1. fold row.
    now rewrite Hfk. }
  assert (cleared = (after_change req me t3 st1, st1)) as Hcleared.
  { unfold cleared, clear_checkin. now rewrite Hme. }
  rewrite Hposted, Hcleared. cbn [fst snd]. unfold after_change. split.
  - intros ->. cbv beta iota. rewrite String.eqb_refl.
    split; [reflexivity|]. split; [|split; [reflexivity|]].
    + intros Hexp. exists row. split; [|repeat split].
      apply feed_rows_spec. unfold in_feed_of. simpl.
      split; [apply in_or_app; right; now left|]. tauto.
    + intros c Hc Hown. apply feed_rows_spec in Hc. destruct Hc as (Hin & _).
      destruct (checkins_after_delete_own st (User.id me) 0) as [Hnone _].
      fold st1 in Hnone.
      assert (In c (checkins_of st1 (User.id me))) as Hc
        by (apply filter_In; split; [exact Hin | now apply Z.eqb_eq]).
      now rewrite Hnone in Hc.
  - intros Hne. destruct (hx_request req) as [v|]; [|tauto].
    destruct (String.eqb v "true") eqn:Ev; [|tauto].
    apply String.eqb_eq in Ev. subst v. now contradiction Hne.
Qed.

(** X18. The feed follows the graph: once the viewer has unfollowed a user, no
    check-in of that user is in the viewer's feed; once the viewer has
    followed a user (and the commit went through), every unexpired check-in
    of that user is. *)
Theorem feed_tracks_follows {E : External} (req : Request) (b t now : Z)
    (st : Store) (me : User.t) :
  read_user_from_cookie req st = Some me ->
  b <> User.id me ->
  (forall c, CheckIn.user_id c = b ->
             ~ In c (feed_rows (snd (unfollow_user req b st)) me now))
  /\ (fst (follow_user req b t st) = to_feed ->
      forall c, In c (checkins st) -> CheckIn.user_id c = b ->
                now < CheckIn.expires_at c ->
                In c (feed_rows (snd (follow_user req b t st)) me now)).
Proof.
  intros Hme Hb. split.
  - intros c Hc Hin. apply feed_rows_spec in Hin.
    destruct Hin as (_ & [Hown | (f & Hf & Ha & Hfb)] & _); [congruence|].
    unfold unfollow_user in Hf. rewrite Hme in Hf. cbn [snd] in Hf.
    pose proof (edges_after_delete st (User.id me) b) as Hnone.
    assert (In f (edges (fold_left delete_follow (edges st (User.id me) b) st)
                    (User.id me) b)) as Hedge.
    { apply filter_In. split; [exact Hf|]. unfold is_edge.
      rewrite Ha, Hfb, Hc, !Z.eqb_refl. reflexivity. }
    now rewrite Hnone in Hedge.
  - rewrite (follow_user_cases req b t st me Hme).
    apply Z.eqb_neq in Hb. rewrite Hb.
    intros Hok c Hin Hc Hexp. apply feed_rows_spec.
    destruct (edges st (User.id me) b) as [|f fs] eqn:Ee.
    + destruct (negb fk_enforced || is_some (get_user st b));
        [|discriminate]. cbn [snd].
      split; [exact Hin|]. split; [|exact Hexp]. right.
      eexists. split; [simpl; apply in_or_app; right; now left|].
      simpl. now rewrite Hc.
    + cbn [snd]. split; [exact Hin|]. split; [|exact Hexp]. right.
      assert (In f (edges st (User.id me) b)) as Hf
        by (rewrite Ee; now left).
      apply filter_In in Hf. destruct Hf as [Hf He].
      unfold is_edge in He. apply andb_true_iff in He.
      destruct He as [Ha Hfb]. apply Z.eqb_eq in Ha. apply Z.eqb_eq in Hfb.
      exists f. rewrite Hc. tauto.
Qed.

(** ** Configuration *)

Section ConfigFacts.

Lemma lower_char_space (c : ascii) :
  Py.is_space (lower_char c) = Py.is_space c.
Proof.
  destruct c as [[] [] [] [] [] [] [] []]; vm_compute; reflexivity.
Qed.

Lemma lower_char_fixed (c : ascii) :
  lower_char (lower_char c) = lower_char c.
Proof.
  destruct c as [[] [] [] [] [] [] [] []]; vm_compute; reflexivity.
Qed.

Lemma lower_fixed (s : string) : py_lower (py_lower s) = py_lower s.
Proof.
  induction s as [|c r IH]; simpl; [reflexivity|].
  now rewrite lower_char_fixed, IH.
Qed.

Lemma lower_lstrip (s : string) :
  Py.lstrip_by Py.is_space (py_lower s)
  = py_lower (Py.lstrip_by Py.is_space s).
Proof.
  induction s as [|c r IH]; simpl; [reflexivity|].
  rewrite lower_char_space. now destruct (Py.is_space c).
Qed.

Lemma lower_rstrip (s : string) :
  Py.rstrip_by Py.is_space (py_lower s)
  = py_lower (Py.rstrip_by Py.is_space s).
Proof.
  induction s as [|c r IH]; simpl; [reflexivity|].
  rewrite IH, lower_char_space.
  destruct (Py.rstrip_by Py.is_space r); simpl; [|reflexivity].
  now destruct (Py.is_space c).
Qed.

Lemma lower_strip (s : string) :
  Py.strip (py_lower s) = py_lower (Py.strip s).
Proof.
  unfold Py.strip, Py.strip_by. now rewrite lower_rstrip, lower_lstrip.
Qed.

End ConfigFacts.

(** X19. The engine never gets a [postgres://] address: that scheme is rewritten
    to [postgresql://] with the rest of the address kept, any other address
    is passed on as it is, and an address that went through once goes
    through unchanged. *)
Theorem engine_url_scheme (env : Environ) :
  String.prefix "postgres://" (engine_url env) = false
  /\ (forall rest,
        DATABASE_URL env = ("postgres://" ++ rest)%string ->
        engine_url env = ("postgresql://" ++ rest)%string)
  /\ (String.prefix "postgres://" (DATABASE_URL env) = false ->
      engine_url env = DATABASE_URL env)
  /\ engine_url (mkEnviron (Some (engine_url env)) (env_ENVIRONMENT env)
                   (env_COOKIE_DOMAIN env)) = engine_url env.
Proof.
  assert (String.prefix "postgres://" (engine_url env) = false) as Hno.
  { unfold engine_url.
    destruct (String.prefix "postgres://" (DATABASE_URL env)) eqn:Ep;
      [reflexivity | exact Ep]. }
  split; [exact Hno|]. split; [|split].
  - intros rest Hurl. unfold engine_url. rewrite Hurl.
    change (String.prefix "postgres://" ("postgres://" ++ rest)) with
      (String.prefix "" rest).
    replace (String.prefix "" rest) with true by now destruct rest.
    reflexivity.
  - intros Hp. unfold engine_url. now rewrite Hp.
  - unfold engine_url at 1. unfold DATABASE_URL at 1 2. simpl.
    now rewrite Hno.
Qed.

(** X20. Production mode is read off [ENVIRONMENT] without regard to letter case
    or to white space around it, and an unset variable is not production.
    The cookie attributes always ask for [httponly], [samesite=lax] and
    [path=/]; [secure] is either absent or true, and an empty
    [COOKIE_DOMAIN] gives no [domain] attribute. *)
Theorem production_mode (d c : option string) (e : string) :
  let env x := mkEnviron d x c in
  is_production (env (Some (Py.strip e))) = is_production (env (Some e))
  /\ is_production (env (Some (py_lower e))) = is_production (env (Some e))
  /\ is_production (env None) = false
  /\ kw_secure (_cookie_kwargs (env (Some e)))
     = (if is_production (env (Some (py_lower (Py.strip e))))
        then Some true else None)
  /\ kw_httponly (_cookie_kwargs (env (Some e))) = true
  /\ kw_samesite (_cookie_kwargs (env (Some e))) = "lax"%string
  /\ kw_path (_cookie_kwargs (env (Some e))) = "/"%string
  /\ kw_domain (_cookie_kwargs (env (Some e))) <> Some EmptyString
  /\ (c = Some EmptyString ->
      kw_domain (_cookie_kwargs (env (Some e))) = None).
Proof.
  intros env. unfold is_production, ENVIRONMENT, _cookie_kwargs. simpl.
  split; [now rewrite strip_fixed|].
  split; [now rewrite lower_strip, lower_fixed|].
  split; [reflexivity|].
  split.
  { unfold is_production, ENVIRONMENT. simpl.
    now rewrite lower_strip, lower_fixed, <- lower_strip, strip_fixed,
      lower_strip. }
  split; [reflexivity|]. split; [reflexivity|]. split; [reflexivity|].
  unfold COOKIE_DOMAIN. simpl. split.
  - destruct c as [s|]; [|discriminate].
    destruct s; simpl; discriminate.
  - now intros ->.
Qed.

(** ** Soft expiry *)

(** X21. Expiry deletes nothing: as time passes the feed and the hall listing of
    one and the same store can only lose rows, a row whose expiry is not
    after [now] is in neither, and it is still in the table and still found
    as the latest check-in on its owner's profile query. *)
Theorem listings_shrink_with_time (st : Store) (me : User.t)
    (hall_id now1 now2 : Z) (c : CheckIn.t) :
  now1 <= now2 ->
  (In c (feed_rows st me now2) -> In c (feed_rows st me now1))
  /\ (In c (hall_checkins st hall_id now2) ->
      In c (hall_checkins st hall_id now1))
  /\ (CheckIn.expires_at c <= now2 ->
      ~ In c (feed_rows st me now2)
      /\ ~ In c (hall_checkins st hall_id now2))
  /\ (In c (checkins st) ->
      first (order_by_checked_at_desc (checkins_of st (CheckIn.user_id c)))
      <> None).
Proof.
  intros Hle. split; [|split; [|split]].
  - rewrite !feed_rows_spec. unfold in_feed_of. intros (Hin & Hwho & Hexp).
    repeat split; try assumption. lia.
  - rewrite !hall_checkins_spec. intros (Hin & Hh & Hexp).
    repeat split; try assumption. lia.
  - intros Hexp. rewrite feed_rows_spec, hall_checkins_spec.
    unfold in_feed_of. split; intros (_ & _ & Hlt); lia.
  - intros Hin Hnone.
    apply (proj1 (first_sorted (checkins_of st (CheckIn.user_id c)))) in Hnone.
    assert (In c (checkins_of st (CheckIn.user_id c))) as Hc
      by (apply filter_In; split; [exact Hin | apply Z.eqb_refl]).
    now rewrite Hnone in Hc.
Qed.

(** * The further properties at work on sample data *)

Lemma primary_keys_distinct_witness :
  keys_distinct empty_store /\ keys_distinct (sample_store sqlite_like).
Proof.
  assert (keys_distinct empty_store) as H0
    by (repeat split; constructor).
  split; [exact H0|].
  exact (@primary_keys_distinct sqlite_like
           [ Boot (fun k => Z.of_nat k);
             CheckinPost (request_of 1) 3 100 101 102;
             CheckinPost (request_of 2) 1 200 201 202;
             FollowUser (request_of 1) 2 300;
             FollowUser (request_of 1) 3 301 ] empty_store H0).
Defined.

Lemma usernames_stay_clean_witness :
  names_clean empty_store
  /\ names_clean
       (@run sqlite_like
          [ Boot (fun k => Z.of_nat k);
            SignupSubmit (mkRequest None None) " ab " "xyzz" 900 ]
          empty_store).
Proof.
  assert (names_clean empty_store) as H0.
  { split; [constructor | intros u []]. }
  split; [exact H0|].
  exact (@usernames_stay_clean sqlite_like _ empty_store H0).
Defined.

Lemma follow_graph_stays_clean_witness :
  follow_graph_clean empty_store
  /\ follow_graph_clean
       (@run sqlite_like
          [ Boot (fun k => Z.of_nat k);
            FollowUser (request_of 1) 2 300;
            FollowUser (request_of 1) 2 301;
            FollowUser (request_of 1) 1 302 ]
          empty_store).
Proof.
  assert (follow_graph_clean empty_store) as H0.
  { split; [intros a b; simpl; lia | intros f []]. }
  split; [exact H0|].
  exact (@follow_graph_stays_clean sqlite_like _ empty_store H0).
Defined.

Lemma clear_checkin_clears_witness :
  let st := sample_store sqlite_like in
  let st' := snd (clear_checkin (request_of 1) 500 st) in
  map CheckIn.user_id (checkins st) = [1; 2]
  /\ map CheckIn.user_id (checkins st') = [2]
  /\ snd (clear_checkin (request_of 1) 501 st') = st'.
Proof.
  intros st st'.
  assert (read_user_from_cookie (request_of 1) st = Some (mahad sqlite_like))
    as Hme by (vm_compute; reflexivity).
  assert (NoDup (map CheckIn.id (checkins st))) as Hnd by distinct_keys.
  destruct (clear_checkin_clears (request_of 1) 500 501 st
              (mahad sqlite_like) Hme Hnd)
    as (Hc & _ & _ & _ & _ & Hagain & _).
  split; [vm_compute; reflexivity|]. split; [|exact Hagain].
  fold st' in Hc. rewrite Hc. vm_compute. reflexivity.
Defined.

Lemma unfollow_removes_witness :
  let st := sample_store sqlite_like in
  let st' := snd (unfollow_user (request_of 1) 2 st) in
  map Follow.following_id (follows st) = [2; 3]
  /\ map Follow.following_id (follows st') = [3]
  /\ edges st' 1 2 = [].
Proof.
  intros st st'.
  assert (@read_user_from_cookie_outcome sqlite_like (request_of 1) st
          = Returned (Some (mahad sqlite_like)))
    as Hme by (vm_compute; reflexivity).
  assert (NoDup (map Follow.id (follows st))) as Hnd by distinct_keys.
  assert (@int_overflows sqlite_like 2 = false) as Hb
    by (vm_compute; reflexivity).
  destruct (@unfollow_removes sqlite_like (request_of 1) 2 st
              (mahad sqlite_like) Hme Hb Hnd)
    as (_ & Hf & _ & _ & _ & He & _).
  split; [vm_compute; reflexivity|]. split; [|exact He].
  fold st' in Hf. rewrite Hf. vm_compute. reflexivity.
Defined.

Lemma follow_then_unfollow_witness :
  edges (seeded postgres_like) 1 4 = []
  /\ snd (unfollow_user (request_of 1) 4
            (snd (@follow_user postgres_like (request_of 1) 4 400
                    (seeded postgres_like))))
     = seeded postgres_like.
Proof.
  split; [vm_compute; reflexivity|].
  apply (@follow_then_unfollow postgres_like (request_of 1) 4 400
           (seeded postgres_like) (mahad postgres_like)).
  - vm_compute. reflexivity.
  - vm_compute. discriminate.
  - vm_compute. reflexivity.
  - right. eexists. vm_compute. reflexivity.
Defined.

Lemma anonymous_is_redirected_witness :
  @handle sqlite_like
    (CheckinPost (mkRequest (Some "not a key"%string) None) 1 100 101 102)
    (seeded sqlite_like)
  = (to_root, seeded sqlite_like).
Proof.
  apply (@anonymous_is_redirected sqlite_like _
           (mkRequest (Some "not a key"%string) None)).
  - reflexivity.
  - vm_compute. reflexivity.
  - vm_compute. reflexivity.
Defined.

Lemma unknown_target_is_redirected_witness :
  @checkin_post sqlite_like (request_of 1) 9 500 501 502
    (sample_store sqlite_like)
  = (to_feed, sample_store sqlite_like)
  /\ checkins_of (sample_store sqlite_like) 1 <> [].
Proof.
  assert (@read_user_from_cookie_outcome sqlite_like (request_of 1)
            (sample_store sqlite_like)
          = Returned (Some (mahad sqlite_like)))
    as Hme by (vm_compute; reflexivity).
  assert (@int_overflows sqlite_like 9 = false) as Hb
    by (vm_compute; reflexivity).
  assert (forall h, In h (halls (sample_store sqlite_like)) ->
                    DiningHall.id h <> 9) as Hnone.
  { intros h Hin. vm_compute in Hin.
    repeat (destruct Hin as [<- | Hin]; [discriminate|]). contradiction. }
  split.
  - exact (proj1 (proj1 (@unknown_target_is_redirected sqlite_like
                           (request_of 1) 9 500 501 502
                           (sample_store sqlite_like) (mahad sqlite_like)
                           Hme Hb) Hnone)).
  - vm_compute. discriminate.
Defined.

Lemma reading_changes_nothing_witness :
  snd (@handle sqlite_like
         (LoginSubmit (mkRequest None None) "Mahad" "mahad123")
         (sample_store sqlite_like))
  = sample_store sqlite_like.
Proof.
  apply (@reading_changes_nothing sqlite_like). reflexivity.
Defined.

Lemma seeded_users_sign_in_witness :
  exists u,
    User.username u = "Sarah"%string
    /\ @login_submit sqlite_like (mkRequest None None) "Sarah" "sarah123"
         (seeded sqlite_like)
       = (RedirectResponse "/feed" (SetCookie (Py.str (User.id u))),
          seeded sqlite_like).
Proof.
  destruct (@seeded_users_sign_in sqlite_like (fun k => Z.of_nat k)
              (mkRequest None None) "Sarah" "sarah123")
    as (u & _ & Hname & Hlogin & _).
  - right. left. reflexivity.
  - exists u. split; [exact Hname | exact Hlogin].
Defined.

Lemma signup_then_login_witness :
  let st' :=
    snd (@signup_submit sqlite_like (mkRequest None None) " ab " "xyzz" 900
           (seeded sqlite_like)) in
  @login_submit sqlite_like (mkRequest None None) " ab " "xyzz" st'
  = (RedirectResponse "/feed" (SetCookie "8"), st').
Proof.
  apply (@signup_then_login sqlite_like). vm_compute. reflexivity.
Defined.

Lemma dining_page_lists_witness :
  map CheckIn.user_id (hall_checkins (sample_store sqlite_like) 1 1000) = [2]
  /\ StronglySorted newest_first
       (hall_checkins (sample_store sqlite_like) 1 1000).
Proof.
  split; [vm_compute; reflexivity|].
  assert (read_user_from_cookie (request_of 1) (sample_store sqlite_like)
          = Some (mahad sqlite_like)) as Hme by (vm_compute; reflexivity).
  assert (get_hall (sample_store sqlite_like) 1
          = Some (DiningHall.mk 1 "Hampshire Dining Commons")) as Hh
    by (vm_compute; reflexivity).
  exact (proj2 (proj2 (proj2
           (dining_page_lists 1 (request_of 1) 1000
              (sample_store sqlite_like) (mahad sqlite_like)
              (DiningHall.mk 1 "Hampshire Dining Commons") Hme Hh)))).
Defined.

Lemma user_profile_shows_witness :
  exists followers followees ids latest,
    user_profile 2 (request_of 1) (sample_store sqlite_like) =
    (TemplateResponse "profile.html" 200
       (ProfileCtx (mahad sqlite_like)
          (User.mk 2 "Sarah" "sha256:sarah123" 1)
          followers followees ids latest), sample_store sqlite_like)
    /\ (latest = None <-> checkins_of (sample_store sqlite_like) 2 = []).
Proof.
  assert (read_user_from_cookie (request_of 1) (sample_store sqlite_like)
          = Some (mahad sqlite_like)) as Hme by (vm_compute; reflexivity).
  assert (get_user (sample_store sqlite_like) 2
          = Some (User.mk 2 "Sarah" "sha256:sarah123" 1)) as Ht
    by (vm_compute; reflexivity).
  destruct (user_profile_shows 2 (request_of 1) (sample_store sqlite_like)
              (mahad sqlite_like) (User.mk 2 "Sarah" "sha256:sarah123" 1)
              Hme Ht)
    as (followers & followees & ids & latest & Hres & Hnone & _).
  exists followers, followees, ids, latest.
  split; [exact Hres | exact Hnone].
Defined.

Lemma incremental_update_witness :
  let req := mkRequest (Some "1"%string) (Some "true"%string) in
  let posted :=
    @checkin_post sqlite_like req 2 500 501 502 (sample_store sqlite_like) in
  fst posted =
  TemplateResponse "fragments/activity.html" 200
    (ActivityCtx (mahad sqlite_like)
       (feed_rows (snd posted) (mahad sqlite_like) 502) 502).
Proof.
  intros req posted.
  assert (read_user_from_cookie req (sample_store sqlite_like)
          = Some (mahad sqlite_like)) as Hme by (vm_compute; reflexivity).
  assert (get_hall (sample_store sqlite_like) 2
          = Some (DiningHall.mk 2 "Berkshire Dining Commons")) as Hh
    by (vm_compute; reflexivity).
  exact (proj1 (proj1 (@incremental_update sqlite_like req 2 500 501 502
                         (sample_store sqlite_like) (mahad sqlite_like)
                         (DiningHall.mk 2 "Berkshire Dining Commons")
                         Hme Hh) eq_refl)).
Defined.

Lemma feed_tracks_follows_witness :
  map CheckIn.user_id
    (feed_rows (sample_store sqlite_like) (mahad sqlite_like) 1000) = [2; 1]
  /\ forall c, CheckIn.user_id c = 2 ->
       ~ In c (feed_rows
                 (snd (unfollow_user (request_of 1) 2
                         (sample_store sqlite_like)))
                 (mahad sqlite_like) 1000).
Proof.
  split; [vm_compute; reflexivity|].
  assert (read_user_from_cookie (request_of 1) (sample_store sqlite_like)
          = Some (mahad sqlite_like)) as Hme by (vm_compute; reflexivity).
  assert (2 <> User.id (mahad sqlite_like)) as Hb by discriminate.
  exact (proj1 (@feed_tracks_follows sqlite_like (request_of 1) 2 0 1000
                  (sample_store sqlite_like) (mahad sqlite_like) Hme Hb)).
Defined.

Lemma listings_shrink_with_time_witness :
  let st := sample_store sqlite_like in
  let c := CheckIn.mk 1 1 3 100 (101 + one_hour) in
  In c (checkins st)
  /\ ~ In c (feed_rows st (mahad sqlite_like) (101 + one_hour))
  /\ ~ In c (hall_checkins st 3 (101 + one_hour)).
Proof.
  intros st c. split; [vm_compute; tauto|].
  assert (0 <= 101 + one_hour) as Hle by (vm_compute; discriminate).
  assert (CheckIn.expires_at c <= 101 + one_hour) as Hexp
    by (vm_compute; discriminate).
  exact (proj1 (proj2 (proj2
           (listings_shrink_with_time st (mahad sqlite_like) 3 0
              (101 + one_hour) c Hle))) Hexp).
Defined.

Example engine_url_examples :
  engine_url (mkEnviron (Some "postgres://u:p@host:5432/db"%string) None None)
  = "postgresql://u:p@host:5432/db"%string
  /\ engine_url (mkEnviron None None None)
     = "sqlite:///./dinesight.db"%string
  /\ is_production (mkEnviron None (Some "  Production "%string) None)
     = true
  /\ kw_secure (_cookie_kwargs (mkEnviron None None None)) = None.
Proof. repeat split. Qed.

(** ** One hall at a time *)

Lemma checkin_expiry_rows {E : External} (req : Request)
    (hall_id t1 t2 t3 : Z) (st : Store) (me : User.t) (h : DiningHall.t) :
  read_user_from_cookie req st = Some me ->
  get_hall st hall_id = Some h ->
  let st1 := fold_left delete_checkin (checkins_of st (User.id me)) st in
  checkins (snd (checkin_post req hall_id t1 t2 t3 st)) =
  checkins st1
  ++ [CheckIn.mk (next_id (map CheckIn.id (checkins st))) (User.id me)
        hall_id t1 (t2 + one_hour)]
  /\ forall c, In c (checkins st1) -> CheckIn.user_id c <> User.id me.
Proof.
  intros Hme Hh st1.
  destruct (delete_checkins_spec (checkins_of st (User.id me)) st)
    as (Hu & Hhl & _ & _).
  destruct (resolved_user req st me Hme) as [_ Hget].
  fold st1 in Hu, Hhl.
  set (row := CheckIn.mk (next_id (map CheckIn.id (checkins st))) (User.id me)
                hall_id t1 (t2 + one_hour)).
  assert (checkin_fk_ok st1 row = true) as Hfk.
  { unfold checkin_fk_ok, get_user, get_hall. simpl. rewrite Hu, Hhl.
    fold (get_user st (User.id me)). fold (get_hall st hall_id).
    rewrite Hget, Hh. apply orb_true_r. }
  split.
  - unfold checkin_post. rewrite Hme, Hh. fold st1. fold row.
    now rewrite Hfk.
  - intros c Hin Hown.
    destruct (checkins_after_delete_own st (User.id me) 0) as [Hnone _].
    fold st1 in Hnone.
    assert (In c (checkins_of st1 (User.id me))) as Hc
      by (apply filter_In; split; [exact Hin | now apply Z.eqb_eq]).
    now rewrite Hnone in Hc.
Qed.

(** X22. After a check-in, the user is listed at the hall just chosen and nowhere
    else: whatever hall and time one asks about, a row of this user in that
    hall's listing is the new row, so the hall is the one of the check-in. *)
Theorem one_hall_at_a_time {E : External} (req : Request)
    (hall_id t1 t2 t3 : Z) (st : Store) (me : User.t) (h : DiningHall.t)
    (other now : Z) (c : CheckIn.t) :
  read_user_from_cookie req st = Some me ->
  get_hall st hall_id = Some h ->
  let st' := snd (checkin_post req hall_id t1 t2 t3 st) in
  In c (hall_checkins st' other now) ->
  CheckIn.user_id c = User.id me ->
  other = hall_id /\ CheckIn.checked_at c = t1
  /\ CheckIn.expires_at c = t2 + one_hour.
Proof.
  intros Hme Hh st' Hin Hown.
  destruct (@checkin_expiry_rows E req hall_id t1 t2 t3 st me h Hme Hh)
    as (Hst' & Hnone).
  fold st' in Hst'. apply hall_checkins_spec in Hin.
  destruct Hin as (Hin & Hhall & _). rewrite Hst' in Hin.
  apply in_app_or in Hin. destruct Hin as [Hin | [<- | []]].
  - exfalso. apply (Hnone c Hin Hown).
  - simpl in Hhall. now subst other.
Qed.

Lemma one_hall_at_a_time_witness :
  let st' :=
    snd (@checkin_post sqlite_like (request_of 1) 2 500 501 502
           (sample_store sqlite_like)) in
  map CheckIn.user_id (hall_checkins st' 3 600) = []
  /\ map CheckIn.user_id (hall_checkins st' 2 600) = [1]
  /\ forall other c,
       In c (hall_checkins st' other 600) -> CheckIn.user_id c = 1 ->
       other = 2.
Proof.
  intros st'. split; [vm_compute; reflexivity|].
  split; [vm_compute; reflexivity|].
  assert (read_user_from_cookie (request_of 1) (sample_store sqlite_like)
          = Some (mahad sqlite_like)) as Hme by (vm_compute; reflexivity).
  assert (get_hall (sample_store sqlite_like) 2
          = Some (DiningHall.mk 2 "Berkshire Dining Commons")) as Hh
    by (vm_compute; reflexivity).
  intros other c Hin Hown.
  exact (proj1 (@one_hall_at_a_time sqlite_like (request_of 1) 2 500 501 502
                  (sample_store sqlite_like) (mahad sqlite_like)
                  (DiningHall.mk 2 "Berkshire Dining Commons") other 600 c
                  Hme Hh Hin Hown)).
Defined.
